(** * Salt plugin modules: availability predicates, memoized probes,
      alias tables and state functions

    A shallow embedding of the plugin code under [salt/modules],
    [salt/states], [salt/output], [salt/runners] and [salt/utils], with the
    properties the specification states about it. Python functions that read
    or change the host become functions in a state-and-exception monad;
    Python's dynamically typed results become small inductive types. *)

From Stdlib Require Import ZArith Lia Ascii String.
From stdpp Require Import base strings gmap list.

Set Warnings "-register-all".
Open Scope string_scope.

(** ** Python values, exceptions and the effect monad *)

Module Py.

(** The exceptions the embedded code can raise. *)
Inductive PyExn :=
| KeyError (key : string)
| IndexError (msg : string)
| ValueError (msg : string)
| AttributeError (msg : string)
| CommandExecutionError (msg : string)
| TypeError (msg : string).

Inductive Res (A : Type) :=
| Ret (a : A)
| Raise (e : PyExn).
Arguments Ret {A} a.
Arguments Raise {A} e.

(** A computation over a state [S] that returns or raises. The state
    reached when an exception is raised is kept: effects performed before
    the [raise] remain visible. *)
Definition M (S A : Type) : Type := S -> Res A * S.

Definition ret {S A} (a : A) : M S A := fun s => (Ret a, s).

Definition raise {S A} (e : PyExn) : M S A := fun s => (Raise e, s).

Definition bind {S A B} (m : M S A) (k : A -> M S B) : M S B :=
  fun s => match m s with
           | (Ret a, s') => k a s'
           | (Raise e, s') => (Raise e, s')
           end.

Notation "'let*' x ':=' m 'in' k" := (bind m (fun x => k))
  (at level 10, x name, m at level 100, k at level 200).

(** [for x in xs: acc = body(x, acc)]. *)
Fixpoint for_each {S A B} (xs : list A) (body : A -> B -> M S B) (acc : B)
  : M S B :=
  match xs with
  | [] => ret acc
  | x :: xs' => let* acc' := body x acc in for_each xs' body acc'
  end.

(** [which] returns a path or [None]. *)
Definition ProbeOutcome : Type := option string.

(** Truth value of [None] and of a [str]. *)
Definition truthy_str (s : string) : bool := negb (String.eqb s "").

Definition truthy (p : ProbeOutcome) : bool :=
  match p with
  | Some s => truthy_str s
  | None => false
  end.

(** [str(p)], as an f-string renders it. *)
Definition str (p : ProbeOutcome) : string :=
  match p with
  | Some s => s
  | None => "None"
  end.

(** [needle in hay] on strings. *)
Fixpoint contains (needle hay : string) : bool :=
  String.prefix needle hay
  || match hay with
     | EmptyString => false
     | String _ hay' => contains needle hay'
     end.

(** [s.lower()]. Text is ASCII: the letters A to Z are the ones that
    change. *)
Definition lower_ascii (c : ascii) : ascii :=
  let n := nat_of_ascii c in
  if Nat.leb 65 n && Nat.leb n 90 then ascii_of_nat (n + 32) else c.

Fixpoint lower (s : string) : string :=
  match s with
  | EmptyString => EmptyString
  | String c s' => String (lower_ascii c) (lower s')
  end.

(** [x in (a, b, ...)] on strings. *)
Definition in_tuple (x : string) (t : list string) : bool :=
  bool_decide (x ∈ t).

(** [s.split(sep)] for a separator of one character. *)
Fixpoint split_on (sep : ascii) (s : string) : list string :=
  match s with
  | EmptyString => [EmptyString]
  | String c s' =>
      if Ascii.eqb c sep then EmptyString :: split_on sep s'
      else match split_on sep s' with
           | [] => [String c EmptyString]
           | w :: ws => String c w :: ws
           end
  end.

(** [s.replace] of every blank by nothing. *)
Fixpoint remove_spaces (s : string) : string :=
  match s with
  | EmptyString => EmptyString
  | String c s' =>
      if Ascii.eqb c " "%char then remove_spaces s'
      else String c (remove_spaces s')
  end.

(** The elements of a list two by two, an odd last one left out, as [zip]
    pairs them when it is given one iterator twice. *)
Fixpoint pairs (l : list string) : list (string * string) :=
  match l with
  | a :: l' =>
      match l' with
      | b :: l'' => (a, b) :: pairs l''
      | [] => []
      end
  | [] => []
  end.

(** The line feed. *)
Definition nl : string := String "010"%char EmptyString.

(** The Python values that configuration dictionaries hold. A dictionary
    keeps its items in insertion order. *)
Inductive PyVal :=
| PNone
| PBool (b : bool)
| PInt (z : Z)
| PStr (s : string)
| PList (items : list PyVal)
| PDict (items : list (string * PyVal)).

(** Truth value of a Python value. *)
Definition truthy_val (v : PyVal) : bool :=
  match v with
  | PNone => false
  | PBool b => b
  | PInt z => negb (Z.eqb z 0)
  | PStr s => truthy_str s
  | PList l => match l with [] => false | _ => true end
  | PDict d => match d with [] => false | _ => true end
  end.

(** Lookup in the items of a dictionary. *)
Fixpoint dict_get (key : string) (items : list (string * PyVal))
  : option PyVal :=
  match items with
  | [] => None
  | (k, v) :: items' => if String.eqb k key then Some v else dict_get key items'
  end.

(** [d[key]]. *)
Definition subscript {S} (items : list (string * PyVal)) (key : string)
  : M S PyVal :=
  match dict_get key items with
  | Some v => ret v
  | None => raise (KeyError key)
  end.

(** What a [__virtual__] function returns: [True], [False], the pair
    [(False, reason)], or a name. *)
Inductive VirtualResult :=
| VTrue
| VFalse
| VReject (reason : string)
| VName (name : string).

(** [c in s] for one character. *)
Fixpoint has_char (c : ascii) (s : string) : bool :=
  match s with
  | EmptyString => false
  | String a s' => Ascii.eqb a c || has_char c s'
  end.

(** [sep.join(parts)]. *)
Fixpoint join (sep : string) (parts : list string) : string :=
  match parts with
  | [] => EmptyString
  | p :: ps =>
      match ps with
      | [] => p
      | _ => p +:+ sep +:+ join sep ps
      end
  end.

(** [s.rsplit(sep, maxsplit=1)] for a separator of one character: the text
    before the last separator and the text after it, or the string alone
    when it holds no separator. *)
Definition rsplit1 (sep : ascii) (s : string) : list string :=
  match reverse (split_on sep s) with
  | [] | [_] => [s]
  | after :: before =>
      [join (String sep EmptyString) (reverse before); after]
  end.

(** The text after [pre] in a string that starts with it, which is
    [s.split(pre, 1)[1]] there; [None] when [s.startswith(pre)] is false. *)
Fixpoint after_prefix (pre s : string) : option string :=
  match pre with
  | EmptyString => Some s
  | String a pre' =>
      match s with
      | EmptyString => None
      | String b s' => if Ascii.eqb a b then after_prefix pre' s' else None
      end
  end.

(** [s.replace("%20", " ")]. *)
Fixpoint unquote_blanks (s : string) : string :=
  match s with
  | EmptyString => EmptyString
  | String a s' =>
      match s' with
      | String b (String c s'') =>
          if Ascii.eqb a "%" && Ascii.eqb b "2" && Ascii.eqb c "0"
          then String " " (unquote_blanks s'')
          else String a (unquote_blanks s')
      | _ => String a (unquote_blanks s')
      end
  end.

(** [l.remove(x)] for an [x] that is in the list: the first element equal
    to [x] goes. *)
Fixpoint remove_first (x : string) (l : list string) : list string :=
  match l with
  | [] => []
  | y :: l' => if String.eqb y x then l' else y :: remove_first x l'
  end.

(** The double quote. *)
Definition dquote : string := String "034"%char EmptyString.

End Py.
Export Py.

(** ** The host and the run-time state of one generation *)

(** The result dictionary of [cmd.run_all], with the two keys the plugins
    read. *)
Record CmdResult := mkCmdResult { retcode : Z; stdout : string }.

(** Functions of Python and its standard library that the plugins call and
    that are taken as they are: [str.splitlines], [textwrap.dedent], [re.split] on the pattern for two or more blanks,
    [re.sub] with a literal pattern, [str.strip], [int] on a string ([None]
    where Python raises [ValueError]), [repr] of a list of strings, and the
    text [str.format] substitutes for a value. *)
Class Builtins := {
  splitlines : string -> list string;
  dedent : string -> string;
  re_split_blanks : string -> list string;
  re_sub : string -> string -> string -> string;
  strip : string -> string;
  int_of_str : string -> option Z;
  repr_lines : list string -> string;
  format_val : PyVal -> string;
}.

(** The helpers of Salt and the host they look at. None of them is defined
    in the plugin files; the plugins are embedded against this interface.
    [which] is [salt.utils.path.which]; the platform tests are those of
    [salt.utils.platform]; [cmd_run] and [cmd_run_all] are the entries
    [cmd.run] and [cmd.run_all] of [__salt__]; [netsh_f] is what
    [salt.modules.cmdmod.run] answers for [netsh -f file], given the text
    held by the file. The host may change under any of the calls. *)
Class Env (W : Type) := {
  which : string -> W -> ProbeOutcome * W;
  is_windows : W -> bool;
  is_smartos_globalzone : W -> bool;
  cmd_run : string -> W -> string * W;
  cmd_run_all : string -> W -> CmdResult * W;
  netsh_f : string -> W -> string * W;
}.

(** The [stderr] entry of the dictionary that [cmd.run_all] answers for a
    command on a host. *)
Class EnvStderr (W : Type) := {
  cmd_stderr : string -> W -> string;
}.

(** State threaded through plugin code: the stored probe results, the keys
    whose underlying check was executed (most recent first), the shell
    commands handed to [cmd.run] and [cmd.run_all] (most recent first), and
    the host. *)
Record Rt (W : Type) := mkRt {
  cache : gmap string ProbeOutcome;
  checks : list string;
  shell : list string;
  host : W;
}.
Arguments mkRt {W} _ _ _ _.
Arguments cache {W} _.
Arguments checks {W} _.
Arguments shell {W} _.
Arguments host {W} _.

(** The state at the start of a generation: nothing probed, nothing run. *)
Definition fresh {W} (w : W) : Rt W := mkRt ∅ [] [] w.

Module ProbeCache.
Section ProbeCache.
Context {W : Type}.

(** Run a check on the host, not stored. *)
Definition run_check (key : string) (check : W -> ProbeOutcome * W)
  : M (Rt W) ProbeOutcome :=
  fun g => let '(v, w') := check (host g) in
           (Ret v, mkRt (cache g) (key :: checks g) (shell g) w').

(** Modelled from the spec: [salt.utils.decorators.memoize] is defined
    outside the files embedded here. Section 4.1: the first call for a key executes the
    underlying check and stores the result; later calls with the same key
    return the stored result without executing the check again. A
    negative outcome is stored like any other. *)
Definition memoize (key : string) (check : W -> ProbeOutcome * W)
  : M (Rt W) ProbeOutcome :=
  fun g => match cache g !! key with
           | Some v => (Ret v, g)
           | None =>
               let '(v, w') := check (host g) in
               (Ret v, mkRt (<[key := v]> (cache g)) (key :: checks g)
                            (shell g) w')
           end.

(** What happens to a generation between two plugin calls: a probe is
    looked up, or the host changes on its own (a binary is installed or
    removed). *)
Inductive Ev :=
| Lookup (key : string)
| Drift (f : W -> W).

Definition drift (f : W -> W) (g : Rt W) : Rt W :=
  mkRt (cache g) (checks g) (shell g) (f (host g)).

(** Run the events in order with the check [check key] behind each key;
    collect the outcome of every lookup. *)
Fixpoint run (check : string -> W -> ProbeOutcome * W) (evs : list Ev)
    (g : Rt W) : list (string * ProbeOutcome) * Rt W :=
  match evs with
  | [] => ([], g)
  | Lookup key :: evs' =>
      match memoize key (check key) g with
      | (Ret v, g') =>
          let '(rs, g'') := run check evs' g' in ((key, v) :: rs, g'')
      | (Raise _, g') => run check evs' g'
      end
  | Drift f :: evs' => run check evs' (drift f g)
  end.

Definition looked_up (evs : list Ev) : list string :=
  omap (fun ev => match ev with Lookup k => Some k | Drift _ => None end)
       evs.

(** How many times the check behind [key] was executed. *)
Definition executions (key : string) (g : Rt W) : nat :=
  length (filter (fun k => k = key) (checks g)).

(** The outcome of the first lookup of [key] among [rs]. *)
Definition first_outcome (key : string) (rs : list (string * ProbeOutcome))
  : option ProbeOutcome :=
  snd <$> head (filter (fun kv => kv.1 = key) rs).

End ProbeCache.
End ProbeCache.
Export ProbeCache.

(** ** salt/modules/nginx.py *)

Module Nginx.
Section Nginx.
Context {W : Type} `{Env W}.

Definition __detect_os : M (Rt W) ProbeOutcome :=
  memoize "nginx.__detect_os" (which "nginx").

Definition not_installed : string :=
  "The nginx execution module cannot be loaded: nginx is not installed.".

Definition __virtual__ : M (Rt W) VirtualResult :=
  let* p := __detect_os in
  if truthy p then ret VTrue else ret (VReject not_installed).

End Nginx.
End Nginx.

(** ** salt/modules/mdata.py *)

Module Mdata.

Definition __func_alias__ : list (string * string) :=
  [("list_", "list"); ("get_", "get"); ("put_", "put");
   ("delete_", "delete")].

Definition __virtualname__ : string := "mdata".

(** [list_] returns the lines of [mdata-list], or the empty dictionary. *)
Inductive Listing :=
  | Lines (ls : list string)
  | EmptyDict.

(** Iterating over a listing, and [k in listing]. *)
Definition iter (l : Listing) : list string :=
  match l with
  | Lines ls => ls
  | EmptyDict => []
  end.

Definition member (k : string) (l : Listing) : bool :=
  bool_decide (k ∈ iter l).

Section Mdata.
Context {W : Type} `{Builtins} `{Env W}.

Definition _check_mdata_list : M (Rt W) ProbeOutcome :=
  memoize "mdata._check_mdata_list" (which "mdata-list").

Definition _check_mdata_get : M (Rt W) ProbeOutcome :=
  memoize "mdata._check_mdata_get" (which "mdata-get").

Definition _check_mdata_put : M (Rt W) ProbeOutcome :=
  memoize "mdata._check_mdata_put" (which "mdata-put").

Definition _check_mdata_delete : M (Rt W) ProbeOutcome :=
  memoize "mdata._check_mdata_delete" (which "mdata-delete").

(** [__salt__["cmd.run"](cmd, ...)] and [__salt__["cmd.run_all"](cmd, ...)]:
    the command is recorded, the host answers. *)
Definition salt_cmd_run (cmd : string) : M (Rt W) string :=
  fun g => let '(out, w') := cmd_run cmd (host g) in
           (Ret out, mkRt (cache g) (checks g) (cmd :: shell g) w').

Definition salt_cmd_run_all (cmd : string) : M (Rt W) CmdResult :=
  fun g => let '(res, w') := cmd_run_all cmd (host g) in
           (Ret res, mkRt (cache g) (checks g) (cmd :: shell g) w').

Definition smartos_only : string :=
  __virtualname__ +:+ " module can only be loaded on SmartOS zones".

(** [and] evaluates the platform test only when the probe is truthy; the
    test reads the host and changes nothing. *)
Definition __virtual__ : M (Rt W) VirtualResult :=
  let* p := _check_mdata_list in
  fun g =>
    if truthy p && negb (is_smartos_globalzone (host g))
    then (Ret (VName __virtualname__), g)
    else (Ret (VReject smartos_only), g).

Definition list_ : M (Rt W) Listing :=
  let* mdata := _check_mdata_list in
  if truthy mdata then
    let* out := salt_cmd_run (str mdata) in
    ret (Lines (splitlines out))
  else ret EmptyDict.

Definition get_ (keyname : list string) : M (Rt W) (gmap string string) :=
  let* mdata := _check_mdata_get in
  let* keyname :=
    match keyname with
    | [] => let* l := list_ in ret (iter l)
    | _ => ret keyname
    end in
  for_each keyname
    (fun k ret_ =>
       if truthy mdata then
         let* res := salt_cmd_run_all (str mdata +:+ " " +:+ k) in
         ret (<[k := if Z.eqb (retcode res) 0 then stdout res else ""]> ret_)
       else ret (<[k := ""]> ret_))
    ∅.

(** [ret] starts as the empty dictionary and is replaced by the result of
    [cmd.run_all] only when the probe is truthy; [ret["retcode"]] is read
    in both cases. *)
Definition put_ (keyname val : string) : M (Rt W) bool :=
  let* mdata := _check_mdata_put in
  let* ret_ :=
    if truthy mdata then
      let* res :=
        salt_cmd_run_all
          ("echo " +:+ val +:+ " | " +:+ str mdata +:+ " " +:+ keyname) in
      ret (Some res)
    else ret None in
  match ret_ with
  | Some res => ret (Z.eqb (retcode res) 0)
  | None => raise (KeyError "retcode")
  end.

Definition delete_ (keyname : list string) : M (Rt W) (gmap string bool) :=
  let* mdata := _check_mdata_delete in
  let* valid_keynames := list_ in
  for_each keyname
    (fun k ret_ =>
       if truthy mdata && member k valid_keynames then
         let* res := salt_cmd_run_all (str mdata +:+ " " +:+ k) in
         ret (<[k := Z.eqb (retcode res) 0]> ret_)
       else ret (<[k := true]> ret_))
    ∅.

End Mdata.
End Mdata.

(** The checks behind the memoized functions of the two modules, by the key
    each is stored under. *)
Definition plugin_check {W : Type} `{Env W} (key : string)
  : W -> ProbeOutcome * W :=
  if String.eqb key "nginx.__detect_os" then which "nginx"
  else if String.eqb key "mdata._check_mdata_list" then which "mdata-list"
  else if String.eqb key "mdata._check_mdata_get" then which "mdata-get"
  else if String.eqb key "mdata._check_mdata_put" then which "mdata-put"
  else if String.eqb key "mdata._check_mdata_delete" then which "mdata-delete"
  else fun w => (None, w).

(** ** salt/modules/nginx.py, the functions that run nginx *)

Module NginxCommands.
Section NginxCommands.
Context {W : Type} `{Builtins} `{Env W} `{EnvStderr W}.

(** [__salt__["cmd.run_all"](cmd)] with the three entries of its answer. *)
Definition salt_cmd_run_all (cmd : string) : M (Rt W) (CmdResult * string) :=
  fun g => let err := cmd_stderr cmd (host g) in
           let '(res, w') := cmd_run_all cmd (host g) in
           (Ret (res, err), mkRt (cache g) (checks g) (cmd :: shell g) w').

(** The path is put into the command as an f-string renders it, [None]
    included. *)
Definition version : M (Rt W) string :=
  let* nginx := Nginx.__detect_os in
  let cmd := str nginx +:+ " -v" in
  let* out := Mdata.salt_cmd_run cmd in
  match splitlines out with
  | [] => raise (IndexError "list index out of range")
  | first :: _ =>
      match last (rsplit1 "/" first) with
      | Some v => ret v
      | None => raise (IndexError "list index out of range")
      end
  end.

Definition valid_signals : list string :=
  ["start"; "reopen"; "stop"; "quit"; "reload"].

Definition completed (cmd : string) : string :=
  "Command: " +:+ dquote +:+ cmd +:+ dquote +:+ " completed successfully!".

(** [signal] returns a text, or [None] for a signal it does not know. The
    path and the arguments are joined with [+], which raises [TypeError]
    when the path is [None]. *)
Definition signal (signal_ : option string) : M (Rt W) (option string) :=
  match signal_ with
  | None => ret None
  | Some name =>
      if negb (in_tuple name valid_signals) then ret None
      else
        let arguments :=
          if String.eqb name "start" then "" else " -s " +:+ name in
        let* nginx := Nginx.__detect_os in
        match nginx with
        | None =>
            raise (TypeError
                     "unsupported operand type(s) for +: 'NoneType' and 'str'")
        | Some path =>
            let cmd := path +:+ arguments in
            let* out := salt_cmd_run_all cmd in
            let '(res, stderr) := out in
            if negb (Z.eqb (retcode res) 0) && truthy_str stderr then
              ret (Some (strip stderr))
            else if truthy_str stderr then ret (Some (strip stderr))
            else if truthy_str (stdout res) then ret (Some (strip (stdout res)))
            else ret (Some (completed cmd))
        end
  end.

End NginxCommands.
End NginxCommands.

(** ** salt/output/pony.py *)

Module Pony.
Section Pony.
Context {W : Type} `{Env W}.

Definition __virtualname__ : string := "pony".

(** The lookup is not memoized here. *)
Definition __virtual__ : M (Rt W) VirtualResult :=
  let* p := run_check "ponysay" (which "ponysay") in
  if truthy p then ret (VName __virtualname__) else ret VFalse.

End Pony.
End Pony.

(** ** salt/runners/asam.py *)

Module Asam.

(** [_get_asam_configuration] returns a dictionary or [False]. *)
Inductive Configuration :=
  | Config (ret : list (string * PyVal))
  | CFalse.

Section Asam.
Context `{Builtins}.

(** Whether [html.parser] and [requests] could be imported. *)
Variable HAS_LIBS : bool.
Variable __opts__ : list (string * PyVal).

(** [v.get(key, default)]; only a dictionary has the method. *)
Definition get (v : PyVal) (key : string) (default : PyVal) : Res PyVal :=
  match v with
  | PDict items =>
      Ret (match dict_get key items with Some x => x | None => default end)
    | _ => Raise (AttributeError "get")
  end.

(** [v.items()]. *)
Definition items (v : PyVal) : Res (list (string * PyVal)) :=
  match v with
  | PDict its => Ret its
  | _ => Raise (AttributeError "items")
  end.

Definition url (protocol : PyVal) (asam_server : string) (port : PyVal)
    (page : string) : string :=
  format_val protocol +:+ "://" +:+ asam_server +:+ ":" +:+ format_val port
  +:+ "/config/" +:+ page.

(** The [for] loop: what it returns, or [None] when it ends without a
    [return]. *)
Fixpoint scan (driver_url : string) (servers : list (string * PyVal))
  : Res (option Configuration) :=
  match servers with
  | [] => Ret None
  | (asam_server, service_config) :: servers' =>
      match get service_config "username" PNone,
            get service_config "password" PNone,
            get service_config "protocol" (PStr "https"),
            get service_config "port" (PInt 3451),
            get service_config "verify_ssl" PNone with
      | Ret username, Ret password, Ret protocol, Ret port, Ret verify_ssl =>
          let verify_ssl :=
            match verify_ssl with PNone => PBool true | v => v end in
          if negb (truthy_val username) || negb (truthy_val password)
          then Ret (Some CFalse)
          else
            let ret :=
              [("platform_edit_url",
                 PStr (url protocol asam_server port "PlatformEdit.html"));
               ("platform_config_url",
                 PStr (url protocol asam_server port "PlatformConfig.html"));
               ("platformset_edit_url",
                 PStr (url protocol asam_server port "PlatformSetEdit.html"));
               ("platformset_config_url",
                 PStr (url protocol asam_server port
                         "PlatformSetConfig.html"));
               ("username", username);
               ("password", password);
               ("verify_ssl", verify_ssl)] in
            if negb (truthy_str driver_url)
               || String.eqb driver_url asam_server
            then Ret (Some (Config ret))
            else scan driver_url servers'
      | Raise e, _, _, _, _ | _, Raise e, _, _, _ | _, _, Raise e, _, _
      | _, _, _, Raise e, _ | _, _, _, _, Raise e => Raise e
      end
  end.

Definition _get_asam_configuration (driver_url : string) : Configuration :=
  let asam_config :=
    match dict_get "asam" __opts__ with
    | Some v => v
    | None => PNone
    end in
  if truthy_val asam_config then
    (* try: ... except Exception: return False *)
    match items asam_config with
    | Ret servers =>
        match scan driver_url servers with
        | Ret (Some c) => c
        | Ret None =>
            (* after the loop: if driver_url: return False; then the last
               return False of the function *)
            if truthy_str driver_url then CFalse else CFalse
        | Raise _ => CFalse
        end
    | Raise _ => CFalse
    end
  else CFalse.

(** [c is False]. *)
Definition is_False (c : Configuration) : bool :=
  match c with
  | CFalse => true
  | _ => false
  end.

Definition __virtual__ : VirtualResult :=
  if negb HAS_LIBS then VFalse
  else if is_False (_get_asam_configuration "") then VFalse
  else VTrue.

End Asam.

(** The entry of a server is a dictionary with a truthy user name and a
    truthy password. *)
Definition has_credentials (service_config : PyVal) : bool :=
  match service_config with
  | PDict items =>
      match dict_get "username" items, dict_get "password" items with
      | Some username, Some password =>
          truthy_val username && truthy_val password
      | _, _ => false
      end
  | _ => false
  end.

(** A query string: the parameters, each [key=value], joined with [&]. *)
Definition query (parameters : list (string * string)) : string :=
  join "&" (map (fun kv => kv.1 +:+ "=" +:+ kv.2) parameters).

(** Keys and values that hold neither [&] nor [=]. *)
Definition plain (parameters : list (string * string)) : Prop :=
  Forall (fun kv => has_char "&" kv.1 = false /\ has_char "=" kv.1 = false
                    /\ has_char "&" kv.2 = false /\ has_char "=" kv.2 = false)
         parameters.

(** [ASAMHTMLParser.handle_starttag]: what one start tag adds to [data]. The
    loop over the attributes returns at the first one that is not [href]. *)
Fixpoint leading_hrefs (attrs : list (string * option string))
  : list (option string) :=
  match attrs with
  | [] => []
  | (k, v) :: attrs' =>
      if negb (String.eqb k "href") then [] else v :: leading_hrefs attrs'
  end.

Definition handle_starttag (tag : string)
    (attrs : list (string * option string)) : list (option string) :=
  if negb (String.eqb tag "a") then [] else leading_hrefs attrs.

(** The [for] loop of [_parse_html_content] over the list it changes: the
    loop reads the element at its index and moves the index on; a line that
    starts with [<META] is removed from the list, which moves the lines
    after it one place down; any other line is fed to the parser. [fuel]
    bounds the number of rounds. *)
Fixpoint feed_loop (fuel i : nat) (html_content fed : list string)
  : list string * list string :=
  match fuel with
  | O => (html_content, fed)
  | S fuel' =>
      match html_content !! i with
      | None => (html_content, fed)
      | Some line =>
          if String.prefix "<META" line
          then feed_loop fuel' (S i) (remove_first line html_content) fed
          else feed_loop fuel' (S i) html_content (fed ++ [line])
      end
  end.

(** The lines fed to the parser, in order. *)
Definition fed_lines (html_content : list string) : list string :=
  (feed_loop (length html_content) 0 html_content []).2.

(** [_parse_html_content(html_content).data]. [start_tags] gives the start
    tags, each with its attributes, that [HTMLParser] finds in the lines fed
    to it. *)
Definition _parse_html_content
    (start_tags : list string -> list (string * list (string * option string)))
    (html_content : list string) : list (option string) :=
  flat_map (fun t => handle_starttag t.1 t.2) (start_tags (fed_lines html_content)).

(** [parameter.split("=")[1]]. *)
Definition value_of (parameter : string) : Res string :=
  match split_on "="%char parameter with
  | _ :: v :: _ => Ret v
  | _ => Raise (IndexError "list index out of range")
  end.

(** The inner loop of [_get_platformset_name]. *)
Fixpoint first_set_name (parameter_list : list string) : Res (option string) :=
  match parameter_list with
  | [] => Ret None
  | parameter :: parameter_list' =>
      if String.prefix "platformSetName" parameter then
        match value_of parameter with
        | Ret v => Ret (Some v)
        | Raise e => Raise e
        end
      else first_set_name parameter_list'
  end.

(** An item of [data] is the value of an [href], or [None] for an [href]
    without a value. *)
Fixpoint _get_platformset_name (data : list (option string))
    (platform_name : string) : Res (option string) :=
  match data with
  | [] => Ret None
  | None :: _ =>
      Raise (TypeError "argument of type 'NoneType' is not iterable")
  | Some item :: data' =>
      if contains platform_name item
         && String.prefix "PlatformEdit.html?" item then
        match first_set_name (split_on "&"%char item) with
        | Ret (Some v) => Ret (Some v)
        | Ret None => _get_platformset_name data' platform_name
        | Raise e => Raise e
        end
      else _get_platformset_name data' platform_name
  end.

(** The inner loop of [_get_platforms]. *)
Fixpoint platform_names (parameter_list : list string) : Res (list string) :=
  match parameter_list with
  | [] => Ret []
  | parameter :: parameter_list' =>
      if String.prefix "platformName" parameter then
        match value_of parameter with
        | Ret v =>
            match platform_names parameter_list' with
            | Ret vs => Ret (v :: vs)
            | Raise e => Raise e
            end
        | Raise e => Raise e
        end
      else platform_names parameter_list'
  end.

Fixpoint _get_platforms (data : list (option string)) : Res (list string) :=
  match data with
  | [] => Ret []
  | None :: _ =>
      Raise (AttributeError "'NoneType' object has no attribute 'startswith'")
  | Some item :: data' =>
      match after_prefix "PlatformEdit.html?" item with
      | Some parameters =>
          match platform_names (split_on "&"%char parameters) with
          | Ret names =>
              match _get_platforms data' with
              | Ret names' => Ret (names ++ names')%list
              | Raise e => Raise e
              end
          | Raise e => Raise e
          end
      | None => _get_platforms data'
      end
  end.

(** The inner loop of [_get_platform_sets]. *)
Fixpoint platform_set_names (parameter_list : list string)
  : Res (list string) :=
  match parameter_list with
  | [] => Ret []
  | parameter :: parameter_list' =>
      if String.prefix "platformSetName" parameter then
        match value_of parameter with
        | Ret v =>
            match platform_set_names parameter_list' with
            | Ret vs => Ret (unquote_blanks v :: vs)
            | Raise e => Raise e
            end
        | Raise e => Raise e
        end
      else platform_set_names parameter_list'
  end.

Fixpoint _get_platform_sets (data : list (option string))
  : Res (list string) :=
  match data with
  | [] => Ret []
  | None :: _ =>
      Raise (AttributeError "'NoneType' object has no attribute 'startswith'")
  | Some item :: data' =>
      match after_prefix "PlatformSetEdit.html?" item with
      | Some parameters =>
          match platform_set_names (split_on "&"%char parameters) with
          | Ret names =>
              match _get_platform_sets data' with
              | Ret names' => Ret (names ++ names')%list
              | Raise e => Raise e
              end
          | Raise e => Raise e
          end
      | None => _get_platform_sets data'
      end
  end.

End Asam.

(** ** State functions: the record they return and the calls they make *)

(** The dictionary [{"name": ..., "result": ..., "comment": ...,
    "changes": ...}]; [result] is [True], [False] or [None]. *)
Record StateRet := mkStateRet {
  r_name : string;
  r_result : option bool;
  r_comment : string;
  r_changes : gmap string PyVal;
}.

(** A state function runs over the log of the [__salt__] entries it has
    invoked, most recent first. [invoke key v] is the call
    [__salt__[key](...)] answering [v]. *)
Definition invoke {A} (key : string) (v : A) : M (list string) A :=
  fun log => (Ret v, key :: log).

(** [key in __salt__] on a dispatch table, whatever it maps to. *)
Definition has_key {Op} (__salt__ : gmap string Op) (key : string) : bool :=
  bool_decide (is_Some (__salt__ !! key)).

(** ** salt/states/gem.py *)

Module GemState.

(** The arguments [installed] hands on to [gem.install]. *)
Record InstallArgs := mkInstallArgs {
  i_name : string;
  i_ruby : option string;
  i_gem_bin : option string;
  i_runas : option string;
  i_version : option string;
  i_rdoc : bool;
  i_ri : bool;
  i_pre_releases : bool;
  i_proxy : option string;
  i_source : option string;
}.

(** The entries of [__salt__] the gem states call, as functions of their
    arguments. [gem.list] answers a dictionary from gem names to the list of
    their installed versions. *)
Record Salt := {
  rvm_is_installed : option string -> bool;
  rbenv_is_installed : option string -> bool;
  gem_list : string -> option string -> option string -> option string ->
             list (string * list string);
  gem_install : InstallArgs -> bool;
  gem_uninstall : string -> option string -> option string ->
                  option string -> bool;
  gem_sources_list : option string -> option string -> list string;
  gem_sources_add : string -> option string -> option string -> bool;
  gem_sources_remove : string -> option string -> option string -> bool;
}.

(** [gems[name]] for [name in gems]. *)
Fixpoint versions_of (name : string) (gems : list (string * list string))
  : option (list string) :=
  match gems with
  | [] => None
  | (k, vs) :: gems' =>
      if String.eqb k name then Some vs else versions_of name gems'
  end.

(** [re.match(r"(>=|>|<|<=)", version)]: the alternatives are tried in the
    order written, at the start of the string. *)
Definition match_cmpr (version : string) : option string :=
  if String.prefix ">=" version then Some ">="
  else if String.prefix ">" version then Some ">"
  else if String.prefix "<" version then Some "<"
  else if String.prefix "<=" version then Some "<="
  else None.

Definition __virtual__ {Op} (__salt__ : gmap string Op) : VirtualResult :=
  if has_key __salt__ "gem.list" then VTrue
  else VReject "gem module could not be loaded".

Section GemState.
Context `{Builtins}.

(** [salt.utils.versions.compare(ver1, oper, ver2)]. *)
Variable versions_compare : string -> string -> string -> bool.
Variable __salt__ : Salt.
Variable __opts__ : list (string * PyVal).

Definition installed (a : InstallArgs) : M (list string) StateRet :=
  let name := i_name a in
  let ruby := i_ruby a in
  let gem_bin := i_gem_bin a in
  let user := i_runas a in
  let version := i_version a in
  let ret_ := mkStateRet name None "" ∅ in
  let* _ :=
    match ruby with
    | Some _ =>
        let* rvm := invoke "rvm.is_installed"
                           (rvm_is_installed __salt__ user) in
        if rvm then ret tt
        else
          let* _ := invoke "rbenv.is_installed"
                           (rbenv_is_installed __salt__ user) in
          ret tt
    | None => ret tt
    end in
  let* gems := invoke "gem.list" (gem_list __salt__ name ruby gem_bin user) in
  let rest : M (list string) StateRet :=
    let* test := subscript __opts__ "test" in
    if truthy_val test then
      ret (mkStateRet name None
             ("The gem " +:+ name +:+ " would have been installed") ∅)
    else
      let* ok := invoke "gem.install" (gem_install __salt__ a) in
      if ok then
        ret (mkStateRet name (Some true) "Gem was successfully installed"
               (<[name := PStr "Installed"]> ∅))
      else ret (mkStateRet name (Some false) "Could not install gem." ∅) in
  match versions_of name gems, version with
  | Some versions, Some version =>
      match match_cmpr version with
      | Some cmpr =>
          match versions with
          | [] => raise (IndexError "list index out of range")
          | first :: _ =>
              let installed_version :=
                strip (re_sub "default: " "" first) in
              let desired_version := strip (re_sub cmpr "" version) in
              if versions_compare installed_version cmpr desired_version
              then ret (mkStateRet name (Some true)
                          "Installed Gem meets version requirements." ∅)
              else rest
          end
      | None =>
          if bool_decide (version ∈ versions)
          then ret (mkStateRet name (Some true) "Gem is already installed." ∅)
          else rest
      end
  | Some _, None =>
      ret (mkStateRet name (Some true) "Gem is already installed." ∅)
  | None, _ => rest
  end.

Definition removed (name : string) (ruby user gem_bin : option string)
  : M (list string) StateRet :=
  let* gems := invoke "gem.list" (gem_list __salt__ name ruby gem_bin user) in
  match versions_of name gems with
  | None => ret (mkStateRet name (Some true) "Gem is not installed." ∅)
  | Some _ =>
      let* test := subscript __opts__ "test" in
      if truthy_val test then
        ret (mkStateRet name None
               ("The gem " +:+ name +:+ " would have been removed") ∅)
      else
        let* ok := invoke "gem.uninstall"
                          (gem_uninstall __salt__ name ruby gem_bin user) in
        if ok then
          ret (mkStateRet name (Some true) "Gem was successfully removed."
                 (<[name := PStr "Removed"]> ∅))
        else ret (mkStateRet name (Some false) "Could not remove gem." ∅)
  end.

Definition sources_add (name : string) (ruby user : option string)
  : M (list string) StateRet :=
  let* sources := invoke "gem.sources_list"
                         (gem_sources_list __salt__ ruby user) in
  if bool_decide (name ∈ sources) then
    ret (mkStateRet name (Some true) "Gem source is already added." ∅)
  else
    let* test := subscript __opts__ "test" in
    if truthy_val test then
      ret (mkStateRet name None
             ("The gem source " +:+ name +:+ " would have been added.") ∅)
    else
      let* ok := invoke "gem.sources_add"
                        (gem_sources_add __salt__ name ruby user) in
      if ok then
        ret (mkStateRet name (Some true) "Gem source was successfully added."
               (<[name := PStr "Installed"]> ∅))
      else ret (mkStateRet name (Some false) "Could not add gem source." ∅).

Definition sources_remove (name : string) (ruby user : option string)
  : M (list string) StateRet :=
  let* sources := invoke "gem.sources_list"
                         (gem_sources_list __salt__ ruby user) in
  if negb (bool_decide (name ∈ sources)) then
    ret (mkStateRet name (Some true) "Gem source is already removed." ∅)
  else
    let* test := subscript __opts__ "test" in
    if truthy_val test then
      ret (mkStateRet name None "The gem source would have been removed." ∅)
    else
      let* ok := invoke "gem.sources_remove"
                        (gem_sources_remove __salt__ name ruby user) in
      if ok then
        ret (mkStateRet name (Some true)
               "Gem source was successfully removed."
               (<[name := PStr "Removed"]> ∅))
      else ret (mkStateRet name (Some false) "Could not remove gem source." ∅).

(** [__opts__["test"]] is there and truthy. *)
Definition test_mode : bool :=
  match dict_get "test" __opts__ with
  | Some v => truthy_val v
  | None => false
  end.

(** The gem is installed as asked: it is listed and no version is asked
    for, or the version asked for is listed, or the first listed version
    compares as asked. *)
Definition gem_as_asked (a : InstallArgs) : bool :=
  let gems :=
    gem_list __salt__ (i_name a) (i_ruby a) (i_gem_bin a) (i_runas a) in
  match versions_of (i_name a) gems, i_version a with
  | Some _, None => true
  | Some versions, Some version =>
      match match_cmpr version with
      | Some cmpr =>
          match versions with
          | first :: _ =>
              versions_compare (strip (re_sub "default: " "" first)) cmpr
                               (strip (re_sub cmpr "" version))
          | [] => false
          end
      | None => bool_decide (version ∈ versions)
      end
  | None, _ => false
  end.

(** [gem.list] gives every gem it lists at least one version. *)
Definition listed_with_version (a : InstallArgs) : bool :=
  match versions_of (i_name a)
          (gem_list __salt__ (i_name a) (i_ruby a) (i_gem_bin a) (i_runas a))
  with
  | Some [] => false
  | _ => true
  end.

(** The four state functions behind one type of call. *)
Inductive Call :=
| Installed (a : InstallArgs)
| Removed (name : string) (ruby user gem_bin : option string)
| SourcesAdd (name : string) (ruby user : option string)
| SourcesRemove (name : string) (ruby user : option string).

Definition run (c : Call) : M (list string) StateRet :=
  match c with
  | Installed a => installed a
  | Removed name ruby user gem_bin => removed name ruby user gem_bin
  | SourcesAdd name ruby user => sources_add name ruby user
  | SourcesRemove name ruby user => sources_remove name ruby user
  end.

(** The target of a call is already in the state the call asks for. *)
Definition in_desired_state (c : Call) : bool :=
  match c with
  | Installed a => gem_as_asked a
  | Removed name ruby user gem_bin =>
      match versions_of name (gem_list __salt__ name ruby gem_bin user) with
      | Some _ => false
      | None => true
      end
  | SourcesAdd name ruby user =>
      bool_decide (name ∈ gem_sources_list __salt__ ruby user)
  | SourcesRemove name ruby user =>
      negb (bool_decide (name ∈ gem_sources_list __salt__ ruby user))
  end.

Definition well_listed (c : Call) : bool :=
  match c with
  | Installed a => listed_with_version a
  | _ => true
  end.

End GemState.

(** The entries of [__salt__] that change the host. *)
Definition mutating : list string :=
  ["gem.install"; "gem.uninstall"; "gem.sources_add"; "gem.sources_remove"].

(** For each call: the entry of [__salt__] that carries it out, what that
    entry answers, and the change recorded when it was carried out. *)
Definition applying_entry (c : Call) : string :=
  match c with
  | Installed _ => "gem.install"
  | Removed _ _ _ _ => "gem.uninstall"
  | SourcesAdd _ _ _ => "gem.sources_add"
  | SourcesRemove _ _ _ => "gem.sources_remove"
  end.

Definition answer (__salt__ : Salt) (c : Call) : bool :=
  match c with
  | Installed a => gem_install __salt__ a
  | Removed name ruby user gem_bin =>
      gem_uninstall __salt__ name ruby gem_bin user
  | SourcesAdd name ruby user => gem_sources_add __salt__ name ruby user
  | SourcesRemove name ruby user => gem_sources_remove __salt__ name ruby user
  end.

Definition change (c : Call) : gmap string PyVal :=
  match c with
  | Installed a => <[i_name a := PStr "Installed"]> ∅
  | Removed name _ _ _ => <[name := PStr "Removed"]> ∅
  | SourcesAdd name _ _ => <[name := PStr "Installed"]> ∅
  | SourcesRemove name _ _ => <[name := PStr "Removed"]> ∅
  end.

End GemState.

(** ** salt/states/eselect.py *)

Module EselectState.

Definition __func_alias__ : list (string * string) := [("set_", "set")].

Definition __virtual__ {Op} (__salt__ : gmap string Op) : VirtualResult :=
  if has_key __salt__ "eselect.exec_action" then VName "eselect"
  else VReject "eselect module could not be loaded".

(** The entries of [__salt__] that [set_] calls. *)
Record Salt := {
  get_current_target : string -> option string -> option string ->
                       option string;
  get_target_list : string -> option string -> list string;
  set_target : string -> string -> option string -> option string -> bool;
}.

Section EselectState.
Variable __salt__ : Salt.
Variable __opts__ : list (string * PyVal).

Definition opt_val (o : option string) : PyVal :=
  match o with
  | Some s => PStr s
  | None => PNone
  end.

Definition set_ (name target : string)
    (module_parameter action_parameter : option string)
  : M (list string) StateRet :=
  let* old_target :=
    invoke "eselect.get_current_target"
      (get_current_target __salt__ name module_parameter action_parameter) in
  if bool_decide (Some target = old_target) then
    ret (mkStateRet name (Some true)
           ("Target '" +:+ target +:+ "' is already set on '" +:+ name
            +:+ "' module.") ∅)
  else
    let* targets :=
      invoke "eselect.get_target_list"
        (get_target_list __salt__ name action_parameter) in
    if negb (bool_decide (target ∈ targets)) then
      ret (mkStateRet name (Some false)
             ("Target '" +:+ target +:+ "' is not available for '" +:+ name
              +:+ "' module.") ∅)
    else
      let* test := subscript __opts__ "test" in
      if truthy_val test then
        ret (mkStateRet name None
               ("Target '" +:+ target +:+ "' will be set on '" +:+ name
                +:+ "' module.") ∅)
      else
        let* result :=
          invoke "eselect.set_target"
            (set_target __salt__ name target module_parameter
               action_parameter) in
        if result then
          ret (mkStateRet name (Some true)
                 ("Target '" +:+ target +:+ "' set on '" +:+ name
                  +:+ "' module.")
                 (<[name := PDict [("old", opt_val old_target);
                                   ("new", PStr target)]]> ∅))
        else
          ret (mkStateRet name (Some false)
                 ("Target '" +:+ target +:+ "' failed to be set on '"
                  +:+ name +:+ "' module.") ∅).

End EselectState.
End EselectState.

(** ** The dispatch table and the alias tables *)

Module Loader.
Section Loader.
Context {Op : Type}.

(** A plugin as the loader sees it: the name it has from its file, its
    [__func_alias__] table (name in the file, public name), and the
    functions it defines under the names they have in the file. *)
Record PluginUnit := mkUnit {
  static_name : string;
  func_alias : list (string * string);
  functions : list (string * Op);
}.

Fixpoint alias_get (attr : string) (aliases : list (string * string))
  : option string :=
  match aliases with
  | [] => None
  | (k, v) :: aliases' =>
      if String.eqb k attr then Some v else alias_get attr aliases'
  end.

(** Modelled from the spec: the loader that builds the dispatch table is
    defined outside the files embedded here. Sections 4.2 and 4.4: a predicate that
    answers [True] accepts the plugin under its own name, one that answers
    a name accepts it under that name, [False] and [(False, reason)] reject
    it; an accepted plugin's functions are entered under
    ["<module>.<operation>"], an aliased function under its public name,
    when the table is built. *)
Definition public_module (u : PluginUnit) (outcome : VirtualResult)
  : option string :=
  match outcome with
  | VTrue => Some (static_name u)
  | VName n => Some n
  | VFalse | VReject _ => None
  end.

(** Modelled from the spec: section 4.4, a function with an entry in the
    alias table is exposed under the public name the table gives it, any
    other under the name it has in the file. *)
Definition public_name (u : PluginUnit) (attr : string) : string :=
  match alias_get attr (func_alias u) with
  | Some public => public
  | None => attr
  end.

(** Modelled from the spec: sections 4.2 and 4.4, the entries of an
    accepted unit are written into the table when it is built, over what the
    table holds: of two units with one public name, the one registered later
    wins. A rejected unit enters nothing. *)
Definition register (u : PluginUnit) (outcome : VirtualResult)
    (table : gmap string Op) : gmap string Op :=
  match public_module u outcome with
  | Some m =>
      foldl (fun t '(attr, f) => <[m +:+ "." +:+ public_name u attr := f]> t)
            table (functions u)
  | None => table
  end.

(** Modelled from the spec: section 4.4, [invoke(public_name)] is a direct
    lookup in the table that was built; [None] is [NotFound]. *)
Definition dispatch (table : gmap string Op) (public : string) : option Op :=
  table !! public.

End Loader.
Arguments PluginUnit : clear implicits.

(** The two plugins with an alias table, over functions of any kind. *)
Definition mdata_unit {Op} (list_ get_ put_ delete_ : Op) : PluginUnit Op :=
  mkUnit "mdata" Mdata.__func_alias__
         [("delete_", delete_); ("get_", get_); ("list_", list_);
          ("put_", put_)].

Definition eselect_unit {Op} (set_ : Op) : PluginUnit Op :=
  mkUnit "eselect" EselectState.__func_alias__ [("set_", set_)].

End Loader.

(** ** salt/utils/win_lgpo_netsh.py *)

Module Netsh.

Definition __virtualname__ : string := "netsh".

(** Modelled from the spec: the names in [sys.modules] when the predicate
    of the file is evaluated. The file imports [salt.modules.cmdmod] and
    [salt.exceptions]; those two modules, the packages above them and what
    they import in turn are not under src/. Section 4.2: [resolve] is
    handed the host facts together with the plugin, and the predicate may
    inspect them (platform name, whether running in a constrained or
    virtualized role): the module that holds the platform tests,
    [salt.utils.platform], is loaded whenever a predicate is evaluated. The
    list holds the names that the two [import] statements of the file load
    by themselves, and that module with its package. *)
Definition loaded_at_resolution : list string :=
  ["salt"; "salt.modules"; "salt.modules.cmdmod"; "salt.exceptions";
   "salt.utils"; "salt.utils.platform"].

Section Netsh.
Context {W : Type} `{Builtins} `{Env W}.

(** The names in [sys.modules] when the predicate runs. The file imports
    [salt.modules.cmdmod] and [salt.exceptions] and not
    [salt.utils.platform]: the name [salt.utils.platform] is found only
    when some import in the interpreter has loaded that module. *)
Variable sys_modules : list string.

(** [socket.gethostname()], read when the file is imported. *)
Variable __hostname__ : string.

Definition __virtual__ : M (Rt W) VirtualResult :=
  fun g =>
    if negb (in_tuple "salt.utils" sys_modules) then
      (Raise (AttributeError "module 'salt' has no attribute 'utils'"), g)
    else if negb (in_tuple "salt.utils.platform" sys_modules) then
      (Raise (AttributeError
                "module 'salt.utils' has no attribute 'platform'"), g)
    else if negb (is_windows (host g)) then
      (Ret (VReject "This utility only available on Windows"), g)
    else (Ret (VName __virtualname__), g).

(** The script is written to a temporary file, [netsh -f] is run on it,
    the file is removed. *)
Definition _netsh_file (content : string) : M (Rt W) string :=
  fun g => let '(out, w') := netsh_f content (host g) in
           (Ret out, mkRt (cache g) (checks g) (content :: shell g) w').

Definition margin : string := "            ".

Definition _netsh_command (command store : string)
  : M (Rt W) (list string) :=
  if negb (in_tuple (lower store) ["local"; "lgpo"]) then
    raise (ValueError ("Incorrect store: " +:+ store))
  else
    let netsh_script :=
      if String.eqb (lower store) "local" then
        dedent (margin +:+ "advfirewall" +:+ nl
                +:+ margin +:+ "set store local" +:+ nl
                +:+ margin +:+ command +:+ nl
                +:+ "        ")
      else
        dedent (margin +:+ "advfirewall" +:+ nl
                +:+ margin +:+ "set store gpo = " +:+ __hostname__ +:+ nl
                +:+ margin +:+ command +:+ nl
                +:+ "        ") in
    let* out := _netsh_file netsh_script in
    ret (splitlines out).

Definition profiles : list string := ["domain"; "public"; "private"].

(** [ret.update(dict(...))] for the pairs on one line of output. *)
Definition update_line (ret_ : gmap string string) (line : string)
  : gmap string string :=
  foldl (fun d '(k, v) => <[k := v]> d) ret_ (pairs (re_split_blanks line)).

Definition get_settings (profile section store : string)
  : M (Rt W) (gmap string string) :=
  if negb (in_tuple (lower profile) profiles) then
    raise (ValueError ("Incorrect profile: " +:+ profile))
  else if negb (in_tuple (lower section)
                  ["state"; "firewallpolicy"; "settings"; "logging"]) then
    raise (ValueError ("Incorrect section: " +:+ section))
  else if negb (in_tuple (lower store) ["local"; "lgpo"]) then
    raise (ValueError ("Incorrect store: " +:+ store))
  else
    let command := "show " +:+ profile +:+ "profile " +:+ section in
    let* results := _netsh_command command store in
    if Nat.ltb (length results) 3 then
      raise (CommandExecutionError
               ("Invalid results: " +:+ repr_lines results))
    else
      let ret_ := foldl update_line ∅ (drop 3 results) in
      let ret_ := remove_spaces <$> ret_ in
      if String.eqb section "firewallpolicy" then
        match ret_ !! "Firewall Policy" with
        | None => raise (KeyError "Firewall Policy")
        | Some policy =>
            match split_on ","%char policy with
            | [inbound; outbound] =>
                ret (<["Outbound" := outbound]>
                       (<["Inbound" := inbound]> ∅))
            | [_] =>
                raise (ValueError
                         "not enough values to unpack (expected 2, got 1)")
            | _ => raise (ValueError "too many values to unpack (expected 2)")
            end
        end
      else ret ret_.

(** [ret.update(d)]: the entries of [d] replace those of [ret]. *)
Definition update (ret_ d : gmap string string) : gmap string string :=
  d ∪ ret_.

Definition get_all_settings (profile store : string)
  : M (Rt W) (gmap string string) :=
  let* d1 := get_settings profile "state" store in
  let* d2 := get_settings profile "firewallpolicy" store in
  let* d3 := get_settings profile "settings" store in
  let* d4 := get_settings profile "logging" store in
  ret (update (update (update (update ∅ d1) d2) d3) d4).

Definition get_all_profiles (store : string)
  : M (Rt W) (list (string * gmap string string)) :=
  let* domain := get_all_settings "domain" store in
  let* private := get_all_settings "private" store in
  let* public := get_all_settings "public" store in
  ret [("Domain Profile", domain); ("Private Profile", private);
       ("Public Profile", public)].

(** [dict[key]] on a result of [get_settings]. *)
Definition setting (d : gmap string string) (key : string)
  : M (Rt W) string :=
  match d !! key with
  | Some v => ret v
  | None => raise (KeyError key)
  end.

(** The end of the four [set_] functions: run the command; any output is
    an error. *)
Definition run_set (command store : string) : M (Rt W) bool :=
  let* results := _netsh_command command store in
  match results with
  | [] => ret true
  | _ => raise (CommandExecutionError
                  ("An error occurred: " +:+ repr_lines results))
  end.

Definition set_firewall_settings (profile : string)
    (inbound outbound : option string) (store : string) : M (Rt W) bool :=
  if negb (in_tuple (lower profile) profiles) then
    raise (ValueError ("Incorrect profile: " +:+ profile))
  else if truthy inbound
          && negb (in_tuple (lower (str inbound))
                     ["blockinbound"; "blockinboundalways"; "allowinbound";
                      "notconfigured"]) then
    raise (ValueError ("Incorrect inbound value: " +:+ str inbound))
  else if truthy outbound
          && negb (in_tuple (lower (str outbound))
                     ["allowoutbound"; "blockoutbound"; "notconfigured"]) then
    raise (ValueError ("Incorrect outbound value: " +:+ str outbound))
  else if negb (truthy inbound) && negb (truthy outbound) then
    raise (ValueError "Must set inbound or outbound")
  else
    let* both :=
      if negb (truthy inbound) || negb (truthy outbound) then
        let* ret_ := get_settings profile "firewallpolicy" store in
        let* inbound' :=
          if negb (truthy inbound) then setting ret_ "Inbound"
          else ret (str inbound) in
        let* outbound' :=
          if negb (truthy outbound) then setting ret_ "Outbound"
          else ret (str outbound) in
        ret (inbound', outbound')
      else ret (str inbound, str outbound) in
    run_set ("set " +:+ profile +:+ "profile firewallpolicy " +:+ both.1
             +:+ "," +:+ both.2) store.

Definition set_logging_settings (profile setting_ value store : string)
  : M (Rt W) bool :=
  if negb (in_tuple (lower profile) profiles) then
    raise (ValueError ("Incorrect profile: " +:+ profile))
  else if negb (in_tuple (lower setting_)
                  ["allowedconnections"; "droppedconnections"; "filename";
                   "maxfilesize"]) then
    raise (ValueError ("Incorrect setting: " +:+ setting_))
  else if in_tuple (lower setting_)
            ["allowedconnections"; "droppedconnections"]
          && negb (in_tuple (lower value)
                     ["enable"; "disable"; "notconfigured"]) then
    raise (ValueError ("Incorrect value: " +:+ value))
  else if String.eqb (lower setting_) "maxfilesize"
          && negb (String.eqb (lower value) "notconfigured")
          && match int_of_str value with
             | None => true
             | Some n => negb ((1 <=? n)%Z && (n <=? 32767)%Z)
             end then
    raise (ValueError ("Incorrect value: " +:+ value))
  else
    run_set ("set " +:+ profile +:+ "profile logging " +:+ setting_ +:+ " "
             +:+ value) store.

Definition set_settings (profile setting_ value store : string)
  : M (Rt W) bool :=
  if negb (in_tuple (lower profile) profiles) then
    raise (ValueError ("Incorrect profile: " +:+ profile))
  else if negb (in_tuple (lower setting_)
                  ["localfirewallrules"; "localconsecrules";
                   "inboundusernotification"; "remotemanagement";
                   "unicastresponsetomulticast"]) then
    raise (ValueError ("Incorrect setting: " +:+ setting_))
  else if negb (in_tuple (lower value)
                  ["enable"; "disable"; "notconfigured"]) then
    raise (ValueError ("Incorrect value: " +:+ value))
  else
    run_set ("set " +:+ profile +:+ "profile settings " +:+ setting_ +:+ " "
             +:+ value) store.

Definition set_state (profile state store : string) : M (Rt W) bool :=
  if negb (in_tuple (lower profile) profiles) then
    raise (ValueError ("Incorrect profile: " +:+ profile))
  else if negb (in_tuple (lower state) ["on"; "off"; "notconfigured"]) then
    raise (ValueError ("Incorrect state: " +:+ state))
  else
    run_set ("set " +:+ profile +:+ "profile state " +:+ state) store.

(** The functions that take a [store], behind one type of call. *)
Inductive Call :=
| NetshCommand (command store : string)
| GetSettings (profile section store : string)
| GetAllSettings (profile store : string)
| GetAllProfiles (store : string)
| SetFirewallSettings (profile : string) (inbound outbound : option string)
                      (store : string)
| SetLoggingSettings (profile setting_ value store : string)
| SetSettings (profile setting_ value store : string)
| SetState (profile state store : string).

Definition store_of (c : Call) : string :=
  match c with
  | NetshCommand _ store | GetSettings _ _ store | GetAllSettings _ store
  | GetAllProfiles store | SetFirewallSettings _ _ _ store
  | SetLoggingSettings _ _ _ store | SetSettings _ _ _ store
  | SetState _ _ store => store
  end.

(** The script [_netsh_command] hands to [_netsh_file] for a command and
    an accepted store. *)
Definition netsh_script (command store : string) : string :=
  if String.eqb (lower store) "local" then
    dedent (margin +:+ "advfirewall" +:+ nl
            +:+ margin +:+ "set store local" +:+ nl
            +:+ margin +:+ command +:+ nl
            +:+ "        ")
  else
    dedent (margin +:+ "advfirewall" +:+ nl
            +:+ margin +:+ "set store gpo = " +:+ __hostname__ +:+ nl
            +:+ margin +:+ command +:+ nl
            +:+ "        ").

(** The state after [_netsh_file] has run a script. *)
Definition after_script (script : string) (g : Rt W) : Rt W :=
  mkRt (cache g) (checks g) (script :: shell g)
       (netsh_f script (host g)).2.

(** The store is one of the two the functions accept. *)
Definition valid_store (store : string) : bool :=
  in_tuple (lower store) ["local"; "lgpo"].

Definition valid_profile (profile : string) : bool :=
  in_tuple (lower profile) profiles.

(** The arguments other than the store pass the checks made on them. *)
Definition other_args_ok (c : Call) : bool :=
  match c with
  | NetshCommand _ _ => true
  | GetSettings profile section _ =>
      valid_profile profile
      && in_tuple (lower section)
           ["state"; "firewallpolicy"; "settings"; "logging"]
  | GetAllSettings profile _ => valid_profile profile
  | GetAllProfiles _ => true
  | SetFirewallSettings profile inbound outbound _ =>
      valid_profile profile
      && (negb (truthy inbound)
          || in_tuple (lower (str inbound))
               ["blockinbound"; "blockinboundalways"; "allowinbound";
                "notconfigured"])
      && (negb (truthy outbound)
          || in_tuple (lower (str outbound))
               ["allowoutbound"; "blockoutbound"; "notconfigured"])
      && (truthy inbound || truthy outbound)
  | SetLoggingSettings profile setting_ value _ =>
      valid_profile profile
      && in_tuple (lower setting_)
           ["allowedconnections"; "droppedconnections"; "filename";
            "maxfilesize"]
      && (negb (in_tuple (lower setting_)
                  ["allowedconnections"; "droppedconnections"])
          || in_tuple (lower value) ["enable"; "disable"; "notconfigured"])
      && (negb (String.eqb (lower setting_) "maxfilesize")
          || String.eqb (lower value) "notconfigured"
          || match int_of_str value with
             | None => false
             | Some n => (1 <=? n)%Z && (n <=? 32767)%Z
             end)
  | SetSettings profile setting_ value _ =>
      valid_profile profile
      && in_tuple (lower setting_)
           ["localfirewallrules"; "localconsecrules";
            "inboundusernotification"; "remotemanagement";
            "unicastresponsetomulticast"]
      && in_tuple (lower value) ["enable"; "disable"; "notconfigured"]
  | SetState profile state _ =>
      valid_profile profile
      && in_tuple (lower state) ["on"; "off"; "notconfigured"]
  end.

(** The calls that go from their checks straight to the [set] command:
    the three [set_] functions without a lookup, and
    [set_firewall_settings] when both directions are given. *)
Definition sets_directly (c : Call) : bool :=
  match c with
  | SetFirewallSettings _ inbound outbound _ =>
      truthy inbound && truthy outbound
  | SetLoggingSettings _ _ _ _ | SetSettings _ _ _ _ | SetState _ _ _ => true
  | _ => false
  end.

(** The checks a call makes on its arguments before anything is run, in
    the order profile, then the arguments particular to the function, then
    the store: whether the argument passes, and the message of the
    [ValueError] for it when it does not. *)
Definition checks_of (c : Call) : list (bool * string) :=
  let on_profile profile :=
    (valid_profile profile, "Incorrect profile: " +:+ profile) in
  let on_store store := (valid_store store, "Incorrect store: " +:+ store) in
  match c with
  | NetshCommand _ store => [on_store store]
  | GetSettings profile section store =>
      [on_profile profile;
       (in_tuple (lower section)
          ["state"; "firewallpolicy"; "settings"; "logging"],
        "Incorrect section: " +:+ section);
       on_store store]
  | GetAllSettings profile store => [on_profile profile; on_store store]
  | GetAllProfiles store => [on_store store]
  | SetFirewallSettings profile inbound outbound store =>
      [on_profile profile;
       (negb (truthy inbound)
        || in_tuple (lower (str inbound))
             ["blockinbound"; "blockinboundalways"; "allowinbound";
              "notconfigured"],
        "Incorrect inbound value: " +:+ str inbound);
       (negb (truthy outbound)
        || in_tuple (lower (str outbound))
             ["allowoutbound"; "blockoutbound"; "notconfigured"],
        "Incorrect outbound value: " +:+ str outbound);
       (truthy inbound || truthy outbound, "Must set inbound or outbound");
       on_store store]
  | SetLoggingSettings profile setting_ value store =>
      [on_profile profile;
       (in_tuple (lower setting_)
          ["allowedconnections"; "droppedconnections"; "filename";
           "maxfilesize"],
        "Incorrect setting: " +:+ setting_);
       (negb (in_tuple (lower setting_)
                ["allowedconnections"; "droppedconnections"])
        || in_tuple (lower value) ["enable"; "disable"; "notconfigured"],
        "Incorrect value: " +:+ value);
       (negb (String.eqb (lower setting_) "maxfilesize")
        || String.eqb (lower value) "notconfigured"
        || match int_of_str value with
           | None => false
           | Some n => (1 <=? n)%Z && (n <=? 32767)%Z
           end,
        "Incorrect value: " +:+ value);
       on_store store]
  | SetSettings profile setting_ value store =>
      [on_profile profile;
       (in_tuple (lower setting_)
          ["localfirewallrules"; "localconsecrules";
           "inboundusernotification"; "remotemanagement";
           "unicastresponsetomulticast"],
        "Incorrect setting: " +:+ setting_);
       (in_tuple (lower value) ["enable"; "disable"; "notconfigured"],
        "Incorrect value: " +:+ value);
       on_store store]
  | SetState profile state store =>
      [on_profile profile;
       (in_tuple (lower state) ["on"; "off"; "notconfigured"],
        "Incorrect state: " +:+ state);
       on_store store]
  end.

(** The message of the first check that does not pass. *)
Fixpoint first_invalid (checks : list (bool * string)) : option string :=
  match checks with
  | [] => None
  | (passes, msg) :: checks' =>
      if passes then first_invalid checks' else Some msg
  end.

(** An exception other than the one for a wrong store. *)
Definition not_store_error (e : PyExn) : Prop :=
  match e with
  | ValueError msg => String.prefix "Incorrect store: " msg = false
  | _ => True
  end.

(** A computation that raises no exception for a wrong store. *)
Definition store_safe {A} (m : M (Rt W) A) : Prop :=
  forall g e g', m g = (Raise e, g') -> not_store_error e.

(** What a call raises, if anything, and the state it leaves. *)
Definition raised {A} (m : M (Rt W) A) (g : Rt W) : option PyExn * Rt W :=
  match m g with
  | (Ret _, g') => (None, g')
  | (Raise e, g') => (Some e, g')
  end.

Definition run (c : Call) (g : Rt W) : option PyExn * Rt W :=
  match c with
  | NetshCommand command store => raised (_netsh_command command store) g
  | GetSettings profile section store =>
      raised (get_settings profile section store) g
  | GetAllSettings profile store => raised (get_all_settings profile store) g
  | GetAllProfiles store => raised (get_all_profiles store) g
  | SetFirewallSettings profile inbound outbound store =>
      raised (set_firewall_settings profile inbound outbound store) g
  | SetLoggingSettings profile setting_ value store =>
      raised (set_logging_settings profile setting_ value store) g
  | SetSettings profile setting_ value store =>
      raised (set_settings profile setting_ value store) g
  | SetState profile state store => raised (set_state profile state store) g
  end.

End Netsh.
End Netsh.

(** ** Sample hosts and tables *)

Module Sample.

(** Enough of each function for runs on plain one-line text. *)
Definition builtins : Builtins := {|
  splitlines := fun s => if String.eqb s "" then [] else split_on "010"%char s;
  dedent := fun s => s;
  re_split_blanks := fun s => [s];
  re_sub := fun _ _ s => s;
  strip := fun s => s;
  int_of_str := fun _ => None;
  repr_lines := fun _ => "[...]";
  format_val := fun v => match v with PStr s => s | _ => "?" end;
|}.

(** A host with binaries on its path; every command succeeds and prints
    nothing. *)
Record Host := mkHost {
  binaries : list (string * string);
  windows : bool;
  globalzone : bool;
}.

Fixpoint find_binary (name : string) (bs : list (string * string))
  : ProbeOutcome :=
  match bs with
  | [] => None
  | (k, path) :: bs' =>
      if String.eqb k name then Some path else find_binary name bs'
  end.

Definition env : Env Host := {|
  which := fun name w => (find_binary name (binaries w), w);
  is_windows := windows;
  is_smartos_globalzone := globalzone;
  cmd_run := fun _ w => ("", w);
  cmd_run_all := fun _ w => (mkCmdResult 0 "", w);
  netsh_f := fun _ w => ("", w);
|}.

(** A Linux host with nothing installed, one with nginx, a SmartOS zone, and
    a Windows host. *)
Definition bare : Host := mkHost [] false false.

Definition web : Host := mkHost [("nginx", "/usr/sbin/nginx")] false false.

Definition zone : Host :=
  mkHost [("mdata-list", "/usr/sbin/mdata-list");
          ("mdata-get", "/usr/sbin/mdata-get");
          ("mdata-put", "/usr/sbin/mdata-put");
          ("mdata-delete", "/usr/sbin/mdata-delete")] false false.

Definition desktop : Host := mkHost [] true false.

(** Installing a binary while the agent runs. *)
Definition install (name path : string) (w : Host) : Host :=
  mkHost ((name, path) :: binaries w) (windows w) (globalzone w).

(** A [__salt__] for the gem states on a host with one gem, [rake]. *)
Definition gem_salt : GemState.Salt := {|
  GemState.rvm_is_installed := fun _ => false;
  GemState.rbenv_is_installed := fun _ => false;
  GemState.gem_list := fun _ _ _ _ => [("rake", ["13.0.6"])];
  GemState.gem_install := fun _ => true;
  GemState.gem_uninstall := fun _ _ _ _ => true;
  GemState.gem_sources_list := fun _ _ => ["https://rubygems.org/"];
  GemState.gem_sources_add := fun _ _ _ => true;
  GemState.gem_sources_remove := fun _ _ _ => true;
|}.

Definition test_opts : list (string * PyVal) := [("test", PBool true)].

(** [re.split] on two or more blanks, read from the left: [cur] is the part
    being read, last character first, and [blanks] counts the blanks met
    since that character. *)
Fixpoint blanks_to (n : nat) (cur : string) : string :=
  match n with
  | O => cur
  | S n' => String " " (blanks_to n' cur)
  end.

Fixpoint split_blanks_go (cur : string) (blanks : nat) (s : string)
  : list string :=
  match s with
  | EmptyString =>
      if Nat.leb 2 blanks then [String.rev cur; EmptyString]
      else [String.rev (blanks_to blanks cur)]
  | String c s' =>
      if Ascii.eqb c " " then split_blanks_go cur (S blanks) s'
      else if Nat.leb 2 blanks
           then String.rev cur :: split_blanks_go (String c EmptyString) 0 s'
           else split_blanks_go (String c (blanks_to blanks cur)) 0 s'
  end.

Definition split_blanks (s : string) : list string :=
  split_blanks_go EmptyString 0 s.

(** [int] on a string of decimal digits. *)
Fixpoint digits_go (acc : Z) (s : string) : option Z :=
  match s with
  | EmptyString => Some acc
  | String c s' =>
      match Ascii.is_nat c with
      | Some d => digits_go (10 * acc + Z.of_nat d) s'
      | None => None
      end
  end.

Definition int_of_digits (s : string) : option Z :=
  match s with
  | EmptyString => None
  | _ => digits_go 0 s
  end.

(** The same functions with the two above, for the output of netsh. *)
Definition netsh_builtins : Builtins := {|
  splitlines := fun s => if String.eqb s "" then [] else split_on "010"%char s;
  dedent := fun s => s;
  re_split_blanks := split_blanks;
  re_sub := fun _ _ s => s;
  strip := fun s => s;
  int_of_str := int_of_digits;
  repr_lines := fun _ => "[...]";
  format_val := fun v => match v with PStr s => s | _ => "?" end;
|}.

(** What netsh prints for a [show] command on the firewall policy. *)
Definition policy_text : string :=
  nl +:+ "Domain Profile Settings:"
  +:+ nl +:+ "----------------------------------------------------------------------"
  +:+ nl +:+ "Firewall Policy                       BlockInbound,AllowOutbound".

(** A host where netsh answers every [show] command with the firewall
    policy and every other command with nothing. *)
Definition netsh_env : Env Host := {|
  which := fun name w => (find_binary name (binaries w), w);
  is_windows := windows;
  is_smartos_globalzone := globalzone;
  cmd_run := fun _ w => ("", w);
  cmd_run_all := fun _ w => (mkCmdResult 0 "", w);
  netsh_f := fun script w =>
               (if contains "show " script then policy_text else "", w);
|}.

(** A host where nginx prints its version, and where a signal fails with a
    message on the error output. *)
Definition nginx_env : Env Host := {|
  which := fun name w => (find_binary name (binaries w), w);
  is_windows := windows;
  is_smartos_globalzone := globalzone;
  cmd_run := fun _ w => ("nginx version: nginx/1.18.0", w);
  cmd_run_all := fun _ w => (mkCmdResult 1 "", w);
  netsh_f := fun _ w => ("", w);
|}.

Definition nginx_stderr : EnvStderr Host := {|
  cmd_stderr := fun _ _ => "nginx: [emerg] bind() to 0.0.0.0:80 failed";
|}.

(** A master configuration with two ASAM servers, and one where a server
    without a password comes before them. *)
Definition prov (username password : string) : PyVal :=
  PDict [("username", PStr username); ("password", PStr password)].

Definition asam_opts : list (string * PyVal) :=
  [("asam", PDict [("prov1.domain.com", prov "TheUsername" "ThePassword");
                   ("prov2.domain.com", prov "TheUsername" "ThePassword")])].

Definition asam_opts_first_only : list (string * PyVal) :=
  [("asam", PDict [("prov1.domain.com", prov "TheUsername" "ThePassword")])].

Definition asam_opts_gap : list (string * PyVal) :=
  [("asam", PDict [("prov1.domain.com", prov "TheUsername" "ThePassword");
                   ("prov0.domain.com", PDict [("username", PStr "u")]);
                   ("prov2.domain.com", prov "TheUsername" "ThePassword")])].

End Sample.

(** * Properties *)

(** ** The probe cache *)

Section ProbeCacheFacts.
Context {W : Type} (check : string -> W -> ProbeOutcome * W).

Lemma memoize_returns key (g : Rt W) :
  exists v, (memoize key (check key) g).1 = Ret v.
Proof.
  unfold memoize. destruct (cache g !! key) as [v|]; [by exists v|].
  destruct (check key (host g)) as [v w']. by exists v.
Qed.

Lemma run_cons_lookup key evs (g : Rt W) :
  exists v g',
    memoize key (check key) g = (Ret v, g')
    /\ run check (Lookup key :: evs) g
       = ((key, v) :: (run check evs g').1, (run check evs g').2).
Proof.
  destruct (memoize_returns key g) as [v Hv].
  destruct (memoize key (check key) g) as [r g'] eqn:Hm. simpl in Hv. subst r.
  exists v, g'. split; [done|]. simpl. rewrite Hm.
  by destruct (run check evs g').
Qed.

(** Stored outcomes are never replaced. *)
Lemma memoize_keeps key key' v (g : Rt W) :
  cache g !! key' = Some v ->
  cache (memoize key (check key) g).2 !! key' = Some v.
Proof.
  intros Hv. unfold memoize. destruct (cache g !! key) as [u|] eqn:Hk; [done|].
  destruct (check key (host g)) as [u w']. simpl.
  rewrite lookup_insert_ne; [done|]. intros ->. congruence.
Qed.

Lemma memoize_stores key v (g g' : Rt W) :
  memoize key (check key) g = (Ret v, g') -> cache g' !! key = Some v.
Proof.
  unfold memoize. destruct (cache g !! key) as [u|] eqn:Hk.
  - intros [= <- <-]. done.
  - destruct (check key (host g)) as [u w']. intros [= <- <-]. simpl.
    apply lookup_insert_eq.
Qed.

Lemma run_keeps evs : forall (g : Rt W) key v,
  cache g !! key = Some v -> cache (run check evs g).2 !! key = Some v.
Proof.
  induction evs as [|[k|f] evs IH]; intros g key v Hv; [done| |].
  - destruct (run_cons_lookup k evs g) as (u & g' & Hm & ->). simpl.
    apply IH. replace g' with (memoize k (check k) g).2 by by rewrite Hm.
    by apply memoize_keeps.
  - simpl. by apply IH.
Qed.

(** Every outcome handed out is the one the cache holds at the end. *)
Lemma run_results_stored evs : forall g : Rt W,
  Forall (fun kv => cache (run check evs g).2 !! kv.1 = Some kv.2)
         (run check evs g).1.
Proof.
  induction evs as [|[k|f] evs IH]; intros g.
  - constructor.
  - destruct (run_cons_lookup k evs g) as (u & g' & Hm & ->). simpl.
    constructor; [|apply IH]. simpl.
    apply run_keeps. by eapply memoize_stores.
  - simpl. apply IH.
Qed.

Lemma executions_memoize key key' (g : Rt W) :
  executions key' (memoize key (check key) g).2
  = executions key' g
    + (if bool_decide (key = key') && bool_decide (cache g !! key = None)
       then 1 else 0).
Proof.
  unfold memoize, executions.
  destruct (cache g !! key) as [u|] eqn:Hk.
  - simpl. rewrite andb_false_r. lia.
  - destruct (check key (host g)) as [u w']. simpl.
    rewrite andb_true_r. rewrite filter_cons.
    case_bool_decide; case_decide; simpl; try congruence; lia.
Qed.

Lemma run_executions evs : forall (g : Rt W) key,
  executions key (run check evs g).2
  = executions key g
    + (if bool_decide (key ∈ looked_up evs)
          && bool_decide (cache g !! key = None)
       then 1 else 0).
Proof.
  induction evs as [|[k|f] evs IH]; intros g key.
  - simpl. lia.
  - destruct (run_cons_lookup k evs g) as (u & g' & Hm & ->). simpl.
    rewrite IH. replace g' with (memoize k (check k) g).2 by by rewrite Hm.
    rewrite executions_memoize.
    assert (Hst : cache (memoize k (check k) g).2 !! k = Some u)
      by (eapply memoize_stores; rewrite Hm; done).
    destruct (decide (k = key)) as [->|Hne].
    + rewrite Hst. rewrite (bool_decide_eq_true_2 (key = key)) by done.
      rewrite (bool_decide_eq_true_2 (key ∈ key :: looked_up evs))
        by apply list_elem_of_here.
      rewrite (bool_decide_eq_false_2 (Some u = None)) by done.
      rewrite andb_false_r. simpl. lia.
    + rewrite (bool_decide_eq_false_2 (k = key)) by done. simpl.
      assert (Hc : cache (memoize k (check k) g).2 !! key = cache g !! key).
      { unfold memoize. destruct (cache g !! k); [done|].
        destruct (check k (host g)). simpl. by rewrite lookup_insert_ne. }
      rewrite Hc.
      assert (Hin : key ∈ k :: looked_up evs <-> key ∈ looked_up evs).
      { rewrite elem_of_cons. split; [intros [?|?]; [congruence|done]|by right]. }
      rewrite (bool_decide_ext _ _ Hin). lia.
  - simpl. rewrite IH. done.
Qed.

End ProbeCacheFacts.

(** C2. Within one generation the check behind a probe key is executed once
    if the key is looked up at all and never otherwise, however many lookups
    there are and however the host changes in between; and every lookup of a
    key returns the outcome of the first lookup of that key. *)
Theorem probe_executed_once {W : Type}
    (check : string -> W -> ProbeOutcome * W) (evs : list Ev) (w : W)
    (key : string) :
  executions key (run check evs (fresh w)).2
  = (if bool_decide (key ∈ looked_up evs) then 1 else 0)
  /\ Forall (fun kv => first_outcome kv.1 (run check evs (fresh w)).1
                       = Some kv.2)
            (run check evs (fresh w)).1.
Proof.
  split.
  - rewrite run_executions. unfold executions, fresh. simpl.
    rewrite lookup_empty. rewrite (bool_decide_eq_true_2 (None = None)) by done.
    by rewrite andb_true_r.
  - pose proof (run_results_stored check evs (fresh w)) as Hst.
    set (rs := (run check evs (fresh w)).1) in *.
    set (c := cache (run check evs (fresh w)).2) in *.
    rewrite Forall_forall in Hst. apply Forall_forall. intros [k v] Hin.
    unfold first_outcome. simpl.
    assert (Hf : (k, v) ∈ filter (fun kv : string * ProbeOutcome => kv.1 = k) rs)
      by (apply list_elem_of_filter; done).
    destruct (filter (fun kv : string * ProbeOutcome => kv.1 = k) rs)
      as [|[k' v'] l] eqn:Hfl; [by apply elem_of_nil in Hf|].
    simpl. f_equal.
    assert (Hh : (k', v') ∈ filter (fun kv : string * ProbeOutcome => kv.1 = k) rs)
      by (rewrite Hfl; apply list_elem_of_here).
    apply list_elem_of_filter in Hh as [Hk Hin']. simpl in Hk. subst k'.
    pose proof (Hst _ Hin) as H1. pose proof (Hst _ Hin') as H2.
    simpl in H1, H2. congruence.
Qed.

(** The memoized functions of nginx.py and mdata.py are lookups of this
    kind. *)
Lemma memoized_functions_are_lookups {W : Type} `{Env W} :
  Nginx.__detect_os
  = memoize "nginx.__detect_os" (plugin_check "nginx.__detect_os")
  /\ Mdata._check_mdata_list
     = memoize "mdata._check_mdata_list"
         (plugin_check "mdata._check_mdata_list")
  /\ Mdata._check_mdata_get
     = memoize "mdata._check_mdata_get" (plugin_check "mdata._check_mdata_get")
  /\ Mdata._check_mdata_put
     = memoize "mdata._check_mdata_put" (plugin_check "mdata._check_mdata_put")
  /\ Mdata._check_mdata_delete
     = memoize "mdata._check_mdata_delete"
         (plugin_check "mdata._check_mdata_delete").
Proof. repeat split. Qed.

(** Three lookups of nginx on a host where it is installed after the first:
    one execution of the check, three times the first outcome. *)
Example three_lookups_one_check :
  let r :=
    run (@plugin_check _ Sample.env)
      [Lookup "nginx.__detect_os";
       Drift (Sample.install "nginx" "/usr/sbin/nginx");
       Lookup "nginx.__detect_os"; Lookup "nginx.__detect_os"]
      (fresh Sample.bare) in
  r.1 = [("nginx.__detect_os", None); ("nginx.__detect_os", None);
         ("nginx.__detect_os", None)]
  /\ checks r.2 = ["nginx.__detect_os"].
Proof. split; reflexivity. Qed.

(** ** Availability predicates *)

(** C3. Whatever the memoized lookup of nginx returns in a state, the
    predicate of the nginx module evaluated in that state returns [True] when
    it is truthy and otherwise the pair [(False, reason)] with a reason that
    contains the word nginx. *)
Theorem nginx_virtual_follows_probe {W : Type} `{Env W} (g : Rt W)
    (p : ProbeOutcome) :
  (Nginx.__detect_os g).1 = Ret p ->
  exists reason,
    contains "nginx" reason = true
    /\ (Nginx.__virtual__ g).1
       = Ret (if truthy p then VTrue else VReject reason).
Proof.
  intros Hp. exists Nginx.not_installed. split; [reflexivity|].
  unfold Nginx.__virtual__, bind.
  destruct (Nginx.__detect_os g) as [[q|e] g']; simpl in Hp; [|discriminate].
  injection Hp as ->. by destruct (truthy p).
Qed.

Lemma nginx_virtual_on_web_host :
  (@Nginx.__detect_os _ Sample.env (fresh Sample.web)).1
  = Ret (Some "/usr/sbin/nginx")
  /\ exists reason,
       contains "nginx" reason = true
       /\ (@Nginx.__virtual__ _ Sample.env (fresh Sample.web)).1
          = Ret (if truthy (Some "/usr/sbin/nginx") then VTrue
                 else VReject reason).
Proof.
  split; [reflexivity|].
  apply (@nginx_virtual_follows_probe _ Sample.env (fresh Sample.web)).
  reflexivity.
Defined.

(** On a host without nginx the same predicate rejects. *)
Example nginx_virtual_on_bare_host :
  (@Nginx.__virtual__ _ Sample.env (fresh Sample.bare)).1
  = Ret (VReject
           "The nginx execution module cannot be loaded: nginx is not installed.").
Proof. reflexivity. Qed.

(** A binary installed after the first lookup is not seen in the same
    generation. *)
Example nginx_installed_later_is_not_seen :
  let g := (@Nginx.__virtual__ _ Sample.env (fresh Sample.bare)).2 in
  let g' := drift (Sample.install "nginx" "/usr/sbin/nginx") g in
  (@Nginx.__detect_os _ Sample.env g').1 = Ret None.
Proof. reflexivity. Qed.

(** C7. Whatever the memoized lookup of mdata-list returns, the predicate
    of the mdata module returns the name mdata when it is truthy and the host
    is not a SmartOS global zone, and otherwise the pair [(False, reason)]
    with a reason that mentions SmartOS zones. *)
Theorem mdata_virtual_names_module {W : Type} `{Env W} (g g' : Rt W)
    (p : ProbeOutcome) :
  Mdata._check_mdata_list g = (Ret p, g') ->
  exists reason,
    contains "SmartOS zones" reason = true
    /\ (Mdata.__virtual__ g).1
       = Ret (if truthy p && negb (is_smartos_globalzone (host g'))
              then VName "mdata" else VReject reason).
Proof.
  intros Hp. exists Mdata.smartos_only. split; [reflexivity|].
  unfold Mdata.__virtual__, bind. rewrite Hp.
  by destruct (truthy p && negb (is_smartos_globalzone (host g'))).
Qed.

Lemma mdata_virtual_in_zone :
  @Mdata._check_mdata_list _ Sample.env (fresh Sample.zone)
  = (Ret (Some "/usr/sbin/mdata-list"),
     (@Mdata._check_mdata_list _ Sample.env (fresh Sample.zone)).2)
  /\ exists reason,
       contains "SmartOS zones" reason = true
       /\ (@Mdata.__virtual__ _ Sample.env (fresh Sample.zone)).1
          = Ret (VName "mdata").
Proof.
  split; [reflexivity|].
  exact (@mdata_virtual_names_module _ Sample.env (fresh Sample.zone)
           (@Mdata._check_mdata_list _ Sample.env (fresh Sample.zone)).2
           (Some "/usr/sbin/mdata-list") eq_refl).
Defined.



Example netsh_virtual_off_windows :
  @Netsh.__virtual__ _ Sample.env Netsh.loaded_at_resolution
    (fresh Sample.bare)
  = (Ret (VReject "This utility only available on Windows"),
     fresh Sample.bare).
Proof. reflexivity. Qed.

Example netsh_virtual_on_windows :
  (@Netsh.__virtual__ _ Sample.env Netsh.loaded_at_resolution
     (fresh Sample.desktop)).1
  = Ret (VName "netsh").
Proof. reflexivity. Qed.

(** The file itself does not import [salt.utils.platform]: in an interpreter
    where no import has loaded it, looking the name up fails. *)
Example netsh_virtual_needs_platform_loaded :
  (@Netsh.__virtual__ _ Sample.env
     ["salt"; "salt.modules"; "salt.modules.cmdmod"; "salt.exceptions";
      "salt.utils"]
     (fresh Sample.bare)).1
  = Raise (AttributeError "module 'salt.utils' has no attribute 'platform'").
Proof. reflexivity. Qed.

(** The pony outputter answers a bare [False] when ponysay is not found. *)
Lemma pony_virtual_by_lookup {W : Type} `{Env W} (g : Rt W) :
  (Pony.__virtual__ g).1
  = Ret (if truthy (which "ponysay" (host g)).1 then VName "pony" else VFalse).
Proof.
  unfold Pony.__virtual__, bind, run_check.
  destruct (which "ponysay" (host g)) as [p w']. simpl. by destruct (truthy p).
Qed.

(** The asam runner answers a bare [False] when its libraries are missing. *)
Lemma asam_virtual_without_libs `{Builtins} (opts : list (string * PyVal)) :
  Asam.__virtual__ false opts = VFalse.
Proof. reflexivity. Qed.

(** C8. The pony outputter returns a bare [False] when ponysay is not
    found, and the asam runner returns a bare [False] both when its libraries
    are missing and when the configuration has no asam entry. *)
Theorem bare_false_when_unavailable {W : Type} `{Builtins} `{Env W}
    (g : Rt W) (opts : list (string * PyVal)) :
  (truthy (which "ponysay" (host g)).1 = false ->
   (Pony.__virtual__ g).1 = Ret VFalse)
  /\ Asam.__virtual__ false opts = VFalse
  /\ (dict_get "asam" opts = None -> Asam.__virtual__ true opts = VFalse).
Proof.
  split; [|split].
  - intros Hp. rewrite pony_virtual_by_lookup. by rewrite Hp.
  - apply asam_virtual_without_libs.
  - intros Hno. unfold Asam.__virtual__, Asam._get_asam_configuration.
    by rewrite Hno.
Qed.

Lemma bare_false_on_bare_host :
  (@Pony.__virtual__ _ Sample.env (fresh Sample.bare)).1 = Ret VFalse
  /\ @Asam.__virtual__ Sample.builtins false [] = VFalse
  /\ @Asam.__virtual__ Sample.builtins true [] = VFalse.
Proof.
  destruct (@bare_false_when_unavailable _ Sample.builtins Sample.env
              (fresh Sample.bare) []) as (Hpony & Hlibs & Hconf).
  split; [exact (Hpony eq_refl)|]. split; [exact Hlibs|exact (Hconf eq_refl)].
Defined.

(** ** The mdata functions when a binary is not found *)

Section MdataFacts.
Context {W : Type} `{Builtins} `{Env W}.

(** A loop whose body only computes leaves the state alone. *)
Lemma for_each_pure {S A B} (xs : list A) (body : A -> B -> M S B)
    (f : A -> B -> B) :
  (forall x acc, body x acc = ret (f x acc)) ->
  forall acc s,
    for_each xs body acc s = (Ret (foldl (fun acc x => f x acc) acc xs), s).
Proof.
  intros Hbody. induction xs as [|x xs IH]; intros acc s; [done|].
  simpl. unfold bind. rewrite Hbody. simpl. apply IH.
Qed.

Lemma foldl_insert_const {V} (c : V) (keys : list string) :
  forall (acc : gmap string V) k,
    k ∈ keys ->
    foldl (fun acc x => <[x := c]> acc) acc keys !! k = Some c.
Proof.
  induction keys as [|x keys IH]; intros acc k Hin.
  - by apply elem_of_nil in Hin.
  - simpl. destruct (decide (k ∈ keys)) as [Hk|Hk]; [by apply IH|].
    apply elem_of_cons in Hin as [->|Hin]; [|done].
    clear IH. revert acc. induction keys as [|y keys IH]; intros acc.
    + simpl. apply lookup_insert_eq.
    + simpl. apply not_elem_of_cons in Hk as [Hne Hk].
      rewrite insert_insert_ne by done. by apply IH.
Qed.

(** [list_] without mdata-list: the empty dictionary, nothing run. *)
Lemma list_without_binary (g g' : Rt W) (p : ProbeOutcome) :
  Mdata._check_mdata_list g = (Ret p, g') ->
  truthy p = false ->
  Mdata.list_ g = (Ret Mdata.EmptyDict, g').
Proof.
  intros Hp Hf. unfold Mdata.list_, bind. rewrite Hp, Hf. done.
Qed.

(** [get_] on given keys without mdata-get: every key is mapped to the empty
    string, nothing run. *)
Lemma get_without_binary (g g' : Rt W) (p : ProbeOutcome) (k : string)
    (keyname : list string) :
  Mdata._check_mdata_get g = (Ret p, g') ->
  truthy p = false ->
  exists d,
    Mdata.get_ (k :: keyname) g = (Ret d, g')
    /\ forall k', k' ∈ k :: keyname -> d !! k' = Some "".
Proof.
  intros Hp Hf. unfold Mdata.get_, bind. rewrite Hp. simpl.
  rewrite Hf. unfold bind. simpl.
  rewrite (for_each_pure keyname _ (fun k ret_ => <[k := ""]> ret_)) by done.
  eexists. split; [done|]. intros k' Hin.
  by apply (foldl_insert_const "" (k :: keyname) ∅).
Qed.

(** [delete_] without mdata-delete: every key is mapped to [True], and
    nothing is run after the listing. *)
Lemma delete_without_binary (g g' g'' : Rt W) (p : ProbeOutcome)
    (l : Mdata.Listing) (keyname : list string) :
  Mdata._check_mdata_delete g = (Ret p, g') ->
  truthy p = false ->
  Mdata.list_ g' = (Ret l, g'') ->
  exists d,
    Mdata.delete_ keyname g = (Ret d, g'')
    /\ forall k, k ∈ keyname -> d !! k = Some true.
Proof.
  intros Hp Hf Hl. unfold Mdata.delete_, bind. rewrite Hp, Hl, Hf. simpl.
  rewrite (for_each_pure keyname _ (fun k ret_ => <[k := true]> ret_)) by done.
  eexists. split; [done|]. intros k Hin. by apply foldl_insert_const.
Qed.

End MdataFacts.

(** C4. [put_] without mdata-put: [ret] is still the empty dictionary when
    [ret["retcode"]] is read, and the call raises [KeyError] where [list_],
    [get_] and [delete_] return. Nothing is run. *)
Theorem put_without_binary_raises {W : Type} `{Env W} (g g' : Rt W)
    (p : ProbeOutcome) (keyname val : string) :
  Mdata._check_mdata_put g = (Ret p, g') ->
  truthy p = false ->
  Mdata.put_ keyname val g = (Raise (KeyError "retcode"), g').
Proof.
  intros Hp Hf. unfold Mdata.put_, bind. rewrite Hp, Hf. done.
Qed.

Lemma put_on_bare_host :
  @Mdata._check_mdata_put _ Sample.env (fresh Sample.bare)
  = (Ret None, (@Mdata._check_mdata_put _ Sample.env (fresh Sample.bare)).2)
  /\ truthy None = false
  /\ (@Mdata.put_ _ Sample.env "salt:role" "web" (fresh Sample.bare)).1
     = Raise (KeyError "retcode").
Proof.
  split; [reflexivity|]. split; [reflexivity|].
  rewrite (@put_without_binary_raises _ Sample.env (fresh Sample.bare)
             (@Mdata._check_mdata_put _ Sample.env (fresh Sample.bare)).2
             None "salt:role" "web" eq_refl eq_refl).
  reflexivity.
Defined.

(** ** Alias tables *)

(** C6. Registering the mdata plugin enters its four functions under
    [mdata.list], [mdata.get], [mdata.put] and [mdata.delete], and registering
    the eselect states enters [set_] under [eselect.set], whatever the table
    held before: a lookup of the public name gives the function defined under
    the name with the underscore, and the names with the underscore are not
    entered. *)
Theorem aliased_names_reach_functions {Op : Type}
    (list_ get_ put_ delete_ set_ : Op) (table : gmap string Op) :
  let mdata :=
    Loader.register (Loader.mdata_unit list_ get_ put_ delete_)
      (VName Mdata.__virtualname__) table in
  let eselect :=
    Loader.register (Loader.eselect_unit set_) (VName "eselect") table in
  Loader.dispatch mdata "mdata.list" = Some list_
  /\ Loader.dispatch mdata "mdata.get" = Some get_
  /\ Loader.dispatch mdata "mdata.put" = Some put_
  /\ Loader.dispatch mdata "mdata.delete" = Some delete_
  /\ Loader.dispatch mdata "mdata.list_" = Loader.dispatch table "mdata.list_"
  /\ Loader.dispatch eselect "eselect.set" = Some set_
  /\ Loader.dispatch eselect "eselect.set_"
     = Loader.dispatch table "eselect.set_".
Proof.
  unfold Loader.register, Loader.dispatch, Loader.mdata_unit,
    Loader.eselect_unit. cbn.
  repeat split; by simplify_map_eq.
Qed.

(** ** State functions in test mode *)

(** The predicates of the two state plugins read one key of the table they
    are handed. *)
Lemma gem_virtual_reads_table {Op} (table : gmap string Op) :
  GemState.__virtual__ table
  = if bool_decide (is_Some (table !! "gem.list")) then VTrue
    else VReject "gem module could not be loaded".
Proof. reflexivity. Qed.

Lemma eselect_virtual_reads_table {Op} (table : gmap string Op) :
  EselectState.__virtual__ table
  = if bool_decide (is_Some (table !! "eselect.exec_action"))
    then VName "eselect"
    else VReject "eselect module could not be loaded".
Proof. reflexivity. Qed.

Ltac not_mutating :=
  repeat constructor; try (apply (bool_decide_unpack _); by vm_compute).

Ltac calls_made :=
  first [ exists []; split; [reflexivity|]
        | eexists [_]; split; [reflexivity|]
        | eexists [_; _]; split; [reflexivity|]
        | eexists [_; _; _]; split; [reflexivity|] ].

Section GemStateFacts.
Context `{Builtins}.
Variable versions_compare : string -> string -> string -> bool.
Variable __salt__ : GemState.Salt.
Variable __opts__ : list (string * PyVal).

(** C9. In test mode, a gem state whose target is not yet in the state
    asked for returns a record with result [None] and no changes, and none
    of the entries of [__salt__] it invokes is [gem.install],
    [gem.uninstall], [gem.sources_add] or [gem.sources_remove]. For
    [installed] the listing of [gem.list] is taken to give a gem it lists at
    least one version. *)
Theorem gem_states_dry_run (c : GemState.Call) (log : list string) :
  GemState.test_mode __opts__ = true ->
  GemState.in_desired_state versions_compare __salt__ c = false ->
  GemState.well_listed __salt__ c = true ->
  exists r new,
    GemState.run versions_compare __salt__ __opts__ c log
    = (Ret r, (new ++ log)%list)
    /\ r_result r = None
    /\ r_changes r = ∅
    /\ Forall (fun key => key ∉ GemState.mutating) new.
Proof.
  unfold GemState.test_mode. intros Ht Hd Hw.
  destruct (dict_get "test" __opts__) as [v|] eqn:Hv; [|done].
  destruct c as [a|name ruby user gem_bin|name ruby user|name ruby user];
    simpl in Hd, Hw; simpl.
  - unfold GemState.installed, GemState.gem_as_asked,
      GemState.listed_with_version in *.
    unfold bind, invoke, subscript, ret, raise. rewrite Hv, Ht.
    destruct (GemState.i_ruby a) as [rb|];
      [destruct (GemState.rvm_is_installed __salt__ (GemState.i_runas a))|];
      simpl.
    all: destruct (GemState.versions_of _ _) as [[|first versions]|]; try done.
    all: try (destruct (GemState.i_version a) as [version|]; [|done]).
    all: try (destruct (GemState.match_cmpr version) as [cmpr|]).
    all: try rewrite Hd.
    all: eexists; calls_made; repeat split; not_mutating.
  - unfold GemState.removed, bind, invoke, subscript, ret. rewrite Hv, Ht.
    destruct (GemState.versions_of _ _); [|done].
    eexists; calls_made; repeat split; not_mutating.
  - unfold GemState.sources_add, bind, invoke, subscript, ret.
    rewrite Hv, Ht, Hd.
    eexists; calls_made; repeat split; not_mutating.
  - unfold GemState.sources_remove, bind, invoke, subscript, ret.
    rewrite Hv, Ht. apply negb_false_iff in Hd. rewrite Hd. simpl.
    eexists; calls_made; repeat split; not_mutating.
Qed.

End GemStateFacts.

(** Asking for the gem rails in test mode on a host that has only rake. *)
Lemma gem_installed_dry_run_on_sample :
  let compare := fun _ _ _ : string => false in
  let c :=
    GemState.Installed
      (GemState.mkInstallArgs "rails" None None None None false false false
         None None) in
  GemState.test_mode Sample.test_opts = true
  /\ @GemState.in_desired_state Sample.builtins compare Sample.gem_salt c
     = false
  /\ GemState.well_listed Sample.gem_salt c = true
  /\ exists r new,
       @GemState.run Sample.builtins compare Sample.gem_salt Sample.test_opts
         c []
       = (Ret r, (new ++ [])%list)
       /\ r_result r = None
       /\ r_changes r = ∅
       /\ Forall (fun key => key ∉ GemState.mutating) new.
Proof.
  intros compare c.
  split; [reflexivity|]. split; [reflexivity|]. split; [reflexivity|].
  apply (@gem_states_dry_run Sample.builtins compare Sample.gem_salt
           Sample.test_opts c []); reflexivity.
Defined.

(** Outside test mode the same call goes on to [gem.install]. *)
Example gem_installed_for_real_on_sample :
  (@GemState.run Sample.builtins (fun _ _ _ => false) Sample.gem_salt
     [("test", PBool false)]
     (GemState.Installed
        (GemState.mkInstallArgs "rails" None None None None false false false
           None None)) []).2
  = ["gem.install"; "gem.list"].
Proof. reflexivity. Qed.

(** ** The store argument of the netsh functions *)

Section NetshFacts.
Context {W : Type} `{Builtins} `{Env W}.
Variable __hostname__ : string.

Abbreviation _netsh_command := (Netsh._netsh_command __hostname__).
Abbreviation get_settings := (Netsh.get_settings __hostname__).

Lemma netsh_command_wrong_store command store (g : Rt W) :
  Netsh.valid_store store = false ->
  _netsh_command command store g
  = (Raise (ValueError ("Incorrect store: " +:+ store)), g).
Proof.
  unfold Netsh.valid_store, Netsh._netsh_command. intros ->. reflexivity.
Qed.

Lemma get_settings_wrong_store profile section store (g : Rt W) :
  Netsh.valid_store store = false ->
  exists msg,
    get_settings profile section store g = (Raise (ValueError msg), g)
    /\ (Netsh.valid_profile profile
        && in_tuple (lower section)
             ["state"; "firewallpolicy"; "settings"; "logging"] = true ->
        msg = "Incorrect store: " +:+ store).
Proof.
  unfold Netsh.valid_store, Netsh.valid_profile, Netsh.get_settings.
  intros ->.
  destruct (in_tuple (lower profile) Netsh.profiles); simpl;
    [|eexists; split; [reflexivity|discriminate]].
  destruct (in_tuple (lower section) _); simpl;
    [|eexists; split; [reflexivity|discriminate]].
  eexists; split; [reflexivity|done].
Qed.

(** With a wrong store every call raises [ValueError] and leaves the state
    as it was; the message is the one for the store when the other
    arguments are in order. *)
Lemma wrong_store_raises (c : Netsh.Call) (g : Rt W) :
  Netsh.valid_store (Netsh.store_of c) = false ->
  exists msg,
    Netsh.run __hostname__ c g = (Some (ValueError msg), g)
    /\ (Netsh.other_args_ok c = true ->
        msg = "Incorrect store: " +:+ Netsh.store_of c).
Proof.
  intros Hv.
  destruct c as [command store|profile section store|profile store|store
                |profile inbound outbound store|profile setting_ value store
                |profile setting_ value store|profile state store];
    simpl in Hv; simpl; unfold Netsh.raised.
  - rewrite netsh_command_wrong_store by done. eauto.
  - destruct (get_settings_wrong_store profile section store g Hv)
      as (msg & -> & Hmsg). eauto.
  - unfold Netsh.get_all_settings, bind.
    destruct (get_settings_wrong_store profile "state" store g Hv)
      as (msg & -> & Hmsg).
    exists msg. split; [done|]. intros Hp. apply Hmsg. by rewrite Hp.
  - unfold Netsh.get_all_profiles, Netsh.get_all_settings, bind.
    destruct (get_settings_wrong_store "domain" "state" store g Hv)
      as (msg & -> & Hmsg).
    exists msg. split; [done|]. intros _. by apply Hmsg.
  - unfold Netsh.set_firewall_settings, Netsh.valid_profile.
    destruct (in_tuple (lower profile) Netsh.profiles) eqn:Hp; simpl;
      [|eexists; split; [reflexivity|discriminate]].
    destruct (truthy inbound) eqn:Hi; simpl.
    + destruct (in_tuple (lower (str inbound)) _) eqn:Hi'; simpl;
        [|eexists; split; [reflexivity|discriminate]].
      destruct (truthy outbound) eqn:Ho; simpl.
      * destruct (in_tuple (lower (str outbound)) _) eqn:Ho'; simpl;
          [|eexists; split; [reflexivity|discriminate]].
        unfold bind, ret, Netsh.run_set, bind.
        rewrite netsh_command_wrong_store by done. eauto.
      * unfold bind.
        destruct (get_settings_wrong_store profile "firewallpolicy" store g Hv)
          as (msg & -> & Hmsg).
        exists msg. split; [done|]. intros _. apply Hmsg.
        unfold Netsh.valid_profile. by rewrite Hp.
    + destruct (truthy outbound) eqn:Ho; simpl.
      * destruct (in_tuple (lower (str outbound)) _) eqn:Ho'; simpl;
          [|eexists; split; [reflexivity|discriminate]].
        unfold bind.
        destruct (get_settings_wrong_store profile "firewallpolicy" store g Hv)
          as (msg & -> & Hmsg).
        exists msg. split; [done|]. intros _. apply Hmsg.
        unfold Netsh.valid_profile. by rewrite Hp.
      * eexists; split; [reflexivity|discriminate].
  - unfold Netsh.set_logging_settings, Netsh.valid_profile.
    destruct (in_tuple (lower profile) Netsh.profiles); simpl;
      [|eexists; split; [reflexivity|discriminate]].
    destruct (in_tuple (lower setting_) [_; _; _; _]); simpl;
      [|eexists; split; [reflexivity|discriminate]].
    destruct (in_tuple (lower setting_) [_; _]); simpl.
    + destruct (in_tuple (lower value) _); simpl;
        [|eexists; split; [reflexivity|discriminate]].
      destruct (String.eqb (lower setting_) "maxfilesize"); simpl.
      * destruct (String.eqb (lower value) "notconfigured"); simpl.
        { unfold Netsh.run_set, bind.
          rewrite netsh_command_wrong_store by done. eauto. }
        destruct (int_of_str value) as [n|]; simpl;
          [destruct ((1 <=? n)%Z && (n <=? 32767)%Z); simpl|];
          try (eexists; split; [reflexivity|discriminate]).
        unfold Netsh.run_set, bind.
        rewrite netsh_command_wrong_store by done. eauto.
      * unfold Netsh.run_set, bind.
        rewrite netsh_command_wrong_store by done. eauto.
    + destruct (String.eqb (lower setting_) "maxfilesize"); simpl.
      * destruct (String.eqb (lower value) "notconfigured"); simpl.
        { unfold Netsh.run_set, bind.
          rewrite netsh_command_wrong_store by done. eauto. }
        destruct (int_of_str value) as [n|]; simpl;
          [destruct ((1 <=? n)%Z && (n <=? 32767)%Z); simpl|];
          try (eexists; split; [reflexivity|discriminate]).
        unfold Netsh.run_set, bind.
        rewrite netsh_command_wrong_store by done. eauto.
      * unfold Netsh.run_set, bind.
        rewrite netsh_command_wrong_store by done. eauto.
  - unfold Netsh.set_settings, Netsh.valid_profile.
    destruct (in_tuple (lower profile) Netsh.profiles); simpl;
      [|eexists; split; [reflexivity|discriminate]].
    destruct (in_tuple (lower setting_) _); simpl;
      [|eexists; split; [reflexivity|discriminate]].
    destruct (in_tuple (lower value) _); simpl;
      [|eexists; split; [reflexivity|discriminate]].
    unfold Netsh.run_set, bind.
    rewrite netsh_command_wrong_store by done. eauto.
  - unfold Netsh.set_state, Netsh.valid_profile.
    destruct (in_tuple (lower profile) Netsh.profiles); simpl;
      [|eexists; split; [reflexivity|discriminate]].
    destruct (in_tuple (lower state) _); simpl;
      [|eexists; split; [reflexivity|discriminate]].
    unfold Netsh.run_set, bind.
    rewrite netsh_command_wrong_store by done. eauto.
Qed.

Lemma run_set_wrong_store command store (g : Rt W) :
  Netsh.valid_store store = false ->
  Netsh.run_set __hostname__ command store g
  = (Raise (ValueError ("Incorrect store: " +:+ store)), g).
Proof.
  intros Hv. unfold Netsh.run_set, bind.
  by rewrite netsh_command_wrong_store.
Qed.

Lemma get_settings_first_invalid profile section store (g : Rt W) msg :
  Netsh.first_invalid
    (Netsh.checks_of (Netsh.GetSettings profile section store))
  = Some msg ->
  get_settings profile section store g = (Raise (ValueError msg), g).
Proof.
  cbn [Netsh.checks_of Netsh.first_invalid].
  unfold Netsh.valid_profile, Netsh.valid_store, Netsh.get_settings.
  destruct (in_tuple (lower profile) Netsh.profiles); simpl;
    [|by intros [= <-]].
  destruct (in_tuple (lower section) _); simpl; [|by intros [= <-]].
  destruct (in_tuple (lower store) _); simpl; [done|by intros [= <-]].
Qed.

Lemma known_section_passes (section : string) :
  section ∈ ["state"; "firewallpolicy"; "settings"; "logging"] ->
  in_tuple (lower section) ["state"; "firewallpolicy"; "settings"; "logging"]
  = true.
Proof.
  rewrite !elem_of_cons, elem_of_nil.
  intros [->|[->|[->|[->|[]]]]]; by vm_compute.
Qed.

(** A lookup with a profile that passes and a section of the file's own:
    only the store is left to fail. *)
Lemma get_settings_store_only profile section store (g : Rt W) :
  Netsh.valid_profile profile = true ->
  section ∈ ["state"; "firewallpolicy"; "settings"; "logging"] ->
  Netsh.valid_store store = false ->
  get_settings profile section store g
  = (Raise (ValueError ("Incorrect store: " +:+ store)), g).
Proof.
  intros Hp Hsec Hv. apply get_settings_first_invalid.
  cbn [Netsh.checks_of Netsh.first_invalid].
  by rewrite Hp, (known_section_passes _ Hsec), Hv.
Qed.

(** Whatever a call is given, when one of its checks does not pass the call
    raises the [ValueError] of the first such check and leaves the state as
    it was. *)
Lemma first_invalid_is_raised (c : Netsh.Call) (g : Rt W) (msg : string) :
  Netsh.first_invalid (Netsh.checks_of c) = Some msg ->
  Netsh.run __hostname__ c g = (Some (ValueError msg), g).
Proof.
  assert (Hstate : "state" ∈ ["state"; "firewallpolicy"; "settings";
                               "logging"]) by (apply (bool_decide_unpack _);
                                               by vm_compute).
  assert (Hpolicy : "firewallpolicy" ∈ ["state"; "firewallpolicy";
                                         "settings"; "logging"])
    by (apply (bool_decide_unpack _); by vm_compute).
  destruct c as [command store|profile section store|profile store|store
                |profile inbound outbound store|profile setting_ value store
                |profile setting_ value store|profile state store];
    cbn [Netsh.run]; unfold Netsh.raised.
  - cbn [Netsh.checks_of Netsh.first_invalid].
    destruct (Netsh.valid_store store) eqn:Hv; [done|]. intros [= <-].
    by rewrite netsh_command_wrong_store.
  - intros Hf. by rewrite (get_settings_first_invalid _ _ _ _ _ Hf).
  - cbn [Netsh.checks_of Netsh.first_invalid].
    unfold Netsh.get_all_settings, bind.
    destruct (Netsh.valid_profile profile) eqn:Hp.
    + destruct (Netsh.valid_store store) eqn:Hv; [done|]. intros [= <-].
      by rewrite get_settings_store_only.
    + intros [= <-].
      rewrite (get_settings_first_invalid profile "state" store g
                 ("Incorrect profile: " +:+ profile)); [done|].
      cbn [Netsh.checks_of Netsh.first_invalid]. by rewrite Hp.
  - cbn [Netsh.checks_of Netsh.first_invalid].
    destruct (Netsh.valid_store store) eqn:Hv; [done|]. intros [= <-].
    unfold Netsh.get_all_profiles, Netsh.get_all_settings, bind.
    rewrite get_settings_store_only; [done| |done|done].
    by vm_compute.
  - cbn [Netsh.checks_of Netsh.first_invalid].
    unfold Netsh.set_firewall_settings.
    destruct (Netsh.valid_profile profile) eqn:Hp;
      pose proof Hp as Hp'; unfold Netsh.valid_profile in Hp'; rewrite Hp';
      cbn [negb]; [|by intros [= <-]].
    destruct (truthy inbound) eqn:Hi; cbn [negb andb orb].
    + destruct (in_tuple (lower (str inbound)) _) eqn:Hi'; cbn [negb];
        [|by intros [= <-]].
      destruct (truthy outbound) eqn:Ho; cbn [negb andb orb].
      * destruct (in_tuple (lower (str outbound)) _) eqn:Ho'; cbn [negb];
          [|by intros [= <-]].
        destruct (Netsh.valid_store store) eqn:Hv; [done|]. intros [= <-].
        unfold bind at 1. unfold ret at 1.
        by rewrite run_set_wrong_store.
      * destruct (Netsh.valid_store store) eqn:Hv; [done|]. intros [= <-].
        unfold bind. by rewrite get_settings_store_only.
    + destruct (truthy outbound) eqn:Ho; cbn [negb andb orb].
      * destruct (in_tuple (lower (str outbound)) _) eqn:Ho'; cbn [negb];
          [|by intros [= <-]].
        destruct (Netsh.valid_store store) eqn:Hv; [done|]. intros [= <-].
        unfold bind. by rewrite get_settings_store_only.
      * by intros [= <-].
  - cbn [Netsh.checks_of Netsh.first_invalid].
    unfold Netsh.set_logging_settings.
    destruct (Netsh.valid_profile profile) eqn:Hp;
      pose proof Hp as Hp'; unfold Netsh.valid_profile in Hp'; rewrite Hp';
      cbn [negb]; [|by intros [= <-]].
    destruct (in_tuple (lower setting_) [_; _; _; _]); cbn [negb];
      [|by intros [= <-]].
    destruct (in_tuple (lower setting_) [_; _]); cbn [negb andb orb];
      [destruct (in_tuple (lower value) _); cbn [negb];
         [|by intros [= <-]]|].
    all: destruct (String.eqb (lower setting_) "maxfilesize");
      cbn [negb andb orb].
    all: try (destruct (String.eqb (lower value) "notconfigured");
              cbn [negb andb orb]).
    all: try (destruct (int_of_str value) as [n|];
              [destruct ((1 <=? n)%Z && (n <=? 32767)%Z)|];
              cbn [negb]).
    all: try (by intros [= <-]).
    all: destruct (Netsh.valid_store store) eqn:Hv; [done|]; intros [= <-].
    all: by rewrite run_set_wrong_store.
  - cbn [Netsh.checks_of Netsh.first_invalid].
    unfold Netsh.set_settings.
    destruct (Netsh.valid_profile profile) eqn:Hp;
      pose proof Hp as Hp'; unfold Netsh.valid_profile in Hp'; rewrite Hp';
      cbn [negb]; [|by intros [= <-]].
    destruct (in_tuple (lower setting_) _); cbn [negb]; [|by intros [= <-]].
    destruct (in_tuple (lower value) _); cbn [negb]; [|by intros [= <-]].
    destruct (Netsh.valid_store store) eqn:Hv; [done|]. intros [= <-].
    by rewrite run_set_wrong_store.
  - cbn [Netsh.checks_of Netsh.first_invalid].
    unfold Netsh.set_state.
    destruct (Netsh.valid_profile profile) eqn:Hp;
      pose proof Hp as Hp'; unfold Netsh.valid_profile in Hp'; rewrite Hp';
      cbn [negb]; [|by intros [= <-]].
    destruct (in_tuple (lower state) _); cbn [negb]; [|by intros [= <-]].
    destruct (Netsh.valid_store store) eqn:Hv; [done|]. intros [= <-].
    by rewrite run_set_wrong_store.
Qed.

(** With a wrong store some check fails, the one of the store at the
    latest. *)
Lemma wrong_store_is_invalid (c : Netsh.Call) :
  Netsh.valid_store (Netsh.store_of c) = false ->
  exists msg, Netsh.first_invalid (Netsh.checks_of c) = Some msg.
Proof.
  intros Hv. destruct c; simpl in Hv;
    cbn [Netsh.checks_of Netsh.first_invalid]; rewrite Hv;
    repeat match goal with
           | |- context [if ?b then _ else _] => destruct b
           end; eauto.
Qed.

(** Composition of computations that raise nothing about the store. *)
Lemma store_safe_ret {A} (a : A) : Netsh.store_safe (W := W) (ret a).
Proof. intros g e g' [=]. Qed.

Lemma store_safe_raise {A} (e : PyExn) :
  Netsh.not_store_error e -> Netsh.store_safe (W := W) (A := A) (raise e).
Proof. intros He g e' g' [= <- _]. done. Qed.

Lemma store_safe_bind {A B} (m : M (Rt W) A) (k : A -> M (Rt W) B) :
  Netsh.store_safe m -> (forall a, Netsh.store_safe (k a)) ->
  Netsh.store_safe (bind m k).
Proof.
  intros Hm Hk g e g'. unfold bind.
  destruct (m g) as [[a|e'] g1] eqn:Hmg.
  - apply Hk.
  - intros [= <- _]. by eapply Hm.
Qed.

Ltac store_safe :=
  repeat first
    [ match goal with
      | Hs : forall _, Netsh.store_safe _ |- _ => apply Hs
      end
    | apply store_safe_ret
    | apply store_safe_raise; first [exact I | reflexivity]
    | apply store_safe_bind; [|intros ?]
    | assumption
    | match goal with
      | |- Netsh.store_safe (if ?b then _ else _) => destruct b
      | |- Netsh.store_safe (match ?x with _ => _ end) => destruct x
      end ].

Lemma netsh_command_safe command store :
  Netsh.valid_store store = true ->
  Netsh.store_safe (_netsh_command command store).
Proof.
  unfold Netsh.valid_store, Netsh._netsh_command. intros ->. simpl.
  apply store_safe_bind; [|intros; apply store_safe_ret].
  intros g e g'. unfold Netsh._netsh_file.
  by destruct (netsh_f _ (host g)).
Qed.

Lemma get_settings_safe profile section store :
  Netsh.valid_store store = true ->
  Netsh.store_safe (get_settings profile section store).
Proof.
  intros Hv. pose proof (netsh_command_safe) as Hc.
  unfold Netsh.get_settings. unfold Netsh.valid_store in Hv. rewrite Hv.
  simpl. store_safe. by apply Hc.
Qed.

Lemma run_set_safe command store :
  Netsh.valid_store store = true ->
  Netsh.store_safe (Netsh.run_set __hostname__ command store).
Proof.
  intros Hv. unfold Netsh.run_set.
  apply store_safe_bind; [by apply netsh_command_safe|].
  intros [|line results]; store_safe.
Qed.

Lemma get_all_settings_safe profile store :
  Netsh.valid_store store = true ->
  Netsh.store_safe (Netsh.get_all_settings __hostname__ profile store).
Proof.
  intros Hv. unfold Netsh.get_all_settings.
  repeat (apply store_safe_bind; [by apply get_settings_safe|intros ?]).
  apply store_safe_ret.
Qed.

(** With one of the two accepted stores no call raises the exception for a
    wrong store. *)
Lemma accepted_store_is_safe (c : Netsh.Call) (g : Rt W) (e : PyExn) :
  Netsh.valid_store (Netsh.store_of c) = true ->
  (Netsh.run __hostname__ c g).1 = Some e ->
  Netsh.not_store_error e.
Proof.
  intros Hv.
  assert (Hsafe : forall A (m : M (Rt W) A),
             Netsh.store_safe m -> (Netsh.raised m g).1 = Some e ->
             Netsh.not_store_error e).
  { intros A m Hm. unfold Netsh.raised.
    destruct (m g) as [[a|e'] g'] eqn:Hmg; simpl; [done|].
    intros [= <-]. by eapply Hm. }
  destruct c as [command store|profile section store|profile store|store
                |profile inbound outbound store|profile setting_ value store
                |profile setting_ value store|profile state store];
    simpl in Hv; simpl; apply Hsafe.
  - by apply netsh_command_safe.
  - by apply get_settings_safe.
  - by apply get_all_settings_safe.
  - unfold Netsh.get_all_profiles.
    repeat (apply store_safe_bind; [by apply get_all_settings_safe|intros ?]).
    apply store_safe_ret.
  - pose proof (get_settings_safe profile "firewallpolicy" store Hv) as Hg.
    pose proof (fun command => run_set_safe command store Hv) as Hr.
    unfold Netsh.set_firewall_settings, Netsh.setting. store_safe.
  - pose proof (fun command => run_set_safe command store Hv) as Hr.
    unfold Netsh.set_logging_settings. store_safe.
  - pose proof (fun command => run_set_safe command store Hv) as Hr.
    unfold Netsh.set_settings. store_safe.
  - pose proof (fun command => run_set_safe command store Hv) as Hr.
    unfold Netsh.set_state. store_safe.
Qed.

End NetshFacts.

(** C10, as amended. A netsh function called with a store that is neither
    local nor lgpo in lower case raises [ValueError] with the state as it
    was, so before any netsh script is run. The error is the one of the
    first check that does not pass, in the order profile, the arguments
    particular to the function, store: the message is
    [Incorrect store: <store>] when the arguments checked before the store
    are in order, and the message for the first of them that is not
    otherwise. With one of the two accepted stores no [ValueError] with the
    message for the store is raised. *)
Theorem store_checked_before_netsh {W : Type} `{Builtins} `{Env W}
    (__hostname__ : string) (c : Netsh.Call) (g : Rt W) :
  (Netsh.valid_store (Netsh.store_of c) = false ->
   exists msg,
     Netsh.first_invalid (Netsh.checks_of c) = Some msg
     /\ Netsh.run __hostname__ c g = (Some (ValueError msg), g)
     /\ (Netsh.other_args_ok c = true ->
         msg = "Incorrect store: " +:+ Netsh.store_of c))
  /\ (Netsh.valid_store (Netsh.store_of c) = true ->
      forall e,
        (Netsh.run __hostname__ c g).1 = Some e -> Netsh.not_store_error e).
Proof.
  split.
  - intros Hv. destruct (wrong_store_is_invalid c Hv) as [msg Hmsg].
    pose proof (first_invalid_is_raised __hostname__ c g msg Hmsg) as Hrun.
    exists msg. split; [done|]. split; [done|]. intros Hok.
    destruct (wrong_store_raises __hostname__ c g Hv)
      as (msg' & Hrun' & Hstore).
    rewrite Hrun in Hrun'. injection Hrun' as ->. by apply Hstore.
  - intros Hv e. by apply accepted_store_is_safe.
Qed.

Lemma wrong_store_on_sample :
  Netsh.valid_store "bogus" = false
  /\ exists msg,
       Netsh.first_invalid
         (@Netsh.checks_of Sample.builtins
            (Netsh.GetSettings "domain" "state" "bogus"))
       = Some msg
       /\ @Netsh.run _ Sample.builtins Sample.env "minion"
            (Netsh.GetSettings "domain" "state" "bogus")
            (fresh Sample.desktop)
          = (Some (ValueError msg), fresh Sample.desktop)
       /\ msg = "Incorrect store: bogus".
Proof.
  split; [reflexivity|].
  destruct (proj1 (@store_checked_before_netsh _ Sample.builtins Sample.env
                     "minion" (Netsh.GetSettings "domain" "state" "bogus")
                     (fresh Sample.desktop)) eq_refl)
    as (msg & Hfirst & Hrun & Hmsg).
  exists msg. split; [exact Hfirst|]. split; [exact Hrun|].
  exact (Hmsg eq_refl).
Defined.

(** A wrong section and a wrong store together: the error is the one for
    the section, which is checked first. *)
Example wrong_section_is_reported_first :
  @Netsh.run _ Sample.builtins Sample.env "minion"
    (Netsh.GetSettings "domain" "bogus" "bogus") (fresh Sample.desktop)
  = (Some (ValueError "Incorrect section: bogus"), fresh Sample.desktop).
Proof. reflexivity. Qed.

(** With a profile that is wrong as well, the error raised is the one for
    the profile: the message is not the one for the store. *)
Lemma wrong_profile_is_reported_first :
  Netsh.valid_store "bogus" = false
  /\ (@Netsh.run _ Sample.builtins Sample.env "minion"
        (Netsh.GetSettings "bogus" "state" "bogus") (fresh Sample.desktop)).1
     = Some (ValueError "Incorrect profile: bogus")
  /\ (@Netsh.run _ Sample.builtins Sample.env "minion"
        (Netsh.GetSettings "bogus" "state" "bogus") (fresh Sample.desktop)).1
     <> Some (ValueError "Incorrect store: bogus").
Proof.
  split; [reflexivity|]. split; [reflexivity|]. discriminate.
Qed.

(** With the store local the script is run. *)
Example get_settings_runs_netsh :
  shell (@Netsh.run _ Sample.builtins Sample.env "minion"
           (Netsh.GetSettings "domain" "state" "LOCAL")
           (fresh Sample.desktop)).2
  <> [].
Proof. discriminate. Qed.

(** * Further properties of the embedded code *)

(** ** salt/states/gem.py *)

Section GemStateMore.
Context `{Builtins}.
Variable versions_compare : string -> string -> string -> bool.
Variable __salt__ : GemState.Salt.
Variable __opts__ : list (string * PyVal).


(** X2. Outside test mode a gem state whose target is not in the state
    asked for, with every listed gem given a version, invokes exactly one
    mutating entry, the one that carries the call out, as its last call, and
    reports what that entry answered: when it answered true, result [True]
    with the change recorded under the name; when it answered false, result
    [False] with no change. *)
Theorem gem_states_apply_once (c : GemState.Call) (log : list string)
    (test : PyVal) :
  dict_get "test" __opts__ = Some test ->
  truthy_val test = false ->
  GemState.in_desired_state versions_compare __salt__ c = false ->
  GemState.well_listed __salt__ c = true ->
  exists r new,
    GemState.run versions_compare __salt__ __opts__ c log
    = (Ret r, GemState.applying_entry c :: (new ++ log)%list)
    /\ GemState.applying_entry c ∈ GemState.mutating
    /\ Forall (fun key => key ∉ GemState.mutating) new
    /\ r_result r = Some (GemState.answer __salt__ c)
    /\ r_changes r
       = (if GemState.answer __salt__ c then GemState.change c else ∅).
Proof.
  intros Hv Ht Hd Hw.
  destruct c as [a|name ruby user gem_bin|name ruby user|name ruby user];
    simpl in Hd, Hw; simpl.
  - unfold GemState.installed, GemState.gem_as_asked,
      GemState.listed_with_version in *.
    unfold bind, invoke, subscript, ret, raise. rewrite Hv, Ht.
    destruct (GemState.i_ruby a) as [rb|];
      [destruct (GemState.rvm_is_installed __salt__ (GemState.i_runas a))|];
      simpl.
    all: destruct (GemState.versions_of _ _) as [[|first versions]|]; try done.
    all: try (destruct (GemState.i_version a) as [version|]; [|done]).
    all: try (destruct (GemState.match_cmpr version) as [cmpr|]).
    all: try rewrite Hd.
    all: destruct (GemState.gem_install __salt__ a).
    all: eexists; calls_made.
    all: split; [apply (bool_decide_unpack _); by vm_compute|].
    all: split; [not_mutating|].
    all: by split.
  - unfold GemState.removed, bind, invoke, subscript, ret. rewrite Hv, Ht.
    destruct (GemState.versions_of _ _); [|done].
    destruct (GemState.gem_uninstall __salt__ name ruby gem_bin user).
    all: eexists; calls_made.
    all: split; [apply (bool_decide_unpack _); by vm_compute|].
    all: split; [not_mutating|].
    all: by split.
  - unfold GemState.sources_add, bind, invoke, subscript, ret.
    rewrite Hv, Ht, Hd.
    destruct (GemState.gem_sources_add __salt__ name ruby user).
    all: eexists; calls_made.
    all: split; [apply (bool_decide_unpack _); by vm_compute|].
    all: split; [not_mutating|].
    all: by split.
  - unfold GemState.sources_remove, bind, invoke, subscript, ret.
    rewrite Hv, Ht. apply negb_false_iff in Hd. rewrite Hd. simpl.
    destruct (GemState.gem_sources_remove __salt__ name ruby user).
    all: eexists; calls_made.
    all: split; [apply (bool_decide_unpack _); by vm_compute|].
    all: split; [not_mutating|].
    all: by split.
Qed.

End GemStateMore.


Lemma gem_source_removed_for_real :
  let compare := fun _ _ _ : string => false in
  let opts := [("test", PBool false)] in
  let c := GemState.SourcesRemove "https://rubygems.org/" None None in
  dict_get "test" opts = Some (PBool false)
  /\ truthy_val (PBool false) = false
  /\ @GemState.in_desired_state Sample.builtins compare Sample.gem_salt c
     = false
  /\ GemState.well_listed Sample.gem_salt c = true
  /\ exists r new,
       @GemState.run Sample.builtins compare Sample.gem_salt opts c []
       = (Ret r, "gem.sources_remove" :: (new ++ [])%list)
       /\ "gem.sources_remove" ∈ GemState.mutating
       /\ Forall (fun key => key ∉ GemState.mutating) new
       /\ r_result r = Some true
       /\ r_changes r = <["https://rubygems.org/" := PStr "Removed"]> ∅.
Proof.
  intros compare opts c.
  split; [reflexivity|]. split; [reflexivity|]. split; [reflexivity|].
  split; [reflexivity|].
  apply (@gem_states_apply_once Sample.builtins compare Sample.gem_salt opts c
           [] (PBool false)); reflexivity.
Defined.

Section GemStateEdges.
Context `{Builtins}.
Variable versions_compare : string -> string -> string -> bool.
Variable __salt__ : GemState.Salt.

(** X3. When [__opts__] has no [test] key, a gem state whose target is not
    in the state asked for raises [KeyError] for that key, and has invoked
    no mutating entry before. *)
Theorem gem_states_need_test_key (__opts__ : list (string * PyVal))
    (c : GemState.Call) (log : list string) :
  dict_get "test" __opts__ = None ->
  GemState.in_desired_state versions_compare __salt__ c = false ->
  GemState.well_listed __salt__ c = true ->
  exists new,
    GemState.run versions_compare __salt__ __opts__ c log
    = (Raise (KeyError "test"), (new ++ log)%list)
    /\ Forall (fun key => key ∉ GemState.mutating) new.
Proof.
  intros Hv Hd Hw.
  destruct c as [a|name ruby user gem_bin|name ruby user|name ruby user];
    simpl in Hd, Hw; simpl.
  - unfold GemState.installed, GemState.gem_as_asked,
      GemState.listed_with_version in *.
    unfold bind, invoke, subscript, ret, raise. rewrite Hv.
    destruct (GemState.i_ruby a) as [rb|];
      [destruct (GemState.rvm_is_installed __salt__ (GemState.i_runas a))|];
      simpl.
    all: destruct (GemState.versions_of _ _) as [[|first versions]|]; try done.
    all: try (destruct (GemState.i_version a) as [version|]; [|done]).
    all: try (destruct (GemState.match_cmpr version) as [cmpr|]).
    all: try rewrite Hd.
    all: calls_made; not_mutating.
  - unfold GemState.removed, bind, invoke, subscript, ret, raise. rewrite Hv.
    destruct (GemState.versions_of _ _); [|done].
    calls_made; not_mutating.
  - unfold GemState.sources_add, bind, invoke, subscript, ret, raise.
    rewrite Hv, Hd. calls_made; not_mutating.
  - unfold GemState.sources_remove, bind, invoke, subscript, ret, raise.
    rewrite Hv. apply negb_false_iff in Hd. rewrite Hd. simpl.
    calls_made; not_mutating.
Qed.

(** X4. The pattern of [installed] never recognises the operator [<=]: the
    alternative [<] comes first. A gem listed with a first version for which
    [versions.compare] holds with the operator [<] and the text that is left
    when [<] is taken out of the version asked for is reported as meeting a
    requirement that starts with [<=]. *)
Theorem installed_reads_le_as_lt (__opts__ : list (string * PyVal))
    (a : GemState.InstallArgs) (version first : string)
    (versions log : list string) :
  GemState.i_version a = Some version ->
  String.prefix "<=" version = true ->
  GemState.versions_of (GemState.i_name a)
    (GemState.gem_list __salt__ (GemState.i_name a) (GemState.i_ruby a)
       (GemState.i_gem_bin a) (GemState.i_runas a))
  = Some (first :: versions) ->
  versions_compare (strip (re_sub "default: " "" first)) "<"
                   (strip (re_sub "<" "" version)) = true ->
  GemState.match_cmpr version = Some "<"
  /\ (GemState.installed versions_compare __salt__ __opts__ a log).1
     = Ret (mkStateRet (GemState.i_name a) (Some true)
              "Installed Gem meets version requirements." ∅).
Proof.
  intros Hver Hpre Hgems Hcmp.
  assert (Hm : GemState.match_cmpr version = Some "<").
  { destruct version as [|c1 rest]; [discriminate|].
    cbn [String.prefix] in Hpre.
    destruct (ascii_dec "<" c1) as [<-|]; [|discriminate].
    destruct rest as [|c2 rest]; [discriminate|]. by vm_compute. }
  split; [done|].
  unfold GemState.installed, bind, invoke, subscript, ret, raise.
  rewrite Hver.
  destruct (GemState.i_ruby a) as [rb|];
    [destruct (GemState.rvm_is_installed __salt__ (GemState.i_runas a))|];
    simpl; rewrite Hgems, Hm, Hcmp; reflexivity.
Qed.

End GemStateEdges.

Lemma gem_without_test_key_on_sample :
  let compare := fun _ _ _ : string => false in
  let c := GemState.Removed "rake" None None None in
  dict_get "test" [] = None
  /\ @GemState.in_desired_state Sample.builtins compare Sample.gem_salt c
     = false
  /\ GemState.well_listed Sample.gem_salt c = true
  /\ exists new,
       @GemState.run Sample.builtins compare Sample.gem_salt [] c []
       = (Raise (KeyError "test"), (new ++ [])%list)
       /\ Forall (fun key => key ∉ GemState.mutating) new.
Proof.
  intros compare c.
  split; [reflexivity|]. split; [reflexivity|]. split; [reflexivity|].
  apply (@gem_states_need_test_key Sample.builtins compare Sample.gem_salt []
           c []); reflexivity.
Defined.

Lemma rake_meets_le_requirement :
  let compare := fun _ oper _ : string => String.eqb oper "<" in
  let a :=
    GemState.mkInstallArgs "rake" None None None (Some "<=14") false false
      false None None in
  GemState.match_cmpr "<=14" = Some "<"
  /\ (@GemState.installed Sample.builtins compare Sample.gem_salt [] a []).1
     = Ret (mkStateRet "rake" (Some true)
              "Installed Gem meets version requirements." ∅).
Proof.
  intros compare a.
  apply (@installed_reads_le_as_lt Sample.builtins compare Sample.gem_salt []
           a "<=14" "13.0.6" [] []); reflexivity.
Defined.

(** ** salt/states/eselect.py *)

Section EselectMore.
Variable __salt__ : EselectState.Salt.
Variable __opts__ : list (string * PyVal).

(** X5. In test mode [set_] never invokes [eselect.set_target] and reports
    no changes; its result is [None] exactly when the target differs from
    the current one and is among the available targets. *)
Theorem eselect_set_dry_run (name target : string)
    (module_parameter action_parameter : option string) (log : list string)
    (test : PyVal) :
  dict_get "test" __opts__ = Some test ->
  truthy_val test = true ->
  exists r new,
    EselectState.set_ __salt__ __opts__ name target module_parameter
      action_parameter log
    = (Ret r, (new ++ log)%list)
    /\ r_changes r = ∅
    /\ ("eselect.set_target" ∉ new)
    /\ (r_result r = None <->
        Some target
        <> EselectState.get_current_target __salt__ name module_parameter
             action_parameter
        /\ target ∈ EselectState.get_target_list __salt__ name
                      action_parameter).
Proof.
  intros Hv Ht.
  unfold EselectState.set_, bind, invoke, subscript, ret. rewrite Hv, Ht.
  case_bool_decide as Hsame.
  - exists (mkStateRet name (Some true)
              ("Target '" +:+ target +:+ "' is already set on '" +:+ name
               +:+ "' module.") ∅), ["eselect.get_current_target"].
    repeat split; try done.
    + apply (bool_decide_unpack _). by vm_compute.
    + by intros [Hne _].
  - case_bool_decide as Hin; simpl.
    + eexists _, ["eselect.get_target_list"; "eselect.get_current_target"].
      repeat split; try done.
      apply (bool_decide_unpack _). by vm_compute.
    + eexists _, ["eselect.get_target_list"; "eselect.get_current_target"].
      repeat split; try done.
      * apply (bool_decide_unpack _). by vm_compute.
      * by intros [_ Hin'].
Qed.

(** X6. Whenever [set_] returns a record with changes, the result is [True],
    the last entry invoked was [eselect.set_target], and the change recorded
    is the pair of the old and the new target under the name of the
    module. *)
Theorem eselect_set_reports_the_change (name target : string)
    (module_parameter action_parameter : option string)
    (log log' : list string) (r : StateRet) :
  EselectState.set_ __salt__ __opts__ name target module_parameter
    action_parameter log
  = (Ret r, log') ->
  r_changes r <> ∅ ->
  r_result r = Some true
  /\ (exists new, log' = "eselect.set_target" :: (new ++ log)%list)
  /\ r_changes r
     = {[ name :=
            PDict [("old",
                    EselectState.opt_val
                      (EselectState.get_current_target __salt__ name
                         module_parameter action_parameter));
                   ("new", PStr target)] ]}.
Proof.
  unfold EselectState.set_, bind, invoke, subscript, ret, raise.
  case_bool_decide as Hsame; [by intros [= <- <-]|].
  case_bool_decide as Hin; simpl; [|by intros [= <- <-]].
  destruct (dict_get "test" __opts__) as [test|]; [|done].
  destruct (truthy_val test); [by intros [= <- <-]|].
  destruct (EselectState.set_target _ _ _ _ _); [|by intros [= <- <-]].
  intros [= <- <-] _. simpl. split; [done|]. split; [|done].
  by exists ["eselect.get_target_list"; "eselect.get_current_target"].
Qed.

End EselectMore.

(** A module with the targets one and two, set to one. *)
Lemma eselect_dry_run_on_sample :
  let salt :=
    {| EselectState.get_current_target := fun _ _ _ => Some "one";
       EselectState.get_target_list := fun _ _ => ["one"; "two"];
       EselectState.set_target := fun _ _ _ _ => true |} in
  dict_get "test" Sample.test_opts = Some (PBool true)
  /\ truthy_val (PBool true) = true
  /\ exists r new,
       EselectState.set_ salt Sample.test_opts "profile" "two" None None []
       = (Ret r, (new ++ [])%list)
       /\ r_changes r = ∅
       /\ ("eselect.set_target" ∉ new)
       /\ (r_result r = None <->
           Some "two" <> Some "one" /\ "two" ∈ ["one"; "two"]).
Proof.
  intros salt. split; [reflexivity|]. split; [reflexivity|].
  apply (eselect_set_dry_run salt Sample.test_opts "profile" "two" None None
           [] (PBool true)); reflexivity.
Defined.

Lemma eselect_change_on_sample :
  let salt :=
    {| EselectState.get_current_target := fun _ _ _ => Some "one";
       EselectState.get_target_list := fun _ _ => ["one"; "two"];
       EselectState.set_target := fun _ _ _ _ => true |} in
  let run :=
    EselectState.set_ salt [("test", PBool false)] "profile" "two" None None
      [] in
  r_changes
    (mkStateRet "profile" (Some true) "Target 'two' set on 'profile' module."
       {[ "profile" := PDict [("old", PStr "one"); ("new", PStr "two")] ]})
  <> ∅
  /\ run.2 = ["eselect.set_target"; "eselect.get_target_list";
              "eselect.get_current_target"]
  /\ r_changes
       (mkStateRet "profile" (Some true)
          "Target 'two' set on 'profile' module."
          {[ "profile" := PDict [("old", PStr "one"); ("new", PStr "two")] ]})
     = {[ "profile" := PDict [("old", PStr "one"); ("new", PStr "two")] ]}.
Proof.
  intros salt run.
  assert (Hne : r_changes
                  (mkStateRet "profile" (Some true)
                     "Target 'two' set on 'profile' module."
                     {[ "profile" :=
                          PDict [("old", PStr "one"); ("new", PStr "two")] ]})
                <> ∅) by apply insert_non_empty.
  split; [exact Hne|]. split; [reflexivity|].
  exact (proj2 (proj2 (eselect_set_reports_the_change salt
                         [("test", PBool false)] "profile" "two" None None []
                         _ _ eq_refl Hne))).
Defined.

(** ** salt/modules/mdata.py *)

Section MdataMore.
Context {W : Type} `{Builtins} `{Env W}.

(** The loop of [get_]: one entry per key, one command per key when the
    binary was found. *)
Lemma get_loop (mdata : ProbeOutcome) (keyname : list string) :
  forall (acc : gmap string string) (g : Rt W),
  exists d g',
    for_each keyname
      (fun k ret_ =>
         if truthy mdata then
           let* res := Mdata.salt_cmd_run_all (str mdata +:+ " " +:+ k) in
           ret (<[k := if Z.eqb (retcode res) 0 then stdout res else ""]> ret_)
         else ret (<[k := ""]> ret_))
      acc g
    = (Ret d, g')
    /\ (forall k, is_Some (d !! k) <-> is_Some (acc !! k) \/ k ∈ keyname)
    /\ length (shell g')
       = length (shell g) + (if truthy mdata then length keyname else 0).
Proof.
  destruct (truthy mdata) eqn:Hm.
  - induction keyname as [|k keyname IH]; intros acc g.
    + exists acc, g. split; [done|]. split; [|simpl; lia].
      intros k. rewrite elem_of_nil. tauto.
    + cbn [for_each]. unfold bind at 1. unfold bind at 1.
      unfold Mdata.salt_cmd_run_all at 1, ret at 1.
      destruct (cmd_run_all _ (host g)) as [res w'].
      destruct (IH (<[k := if Z.eqb (retcode res) 0 then stdout res else ""]>
                      acc)
                  (mkRt (cache g) (checks g)
                        ((str mdata +:+ " " +:+ k) :: shell g) w'))
        as (d & g' & Hrun & Hdom & Hlen).
      exists d, g'. split; [exact Hrun|]. split.
      * intros k'. rewrite Hdom, elem_of_cons, lookup_insert_is_Some.
        destruct (decide (k = k')) as [->|Hne]; intuition congruence.
      * rewrite Hlen. simpl. lia.
  - induction keyname as [|k keyname IH]; intros acc g.
    + exists acc, g. split; [done|]. split; [|simpl; lia].
      intros k. rewrite elem_of_nil. tauto.
    + cbn [for_each]. unfold bind at 1. unfold ret at 1.
      destruct (IH (<[k := ""]> acc) g) as (d & g' & Hrun & Hdom & Hlen).
      exists d, g'. split; [exact Hrun|]. split.
      * intros k'. rewrite Hdom, elem_of_cons, lookup_insert_is_Some.
        destruct (decide (k = k')) as [->|Hne]; intuition congruence.
      * rewrite Hlen. simpl. lia.
Qed.

(** X7. [get_] called with keys returns a dictionary with an entry for each
    key asked for and for no other, and runs one command per key when
    mdata-get was found and none when it was not. *)
Theorem get_answers_each_key (g g1 : Rt W) (p : ProbeOutcome) (k : string)
    (keyname : list string) :
  Mdata._check_mdata_get g = (Ret p, g1) ->
  exists d g',
    Mdata.get_ (k :: keyname) g = (Ret d, g')
    /\ (forall k', is_Some (d !! k') <-> k' ∈ k :: keyname)
    /\ length (shell g')
       = length (shell g1)
         + (if truthy p then length (k :: keyname) else 0).
Proof.
  intros Hp. unfold Mdata.get_. unfold bind at 1. rewrite Hp.
  unfold bind at 1. unfold ret at 1.
  destruct (get_loop p (k :: keyname) ∅ g1) as (d & g' & Hrun & Hdom & Hlen).
  exists d, g'. split; [exact Hrun|]. split; [|exact Hlen].
  intros k'. rewrite Hdom, lookup_empty. split; [|by right].
  intros [[? [=]]|Hin]. done.
Qed.

(** X8. [delete_] reports [True] for every key without running a command
    after the listing, both when mdata-delete was not found and when none of
    the keys is in the listing. *)
Theorem delete_skips_unlisted_keys (g g' g'' : Rt W) (p : ProbeOutcome)
    (l : Mdata.Listing) (keyname : list string) :
  Mdata._check_mdata_delete g = (Ret p, g') ->
  Mdata.list_ g' = (Ret l, g'') ->
  truthy p = false \/ (forall k, k ∈ keyname -> Mdata.member k l = false) ->
  exists d,
    Mdata.delete_ keyname g = (Ret d, g'')
    /\ forall k, k ∈ keyname -> d !! k = Some true.
Proof.
  intros Hp Hl Hskip. unfold Mdata.delete_, bind. rewrite Hp, Hl.
  assert (Hloop : forall (acc : gmap string bool),
            for_each keyname
              (fun k ret_ =>
                 if truthy p && Mdata.member k l
                 then
                   fun s =>
                     match Mdata.salt_cmd_run_all (str p +:+ " " +:+ k) s with
                     | (Ret a, s') =>
                         ret (<[k := Z.eqb (retcode a) 0]> ret_) s'
                     | (Raise e, s') => (Raise e, s')
                     end
                 else ret (<[k := true]> ret_))
              acc g''
            = (Ret (foldl (fun acc x => <[x := true]> acc) acc keyname), g'')).
  { clear Hp Hl. induction keyname as [|k keyname IH]; intros acc; [done|].
    simpl. unfold bind.
    assert (Hk : truthy p && Mdata.member k l = false).
    { destruct Hskip as [->|Hun]; [done|].
      rewrite (Hun k) by apply list_elem_of_here. apply andb_false_r. }
    rewrite Hk. unfold ret at 1. apply IH.
    destruct Hskip as [?|Hun]; [by left|right].
    intros k' Hin. apply Hun. by apply list_elem_of_further. }
  rewrite Hloop. eexists. split; [done|].
  intros k Hin. by apply foldl_insert_const.
Qed.

End MdataMore.

Lemma get_two_keys_in_zone :
  let g1 := (@Mdata._check_mdata_get _ Sample.env (fresh Sample.zone)).2 in
  @Mdata._check_mdata_get _ Sample.env (fresh Sample.zone)
  = (Ret (Some "/usr/sbin/mdata-get"), g1)
  /\ exists d g',
       @Mdata.get_ _ Sample.builtins Sample.env ["salt:role"; "user-script"]
         (fresh Sample.zone)
       = (Ret d, g')
       /\ (forall k', is_Some (d !! k') <-> k' ∈ ["salt:role"; "user-script"])
       /\ length (shell g')
          = length (shell g1)
            + (if truthy (Some "/usr/sbin/mdata-get")
               then length ["salt:role"; "user-script"] else 0).
Proof.
  intros g1. split; [reflexivity|].
  exact (@get_answers_each_key _ Sample.builtins Sample.env
           (fresh Sample.zone) g1 (Some "/usr/sbin/mdata-get") "salt:role"
           ["user-script"] eq_refl).
Defined.

Lemma delete_on_bare_host :
  let g' := (@Mdata._check_mdata_delete _ Sample.env (fresh Sample.bare)).2 in
  let g'' := (@Mdata.list_ _ Sample.builtins Sample.env g').2 in
  @Mdata._check_mdata_delete _ Sample.env (fresh Sample.bare) = (Ret None, g')
  /\ @Mdata.list_ _ Sample.builtins Sample.env g'
     = (Ret Mdata.EmptyDict, g'')
  /\ exists d,
       @Mdata.delete_ _ Sample.builtins Sample.env ["salt:role"]
         (fresh Sample.bare)
       = (Ret d, g'')
       /\ forall k, k ∈ ["salt:role"] -> d !! k = Some true.
Proof.
  intros g' g''. split; [reflexivity|]. split; [reflexivity|].
  exact (@delete_skips_unlisted_keys _ Sample.builtins Sample.env
           (fresh Sample.bare) g' g'' None Mdata.EmptyDict ["salt:role"]
           eq_refl eq_refl (or_introl eq_refl)).
Defined.

(** ** salt/utils/win_lgpo_netsh.py *)

Section NetshMore.
Context {W : Type} `{Builtins} `{Env W}.
Variable __hostname__ : string.

Abbreviation _netsh_command := (Netsh._netsh_command __hostname__).
Abbreviation get_settings := (Netsh.get_settings __hostname__).
Abbreviation netsh_script := (Netsh.netsh_script __hostname__).
Abbreviation after_script := Netsh.after_script.

Lemma netsh_command_runs_script command store (g : Rt W) :
  Netsh.valid_store store = true ->
  _netsh_command command store g
  = (Ret (splitlines (netsh_f (netsh_script command store) (host g)).1),
     after_script (netsh_script command store) g).
Proof.
  unfold Netsh.valid_store, Netsh._netsh_command, Netsh.netsh_script,
    Netsh.after_script. intros ->. simpl. unfold bind, Netsh._netsh_file, ret.
  by destruct (String.eqb (lower store) "local"); destruct (netsh_f _ _).
Qed.

(** A call of [get_settings] that returns has run exactly one script. *)
Lemma get_settings_returns_after_one profile section store (g g' : Rt W) d :
  get_settings profile section store g = (Ret d, g') ->
  Netsh.valid_store store = true
  /\ g' = after_script
            (netsh_script ("show " +:+ profile +:+ "profile " +:+ section)
               store) g.
Proof.
  unfold Netsh.get_settings.
  destruct (in_tuple (lower profile) Netsh.profiles); [|done].
  destruct (in_tuple (lower section) _); [|done].
  destruct (in_tuple (lower store) ["local"; "lgpo"]) eqn:Hs; [|done].
  simpl. unfold bind. rewrite netsh_command_runs_script by done.
  intros Hrun. split; [done|]. revert Hrun.
  repeat match goal with
         | |- context [if ?b then _ else _] => destruct b
         | |- context [match ?x with _ => _ end] => destruct x
         end; unfold raise, ret; congruence.
Qed.

(** Facts about the text functions of the parsing. *)
Lemma remove_spaces_no_blank (s : string) :
  has_char " " (remove_spaces s) = false.
Proof.
  induction s as [|c s IH]; [done|]. simpl.
  destruct (Ascii.eqb c " ") eqn:Hc; [done|]. simpl. by rewrite Hc.
Qed.

Lemma split_on_parts (sep c : ascii) (s : string) :
  Forall (fun part => has_char sep part = false
                      /\ (has_char c s = false -> has_char c part = false))
         (split_on sep s).
Proof.
  induction s as [|a s IH]; simpl.
  - by repeat constructor.
  - destruct (Ascii.eqb a sep) eqn:Ha.
    + constructor; [done|]. eapply Forall_impl; [exact IH|].
      intros part [Hsep Hc]. split; [done|]. intros Hor.
      apply orb_false_iff in Hor as [_ Hs]. auto.
    + destruct (split_on sep s) as [|w ws].
      { constructor; [|constructor]. simpl. rewrite Ha. split; [done|].
        intros Hor. apply orb_false_iff in Hor as [Hac _]. by rewrite Hac. }
      inversion IH as [|? ? [Hsep Hc] Hws]; subst. constructor.
      * simpl. rewrite Ha. split; [done|]. intros Hor.
        apply orb_false_iff in Hor as [Hac Hs]. rewrite Hac. simpl. auto.
      * eapply Forall_impl; [exact Hws|].
        intros part [Hsep' Hc']. split; [done|]. intros Hor.
        apply orb_false_iff in Hor as [_ Hs]. auto.
Qed.


Lemma firewallpolicy_result profile store (g g' : Rt W)
    (d : gmap string string) :
  get_settings profile "firewallpolicy" store g = (Ret d, g') ->
  exists inbound outbound,
    d = <["Outbound" := outbound]> (<["Inbound" := inbound]> ∅)
    /\ has_char "," inbound = false /\ has_char " " inbound = false
    /\ has_char "," outbound = false /\ has_char " " outbound = false.
Proof.
  unfold Netsh.get_settings.
  destruct (in_tuple (lower profile) Netsh.profiles); [|done].
  destruct (in_tuple (lower store) ["local"; "lgpo"]) eqn:Hs; [|done].
  simpl. unfold bind. rewrite netsh_command_runs_script by done.
  destruct (Nat.ltb _ 3); [done|].
  rewrite lookup_fmap.
  destruct (foldl _ _ _ !! "Firewall Policy") as [policy|]; [|done]. simpl.
  pose proof (split_on_parts "," " " (remove_spaces policy)) as Hparts.
  destruct (split_on "," (remove_spaces policy)) as [|i [|o [|x xs]]];
    try done.
  intros [= <- _]. exists i, o. split; [done|].
  inversion Hparts as [|? ? [Hi1 Hi2] Hrest]; subst.
  inversion Hrest as [|? ? [Ho1 Ho2] _]; subst.
  pose proof (remove_spaces_no_blank policy). auto.
Qed.

(** X10. What [get_settings] returns for the section [firewallpolicy] has
    the two keys [Inbound] and [Outbound] and no other, and neither value
    holds a comma or a blank. *)
Theorem firewallpolicy_has_two_keys profile store (g g' : Rt W)
    (d : gmap string string) :
  get_settings profile "firewallpolicy" store g = (Ret d, g') ->
  exists inbound outbound,
    d = <["Outbound" := outbound]> (<["Inbound" := inbound]> ∅)
    /\ has_char "," inbound = false /\ has_char " " inbound = false
    /\ has_char "," outbound = false /\ has_char " " outbound = false.
Proof. apply firewallpolicy_result. Qed.

Lemma get_all_settings_returns_after_four profile store (g g' : Rt W) d :
  Netsh.get_all_settings __hostname__ profile store g = (Ret d, g') ->
  length (shell g') = 4 + length (shell g)
  /\ cache g' = cache g /\ checks g' = checks g.
Proof.
  unfold Netsh.get_all_settings, bind.
  destruct (get_settings profile "state" store g) as [[d1|] g1] eqn:H1;
    [|done].
  destruct (get_settings profile "firewallpolicy" store g1) as [[d2|] g2]
    eqn:H2; [|done].
  destruct (get_settings profile "settings" store g2) as [[d3|] g3] eqn:H3;
    [|done].
  destruct (get_settings profile "logging" store g3) as [[d4|] g4] eqn:H4;
    [|done].
  intros [= _ <-].
  apply get_settings_returns_after_one in H1 as [_ ->].
  apply get_settings_returns_after_one in H2 as [_ ->].
  apply get_settings_returns_after_one in H3 as [_ ->].
  apply get_settings_returns_after_one in H4 as [_ ->].
  done.
Qed.

(** X11. A call of [get_all_profiles] that returns has run twelve scripts,
    four for each of the three profiles, and has left the stored probes
    alone. *)
Theorem get_all_profiles_runs_twelve store (g g' : Rt W)
    (r : list (string * gmap string string)) :
  Netsh.get_all_profiles __hostname__ store g = (Ret r, g') ->
  length (shell g') = 12 + length (shell g)
  /\ cache g' = cache g
  /\ r.*1 = ["Domain Profile"; "Private Profile"; "Public Profile"].
Proof.
  unfold Netsh.get_all_profiles, bind.
  destruct (Netsh.get_all_settings __hostname__ "domain" store g)
    as [[d1|] g1] eqn:H1; [|done].
  destruct (Netsh.get_all_settings __hostname__ "private" store g1)
    as [[d2|] g2] eqn:H2; [|done].
  destruct (Netsh.get_all_settings __hostname__ "public" store g2)
    as [[d3|] g3] eqn:H3; [|done].
  intros [= <- <-].
  apply get_all_settings_returns_after_four in H1 as (L1 & C1 & _).
  apply get_all_settings_returns_after_four in H2 as (L2 & C2 & _).
  apply get_all_settings_returns_after_four in H3 as (L3 & C3 & _).
  split; [lia|]. split; [congruence|done].
Qed.

Lemma run_set_outcome command store (g : Rt W) :
  Netsh.valid_store store = true ->
  let script := netsh_script command store in
  let results := splitlines (netsh_f script (host g)).1 in
  Netsh.run_set __hostname__ command store g
  = (match results with
     | [] => Ret true
     | _ => Raise (CommandExecutionError
                     ("An error occurred: " +:+ repr_lines results))
     end, after_script script g).
Proof.
  intros Hv script results. unfold Netsh.run_set, bind.
  rewrite netsh_command_runs_script by done. fold script. fold results.
  by destruct results.
Qed.

(** X12. With the setting [maxfilesize], [set_logging_settings] turns a
    value down, before any script is run, exactly when the value is not
    [notconfigured] and is not read by [int] as a number from 1 to
    32767. *)
Theorem maxfilesize_is_bounded profile setting_ value store (g : Rt W) :
  Netsh.valid_profile profile = true ->
  lower setting_ = "maxfilesize" ->
  Netsh.valid_store store = true ->
  Netsh.set_logging_settings __hostname__ profile setting_ value store g
  = (Raise (ValueError ("Incorrect value: " +:+ value)), g)
  <-> lower value <> "notconfigured"
      /\ forall n, int_of_str value = Some n -> (n < 1 \/ 32767 < n)%Z.
Proof.
  intros Hp Hset Hst. unfold Netsh.valid_profile in Hp.
  unfold Netsh.set_logging_settings. rewrite Hp, Hset.
  assert (Hin4 : in_tuple "maxfilesize"
                   ["allowedconnections"; "droppedconnections"; "filename";
                    "maxfilesize"] = true) by by vm_compute.
  assert (Hin2 : in_tuple "maxfilesize"
                   ["allowedconnections"; "droppedconnections"] = false)
    by by vm_compute.
  rewrite Hin4, Hin2. simpl.
  destruct (String.eqb (lower value) "notconfigured") eqn:Hnc; simpl.
  - apply String.eqb_eq in Hnc. rewrite run_set_outcome by done. split.
    + by destruct (splitlines _).
    + by intros [Hne _].
  - apply String.eqb_neq in Hnc.
    destruct (int_of_str value) as [n|]; simpl.
    + destruct ((1 <=? n)%Z && (n <=? 32767)%Z) eqn:Hb; simpl.
      * apply andb_true_iff in Hb as [H1 H2].
        apply Z.leb_le in H1, H2. rewrite run_set_outcome by done. split.
        -- by destruct (splitlines _).
        -- intros [_ Hout]. specialize (Hout n eq_refl). lia.
      * split; [|done]. intros _. split; [done|]. intros m [= <-].
        apply andb_false_iff in Hb as [Hb|Hb]; apply Z.leb_gt in Hb; lia.
    + split; [|done]. intros _. by split.
Qed.

(** X13. [set_firewall_settings] given the inbound setting alone first
    asks for the current policy and then sets the inbound setting given
    together with the outbound setting it was told: the second script is
    the [set] command with that pair. *)
Theorem set_firewall_keeps_other_direction profile inbound store
    (g g1 : Rt W) (d : gmap string string) :
  Netsh.valid_profile profile = true ->
  truthy_str inbound = true ->
  in_tuple (lower inbound)
    ["blockinbound"; "blockinboundalways"; "allowinbound"; "notconfigured"]
  = true ->
  get_settings profile "firewallpolicy" store g = (Ret d, g1) ->
  exists outbound,
    d !! "Outbound" = Some outbound
    /\ (Netsh.set_firewall_settings __hostname__ profile (Some inbound) None
          store g).2
       = after_script
           (netsh_script
              ("set " +:+ profile +:+ "profile firewallpolicy " +:+ inbound
               +:+ "," +:+ outbound) store) g1.
Proof.
  intros Hp Hi Hin Hget. unfold Netsh.valid_profile in Hp.
  destruct (firewallpolicy_result _ _ _ _ _ Hget) as (i & o & -> & _).
  destruct (get_settings_returns_after_one _ _ _ _ _ _ Hget) as [Hst _].
  exists o. split; [by simplify_map_eq|].
  unfold Netsh.set_firewall_settings. rewrite Hp. simpl. rewrite Hi, Hin.
  simpl. unfold bind at 1. unfold bind at 1. rewrite Hget.
  unfold ret at 1. unfold bind at 1. unfold Netsh.setting.
  rewrite lookup_insert_eq. unfold ret at 1. unfold ret at 1. simpl.
  by rewrite run_set_outcome.
Qed.

(** X14. A [set_] call with its arguments and its store in order that
    needs no lookup runs exactly one script, returns [True] when netsh
    prints nothing and raises [CommandExecutionError] when it prints
    anything. *)
Theorem direct_set_succeeds_iff_silent (c : Netsh.Call) (g : Rt W) :
  Netsh.sets_directly c = true ->
  Netsh.other_args_ok c = true ->
  Netsh.valid_store (Netsh.store_of c) = true ->
  exists command,
    (Netsh.run __hostname__ c g).2
    = after_script (netsh_script command (Netsh.store_of c)) g
    /\ ((Netsh.run __hostname__ c g).1 = None <->
        splitlines
          (netsh_f (netsh_script command (Netsh.store_of c)) (host g)).1
        = [])
    /\ ((Netsh.run __hostname__ c g).1 = None
        \/ exists msg,
             (Netsh.run __hostname__ c g).1
             = Some (CommandExecutionError msg)).
Proof.
  intros Hdir Hok Hst.
  assert (Hrun : forall command,
            let r := Netsh.raised (Netsh.run_set __hostname__ command
                                     (Netsh.store_of c)) g in
            r.2 = after_script (netsh_script command (Netsh.store_of c)) g
            /\ (r.1 = None <->
                splitlines
                  (netsh_f (netsh_script command (Netsh.store_of c))
                     (host g)).1 = [])
            /\ (r.1 = None
                \/ exists msg, r.1 = Some (CommandExecutionError msg))).
  { intros command. unfold Netsh.raised. rewrite run_set_outcome by done.
    destruct (splitlines _) as [|line lines]; simpl;
      (split; [done|]); (split; [done|]); eauto. }
  destruct c as [command store|profile section store|profile store|store
                |profile inbound outbound store|profile setting_ value store
                |profile setting_ value store|profile state store];
    try discriminate Hdir; simpl in Hdir, Hok, Hst; simpl.
  - apply andb_true_iff in Hdir as [Hi Ho].
    rewrite Hi, Ho in Hok. simpl in Hok. rewrite andb_true_r in Hok.
    apply andb_true_iff in Hok as [Hok Ho'].
    apply andb_true_iff in Hok as [Hp Hi'].
    unfold Netsh.valid_profile in Hp.
    unfold Netsh.set_firewall_settings. rewrite Hp, Hi, Ho, Hi', Ho'. simpl.
    eexists. apply (Hrun _).
  - repeat (apply andb_true_iff in Hok as [Hok ?]).
    unfold Netsh.valid_profile in Hok.
    unfold Netsh.set_logging_settings. rewrite Hok.
    match goal with Hs : in_tuple (lower setting_) _ = true |- _ =>
      rewrite Hs end. simpl.
    destruct (in_tuple (lower setting_) [_; _]); simpl in *.
    + match goal with Hs : in_tuple (lower value) _ = true |- _ =>
        rewrite Hs end. simpl.
      destruct (String.eqb (lower setting_) "maxfilesize"); simpl in *.
      * destruct (String.eqb (lower value) "notconfigured"); simpl in *;
          [eexists; apply (Hrun _)|].
        destruct (int_of_str value) as [n|]; [|done].
        match goal with Hs : _ && _ = true |- _ => rewrite Hs end. simpl.
        eexists; apply (Hrun _).
      * eexists; apply (Hrun _).
    + destruct (String.eqb (lower setting_) "maxfilesize"); simpl in *.
      * destruct (String.eqb (lower value) "notconfigured"); simpl in *;
          [eexists; apply (Hrun _)|].
        destruct (int_of_str value) as [n|]; [|done].
        match goal with Hs : _ && _ = true |- _ => rewrite Hs end. simpl.
        eexists; apply (Hrun _).
      * eexists; apply (Hrun _).
  - repeat (apply andb_true_iff in Hok as [Hok ?]).
    unfold Netsh.valid_profile in Hok.
    unfold Netsh.set_settings. rewrite Hok.
    repeat match goal with Hs : in_tuple _ _ = true |- _ =>
             rewrite Hs; clear Hs end. simpl.
    eexists; apply (Hrun _).
  - apply andb_true_iff in Hok as [Hp Hs].
    unfold Netsh.valid_profile in Hp.
    unfold Netsh.set_state. rewrite Hp, Hs. simpl.
    eexists; apply (Hrun _).
Qed.

End NetshMore.


Lemma firewallpolicy_on_sample :
  exists d g',
    @Netsh.get_settings _ Sample.netsh_builtins Sample.netsh_env "minion"
      "domain" "firewallpolicy" "local" (fresh Sample.desktop)
    = (Ret d, g')
    /\ exists inbound outbound,
         d = <["Outbound" := outbound]> (<["Inbound" := inbound]> ∅)
         /\ has_char "," inbound = false /\ has_char " " inbound = false
         /\ has_char "," outbound = false /\ has_char " " outbound = false.
Proof.
  destruct (@Netsh.get_settings _ Sample.netsh_builtins Sample.netsh_env
              "minion" "domain" "firewallpolicy" "local"
              (fresh Sample.desktop)) as [[d|e] g'] eqn:Hget;
    [|by vm_compute in Hget].
  exists d, g'. split; [reflexivity|].
  exact (@firewallpolicy_has_two_keys _ Sample.netsh_builtins
           Sample.netsh_env "minion" "domain" "local"
           (fresh Sample.desktop) g' d Hget).
Defined.

Lemma get_all_profiles_on_sample :
  exists r g',
    @Netsh.get_all_profiles _ Sample.netsh_builtins Sample.netsh_env
      "minion" "local" (fresh Sample.desktop)
    = (Ret r, g')
    /\ length (shell g') = 12 + length (shell (fresh Sample.desktop))
    /\ cache g' = cache (fresh Sample.desktop)
    /\ r.*1 = ["Domain Profile"; "Private Profile"; "Public Profile"].
Proof.
  destruct (@Netsh.get_all_profiles _ Sample.netsh_builtins
              Sample.netsh_env "minion" "local" (fresh Sample.desktop))
    as [[r|e] g'] eqn:Hrun; [|by vm_compute in Hrun].
  exists r, g'. split; [reflexivity|].
  exact (@get_all_profiles_runs_twelve _ Sample.netsh_builtins
           Sample.netsh_env "minion" "local" (fresh Sample.desktop) g' r
           Hrun).
Defined.

Lemma maxfilesize_40000_is_turned_down :
  @Netsh.set_logging_settings _ Sample.netsh_builtins Sample.netsh_env
    "minion" "domain" "maxfilesize" "40000" "local" (fresh Sample.desktop)
  = (Raise (ValueError "Incorrect value: 40000"), fresh Sample.desktop).
Proof.
  apply (proj2 (@maxfilesize_is_bounded _ Sample.netsh_builtins
                  Sample.netsh_env "minion" "domain" "maxfilesize" "40000"
                  "local" (fresh Sample.desktop) eq_refl eq_refl eq_refl)).
  split; [discriminate|].
  intros n Hn. vm_compute in Hn. injection Hn as <-. right. lia.
Defined.

Lemma allowinbound_keeps_outbound_on_sample :
  exists d g1,
    @Netsh.get_settings _ Sample.netsh_builtins Sample.netsh_env "minion"
      "domain" "firewallpolicy" "local" (fresh Sample.desktop)
    = (Ret d, g1)
    /\ exists outbound,
         d !! "Outbound" = Some outbound
         /\ (@Netsh.set_firewall_settings _ Sample.netsh_builtins
               Sample.netsh_env "minion" "domain" (Some "allowinbound") None
               "local" (fresh Sample.desktop)).2
            = @Netsh.after_script _ Sample.netsh_env
                (@Netsh.netsh_script Sample.netsh_builtins "minion"
                   ("set domainprofile firewallpolicy allowinbound,"
                    +:+ outbound) "local") g1.
Proof.
  destruct (@Netsh.get_settings _ Sample.netsh_builtins Sample.netsh_env
              "minion" "domain" "firewallpolicy" "local"
              (fresh Sample.desktop)) as [[d|e] g1] eqn:Hget;
    [|by vm_compute in Hget].
  exists d, g1. split; [reflexivity|].
  exact (@set_firewall_keeps_other_direction _ Sample.netsh_builtins
           Sample.netsh_env "minion" "domain" "allowinbound" "local"
           (fresh Sample.desktop) g1 d eq_refl eq_refl eq_refl Hget).
Defined.

Lemma set_state_on_sample :
  exists command,
    (@Netsh.run _ Sample.netsh_builtins Sample.netsh_env "minion"
       (Netsh.SetState "domain" "on" "local") (fresh Sample.desktop)).2
    = @Netsh.after_script _ Sample.netsh_env
        (@Netsh.netsh_script Sample.netsh_builtins "minion" command "local")
        (fresh Sample.desktop)
    /\ (@Netsh.run _ Sample.netsh_builtins Sample.netsh_env "minion"
          (Netsh.SetState "domain" "on" "local") (fresh Sample.desktop)).1
       = None.
Proof.
  destruct (@direct_set_succeeds_iff_silent _ Sample.netsh_builtins
              Sample.netsh_env "minion"
              (Netsh.SetState "domain" "on" "local") (fresh Sample.desktop)
              eq_refl eq_refl eq_refl) as (command & Hstate & Hiff & _).
  exists command. split; [exact Hstate|]. reflexivity.
Defined.

(** ** salt/runners/asam.py *)

Section AsamMore.
Context `{Builtins}.

Lemma scan_empty_url (first : string * PyVal) (rest : list (string * PyVal)) :
  Asam.scan "" (first :: rest) = Asam.scan "" [first].
Proof.
  destruct first as [server config]. simpl.
  destruct (Asam.get config "username" PNone); [|done].
  destruct (Asam.get config "password" PNone); [|done].
  destruct (Asam.get config "protocol" (PStr "https")); [|done].
  destruct (Asam.get config "port" (PInt 3451)); [|done].
  destruct (Asam.get config "verify_ssl" PNone); [|done].
  by destruct (negb (truthy_val a) || negb (truthy_val a0)).
Qed.

(** X15. Called without a server, [_get_asam_configuration] looks at the
    first server of the configuration only: the servers after it change
    nothing. *)
Theorem asam_first_server_only (opts opts' : list (string * PyVal))
    (first : string * PyVal) (rest : list (string * PyVal)) :
  dict_get "asam" opts = Some (PDict (first :: rest)) ->
  dict_get "asam" opts' = Some (PDict [first]) ->
  Asam._get_asam_configuration opts "" = Asam._get_asam_configuration opts' "".
Proof.
  intros Ho Ho'. unfold Asam._get_asam_configuration. rewrite Ho, Ho'.
  simpl truthy_val. cbn iota. unfold Asam.items.
  by rewrite scan_empty_url.
Qed.

Lemma scan_stops_without_credentials (driver_url : string)
    (before : list (string * PyVal)) (server : string) (config : PyVal)
    (after : list (string * PyVal)) :
  truthy_str driver_url = true ->
  Forall (fun s => Asam.has_credentials s.2 = true /\ s.1 <> driver_url)
         before ->
  Asam.has_credentials config = false ->
  Asam.scan driver_url (before ++ (server, config) :: after)
  = Ret (Some Asam.CFalse)
  \/ exists e,
       Asam.scan driver_url (before ++ (server, config) :: after) = Raise e.
Proof.
  intros Hurl Hbefore Hbad.
  induction Hbefore as [|[name cfg] before [Hcred Hname] _ IH].
  - simpl. destruct config as [| | | | |items]; simpl; eauto.
    unfold Asam.has_credentials in Hbad.
    destruct (dict_get "username" items) as [u|];
      destruct (dict_get "password" items) as [pw|]; simpl.
    + apply andb_false_iff in Hbad as [->| ->]; simpl; eauto.
      rewrite orb_true_r. eauto.
    + destruct (truthy_val u); simpl; eauto.
    + eauto.
    + eauto.
  - simpl in Hcred, Hname. simpl.
    destruct cfg as [| | | | |items]; try discriminate.
    unfold Asam.has_credentials in Hcred. simpl.
    destruct (dict_get "username" items) as [u|]; [|discriminate].
    destruct (dict_get "password" items) as [pw|]; [|discriminate].
    apply andb_true_iff in Hcred as [-> ->]. simpl. rewrite Hurl. simpl.
    apply String.eqb_neq in Hname. rewrite String.eqb_sym, Hname. exact IH.
Qed.

(** X16. Asked for a server, [_get_asam_configuration] returns [False] as
    soon as it meets a server without a user name or a password, also when
    the server asked for is listed after that one with both. *)
Theorem asam_earlier_server_blocks_lookup (opts : list (string * PyVal))
    (driver_url : string) (before : list (string * PyVal)) (server : string)
    (config : PyVal) (after : list (string * PyVal)) :
  dict_get "asam" opts = Some (PDict (before ++ (server, config) :: after)) ->
  truthy_str driver_url = true ->
  Forall (fun s => Asam.has_credentials s.2 = true /\ s.1 <> driver_url)
         before ->
  Asam.has_credentials config = false ->
  Asam._get_asam_configuration opts driver_url = Asam.CFalse.
Proof.
  intros Ho Hurl Hbefore Hbad. unfold Asam._get_asam_configuration.
  rewrite Ho.
  assert (Ht : truthy_val (PDict (before ++ (server, config) :: after)) = true)
    by by destruct before.
  rewrite Ht. unfold Asam.items.
  by destruct (scan_stops_without_credentials driver_url before server config
                 after Hurl Hbefore Hbad) as [->|[e ->]].
Qed.

Lemma scan_result (driver_url : string) (servers : list (string * PyVal))
    (ret_ : list (string * PyVal)) :
  Asam.scan driver_url servers = Ret (Some (Asam.Config ret_)) ->
  exists server items username password,
    (server, PDict items) ∈ servers
    /\ Asam.has_credentials (PDict items) = true
    /\ (driver_url = "" \/ driver_url = server)
    /\ dict_get "username" items = Some username
    /\ truthy_val username = true
    /\ dict_get "password" items = Some password
    /\ truthy_val password = true
    /\ let protocol := default (PStr "https") (dict_get "protocol" items) in
       let port := default (PInt 3451) (dict_get "port" items) in
       let verify_ssl :=
         match default PNone (dict_get "verify_ssl" items) with
         | PNone => PBool true
         | v => v
         end in
       verify_ssl <> PNone
       /\ ret_
          = [("platform_edit_url",
               PStr (Asam.url protocol server port "PlatformEdit.html"));
             ("platform_config_url",
               PStr (Asam.url protocol server port "PlatformConfig.html"));
             ("platformset_edit_url",
               PStr (Asam.url protocol server port "PlatformSetEdit.html"));
             ("platformset_config_url",
               PStr (Asam.url protocol server port
                       "PlatformSetConfig.html"));
             ("username", username);
             ("password", password);
             ("verify_ssl", verify_ssl)].
Proof.
  induction servers as [|[server config] servers IH]; [done|]. simpl.
  destruct config as [| | | | |items]; try done. simpl.
  destruct (dict_get "username" items) as [u|] eqn:Hu; [|done].
  destruct (dict_get "password" items) as [pw|] eqn:Hpw;
    [|by destruct (truthy_val u)].
  destruct (truthy_val u) eqn:Htu; [|done].
  destruct (truthy_val pw) eqn:Htp; [|done].
  simpl.
  destruct (negb (truthy_str driver_url) || String.eqb driver_url server)
    eqn:Hsel.
  - intros [= <-]. exists server, items, u, pw.
    split; [apply list_elem_of_here|]. split.
    { unfold Asam.has_credentials. by rewrite Hu, Hpw, Htu, Htp. }
    split.
    { apply orb_true_iff in Hsel as [Hno|Heq].
      - left. apply negb_true_iff in Hno. unfold truthy_str in Hno.
        apply negb_false_iff in Hno. by apply String.eqb_eq in Hno.
      - right. by apply String.eqb_eq in Heq. }
    repeat (split; [done|]). cbv zeta.
    split; by destruct (dict_get "verify_ssl" items) as [[]|].
  - intros Hrest. destruct (IH Hrest) as (s & it & u' & pw' & Hin & Hrest').
    exists s, it, u', pw'. split; [by apply list_elem_of_further|done].
Qed.

(** X17. A configuration that [_get_asam_configuration] returns is that of
    a server listed under [asam], the server asked for if one was asked
    for, whose entry holds a truthy user name and a truthy password. It
    carries that user name and that password, the four addresses on that
    server with the protocol and the port of the entry ([https] and 3451
    when the entry has none), and the [verify_ssl] of the entry, [True] when
    the entry has none or has [None]: never [None]. *)
Theorem asam_configuration_is_complete (opts : list (string * PyVal))
    (driver_url : string) (ret_ : list (string * PyVal)) :
  Asam._get_asam_configuration opts driver_url = Asam.Config ret_ ->
  exists servers server items username password,
    dict_get "asam" opts = Some (PDict servers)
    /\ (server, PDict items) ∈ servers
    /\ Asam.has_credentials (PDict items) = true
    /\ (driver_url = "" \/ driver_url = server)
    /\ dict_get "username" items = Some username
    /\ truthy_val username = true
    /\ dict_get "password" items = Some password
    /\ truthy_val password = true
    /\ let protocol := default (PStr "https") (dict_get "protocol" items) in
       let port := default (PInt 3451) (dict_get "port" items) in
       let verify_ssl :=
         match default PNone (dict_get "verify_ssl" items) with
         | PNone => PBool true
         | v => v
         end in
       verify_ssl <> PNone
       /\ ret_
          = [("platform_edit_url",
               PStr (Asam.url protocol server port "PlatformEdit.html"));
             ("platform_config_url",
               PStr (Asam.url protocol server port "PlatformConfig.html"));
             ("platformset_edit_url",
               PStr (Asam.url protocol server port "PlatformSetEdit.html"));
             ("platformset_config_url",
               PStr (Asam.url protocol server port
                       "PlatformSetConfig.html"));
             ("username", username);
             ("password", password);
             ("verify_ssl", verify_ssl)].
Proof.
  unfold Asam._get_asam_configuration.
  destruct (dict_get "asam" opts) as [asam_config|]; [|done].
  destruct (truthy_val asam_config); [|done].
  destruct asam_config as [| | | | |servers]; try done. simpl.
  destruct (Asam.scan driver_url servers) as [[[ret'|]|]|] eqn:Hscan;
    try done; [|by destruct (truthy_str driver_url)].
  intros [= ->].
  destruct (scan_result _ _ _ Hscan) as (s & it & u & pw & Hrest).
  exists servers, s, it, u, pw. by split.
Qed.

End AsamMore.

Lemma asam_second_server_is_not_read :
  @Asam._get_asam_configuration Sample.builtins Sample.asam_opts ""
  = @Asam._get_asam_configuration Sample.builtins Sample.asam_opts_first_only
      "".
Proof.
  exact (@asam_first_server_only Sample.builtins Sample.asam_opts
           Sample.asam_opts_first_only
           ("prov1.domain.com", Sample.prov "TheUsername" "ThePassword")
           [("prov2.domain.com", Sample.prov "TheUsername" "ThePassword")]
           eq_refl eq_refl).
Defined.

Lemma asam_gap_blocks_second_server :
  @Asam._get_asam_configuration Sample.builtins Sample.asam_opts_gap
    "prov2.domain.com"
  = Asam.CFalse.
Proof.
  apply (@asam_earlier_server_blocks_lookup Sample.builtins
           Sample.asam_opts_gap "prov2.domain.com"
           [("prov1.domain.com", Sample.prov "TheUsername" "ThePassword")]
           "prov0.domain.com" (PDict [("username", PStr "u")])
           [("prov2.domain.com", Sample.prov "TheUsername" "ThePassword")]);
    try reflexivity.
  constructor; [|constructor]. split; [reflexivity|discriminate].
Defined.

Lemma asam_configuration_of_second_server :
  exists ret_,
    @Asam._get_asam_configuration Sample.builtins Sample.asam_opts
      "prov2.domain.com"
    = Asam.Config ret_
    /\ dict_get "username" ret_ = Some (PStr "TheUsername")
    /\ dict_get "password" ret_ = Some (PStr "ThePassword")
    /\ dict_get "verify_ssl" ret_ = Some (PBool true)
    /\ exists servers server items username password,
         dict_get "asam" Sample.asam_opts = Some (PDict servers)
         /\ (server, PDict items) ∈ servers
         /\ ("prov2.domain.com" = "" \/ "prov2.domain.com" = server)
         /\ dict_get "username" items = Some username
         /\ dict_get "password" items = Some password
         /\ dict_get "username" ret_ = Some username
         /\ dict_get "password" ret_ = Some password.
Proof.
  destruct (@Asam._get_asam_configuration Sample.builtins Sample.asam_opts
              "prov2.domain.com") as [ret_|] eqn:Hc;
    [|by vm_compute in Hc].
  exists ret_. split; [reflexivity|].
  destruct (@asam_configuration_is_complete Sample.builtins Sample.asam_opts
              "prov2.domain.com" ret_ Hc)
    as (servers & server & items & u & pw & Hasam & Hin & _ & Hurl & Hu & _
        & Hpw & _ & _ & Hret).
  vm_compute in Hc. injection Hc as <-.
  repeat (split; [reflexivity|]).
  exists servers, server, items, u, pw.
  repeat (split; [assumption|]).
  rewrite Hret. by split.
Defined.

(** ** Splitting and joining text *)

Lemma append_nil_l (t : string) : EmptyString +:+ t = t.
Proof. reflexivity. Qed.

Lemma append_cons (a : ascii) (s t : string) :
  String a s +:+ t = String a (s +:+ t).
Proof. reflexivity. Qed.

Lemma prefix_nil (t : string) : String.prefix EmptyString t = true.
Proof. by destruct t. Qed.

Lemma prefix_cons (a b : ascii) (s t : string) :
  String.prefix (String a s) (String b t)
  = if ascii_dec a b then String.prefix s t else false.
Proof. reflexivity. Qed.

Lemma append_assoc (a b c : string) : (a +:+ b) +:+ c = a +:+ b +:+ c.
Proof.
  induction a as [|x a IH]; [done|]. rewrite !append_cons. by f_equal.
Qed.

Lemma has_char_append (c : ascii) (a b : string) :
  has_char c (a +:+ b) = has_char c a || has_char c b.
Proof.
  induction a as [|x a IH]; [done|]. rewrite append_cons. simpl.
  rewrite IH. by rewrite orb_assoc.
Qed.

Lemma prefix_append (p q : string) : String.prefix p (p +:+ q) = true.
Proof.
  induction p as [|x p IH]; [apply prefix_nil|].
  rewrite append_cons, prefix_cons. by destruct (ascii_dec x x).
Qed.

Lemma split_on_not_nil (sep : ascii) (s : string) : split_on sep s <> [].
Proof.
  destruct s as [|a s]; [done|]. simpl.
  destruct (Ascii.eqb a sep); [done|]. by destruct (split_on sep s).
Qed.

Lemma split_on_plain (sep : ascii) (s : string) :
  has_char sep s = false -> split_on sep s = [s].
Proof.
  induction s as [|a s IH]; [done|]. simpl. intros Hor.
  apply orb_false_iff in Hor as [-> Hs]. by rewrite IH.
Qed.

Lemma split_on_append (sep : ascii) (p t : string) :
  has_char sep p = false ->
  split_on sep (p +:+ String sep t) = p :: split_on sep t.
Proof.
  induction p as [|a p IH].
  - intros _. rewrite append_nil_l. simpl. by rewrite Ascii.eqb_refl.
  - simpl. intros Hor. apply orb_false_iff in Hor as [Ha Hp].
    rewrite Ha. by rewrite IH.
Qed.

Lemma join_cons (sep p p' : string) (ps : list string) :
  join sep (p :: p' :: ps) = p +:+ sep +:+ join sep (p' :: ps).
Proof. reflexivity. Qed.

(** Splitting what was joined gives the parts back. *)
Lemma split_on_join (sep : ascii) (parts : list string) :
  parts <> [] ->
  Forall (fun part => has_char sep part = false) parts ->
  split_on sep (join (String sep EmptyString) parts) = parts.
Proof.
  intros Hne Hparts. induction Hparts as [|p ps Hp Hps IH]; [done|].
  destruct ps as [|p' ps]; [by apply split_on_plain|].
  rewrite join_cons, append_cons, append_nil_l.
  rewrite split_on_append by done. by rewrite IH.
Qed.

(** Joining what was split gives the text back. *)
Lemma join_split_on (sep : ascii) (s : string) :
  join (String sep EmptyString) (split_on sep s) = s.
Proof.
  induction s as [|a s IH]; [done|]. simpl.
  pose proof (split_on_not_nil sep s) as Hne.
  destruct (split_on sep s) as [|w ws] eqn:Hs; [done|].
  destruct (Ascii.eqb a sep) eqn:Ha.
  - apply Ascii.eqb_eq in Ha. subst a.
    rewrite join_cons, append_nil_l, append_cons, append_nil_l.
    by rewrite IH.
  - rewrite <- IH. destruct ws as [|w' ws]; [done|].
    by rewrite !join_cons, append_cons.
Qed.

Lemma join_snoc (sep : string) (parts : list string) (p : string) :
  parts <> [] -> join sep (parts ++ [p]) = join sep parts +:+ sep +:+ p.
Proof.
  induction parts as [|x parts IH]; [done|]. intros _.
  destruct parts as [|y parts]; [done|].
  rewrite <- !app_comm_cons, !join_cons, app_comm_cons.
  rewrite IH by done. by rewrite !append_assoc.
Qed.

(** What [rsplit] with one split leaves last: the text after the last
    separator, or the whole text when there is none. *)
Lemma rsplit1_last (sep : ascii) (s : string) :
  exists v,
    last (rsplit1 sep s) = Some v
    /\ has_char sep v = false
    /\ (s = v \/ exists before, s = before +:+ String sep v).
Proof.
  pose proof (join_split_on sep s) as Hjoin.
  pose proof (split_on_parts sep sep s) as Hparts.
  unfold rsplit1.
  rewrite <- (reverse_involutive (split_on sep s)) in Hjoin, Hparts.
  destruct (reverse (split_on sep s)) as [|after [|b before]].
  - exists s. simpl in Hjoin. subst s. split; [done|]. split; [done|by left].
  - exists after. rewrite reverse_singleton in Hjoin, Hparts.
    simpl in Hjoin. subst s.
    inversion Hparts as [|? ? [Hsep _] _]; subst.
    split; [done|]. split; [done|by left].
  - exists after. split; [done|].
    rewrite reverse_cons in Hjoin, Hparts.
    apply Forall_app in Hparts as [_ Hafter].
    apply Forall_inv in Hafter as [Hsep _]. split; [done|].
    right. exists (join (String sep EmptyString) (reverse (b :: before))).
    rewrite join_snoc in Hjoin.
    + by rewrite append_cons, append_nil_l in Hjoin.
    + rewrite reverse_cons. by destruct (reverse before).
Qed.

Lemma after_prefix_append (pre s : string) :
  after_prefix pre (pre +:+ s) = Some s.
Proof.
  induction pre as [|a pre IH]; [done|]. rewrite append_cons. simpl.
  by rewrite Ascii.eqb_refl.
Qed.

Lemma prefix_before_char (c : ascii) (p k v : string) :
  has_char c p = false ->
  String.prefix p (k +:+ String c v) = String.prefix p k.
Proof.
  revert k. induction p as [|a p IH]; intros k Hp.
  - by rewrite !prefix_nil.
  - simpl in Hp. apply orb_false_iff in Hp as [Ha Hp].
    destruct k as [|b k].
    + rewrite append_nil_l, prefix_cons.
      destruct (ascii_dec a c) as [->|]; [|done].
      by rewrite Ascii.eqb_refl in Ha.
    + rewrite append_cons, !prefix_cons.
      destruct (ascii_dec a b); [by apply IH|done].
Qed.

Lemma join_prepend (sep pre p : string) (ps : list string) :
  pre +:+ join sep (p :: ps) = join sep ((pre +:+ p) :: ps).
Proof.
  destruct ps as [|p' ps]; [done|]. by rewrite !join_cons, append_assoc.
Qed.

(** ** salt/runners/asam.py, the functions that read the answer of the
       server *)

Section AsamParsing.

Abbreviation written := (fun kv : string * string => kv.1 +:+ "=" +:+ kv.2).

Lemma value_of_parameter (k v : string) :
  has_char "=" k = false -> has_char "=" v = false ->
  Asam.value_of (k +:+ "=" +:+ v) = Ret v.
Proof.
  intros Hk Hv. unfold Asam.value_of.
  rewrite append_cons, append_nil_l, split_on_append by done.
  by rewrite split_on_plain.
Qed.

Lemma prefix_of_parameter (p k v : string) :
  has_char "=" p = false ->
  String.prefix p (k +:+ "=" +:+ v) = String.prefix p k.
Proof.
  intros Hp. rewrite append_cons, append_nil_l. by apply prefix_before_char.
Qed.

Lemma written_has_no_ampersand (parameters : list (string * string)) :
  Asam.plain parameters ->
  Forall (fun part => has_char "&" part = false) (map written parameters).
Proof.
  intros Hplain. apply Forall_map. eapply Forall_impl; [exact Hplain|].
  intros [k v] (Hk & _ & Hv & _). simpl in *.
  by rewrite !has_char_append, Hk, Hv.
Qed.

Lemma split_query (parameters : list (string * string)) :
  Asam.plain parameters -> parameters <> [] ->
  split_on "&" (Asam.query parameters) = map written parameters.
Proof.
  intros Hplain Hne. unfold Asam.query. apply split_on_join.
  - by destruct parameters.
  - by apply written_has_no_ampersand.
Qed.

Lemma platform_names_of_query (parameters : list (string * string)) :
  Asam.plain parameters ->
  Asam.platform_names (map written parameters)
  = Ret (map snd (List.filter
                    (fun kv => String.prefix "platformName" kv.1)
                    parameters)).
Proof.
  induction 1 as [|[k v] parameters (_ & Hk & _ & Hv) _ IH]; [done|].
  simpl in Hk, Hv. cbn [map Asam.platform_names List.filter fst snd].
  rewrite prefix_of_parameter by done.
  destruct (String.prefix "platformName" k); [|done].
  by rewrite value_of_parameter, IH.
Qed.

Lemma platform_set_names_of_query (parameters : list (string * string)) :
  Asam.plain parameters ->
  Asam.platform_set_names (map written parameters)
  = Ret (map (fun kv => unquote_blanks kv.2)
           (List.filter (fun kv => String.prefix "platformSetName" kv.1)
              parameters)).
Proof.
  induction 1 as [|[k v] parameters (_ & Hk & _ & Hv) _ IH]; [done|].
  simpl in Hk, Hv. cbn [map Asam.platform_set_names List.filter fst snd].
  rewrite prefix_of_parameter by done.
  destruct (String.prefix "platformSetName" k); [|done].
  by rewrite value_of_parameter, IH.
Qed.

Lemma first_set_name_of_query (parameters : list (string * string)) :
  Asam.plain parameters ->
  Asam.first_set_name (map written parameters)
  = Ret (head (map snd (List.filter
                          (fun kv => String.prefix "platformSetName" kv.1)
                          parameters))).
Proof.
  induction 1 as [|[k v] parameters (_ & Hk & _ & Hv) _ IH]; [done|].
  simpl in Hk, Hv. cbn [map Asam.first_set_name List.filter fst snd].
  rewrite prefix_of_parameter by done.
  destruct (String.prefix "platformSetName" k); [|done].
  by rewrite value_of_parameter.
Qed.

End AsamParsing.

Lemma platforms_of_one_link (parameters : list (string * string)) :
  Asam.plain parameters ->
  Asam.platform_names (split_on "&" (Asam.query parameters))
  = Ret (map snd (List.filter
                    (fun kv => String.prefix "platformName" kv.1)
                    parameters)).
Proof.
  intros Hplain. destruct parameters as [|p parameters]; [done|].
  rewrite split_query by done. by apply platform_names_of_query.
Qed.

(** X18. Given links to [PlatformEdit.html], each with a query of
    parameters that hold no [&] and no [=], [_get_platforms] returns the
    values of the parameters whose name starts with [platformName], link
    by link and in the order of the query. *)
Theorem get_platforms_reads_each_query
    (queries : list (list (string * string))) :
  Forall Asam.plain queries ->
  Asam._get_platforms
    (map (fun q => Some ("PlatformEdit.html?" +:+ Asam.query q)) queries)
  = Ret (concat
           (map (fun q =>
                   map snd (List.filter
                              (fun kv => String.prefix "platformName" kv.1)
                              q))
              queries)).
Proof.
  induction 1 as [|q queries Hq _ IH]; [done|].
  cbn [map Asam._get_platforms concat].
  by rewrite after_prefix_append, platforms_of_one_link, IH.
Qed.

Lemma platform_sets_of_one_link (parameters : list (string * string)) :
  Asam.plain parameters ->
  Asam.platform_set_names (split_on "&" (Asam.query parameters))
  = Ret (map (fun kv => unquote_blanks kv.2)
           (List.filter (fun kv => String.prefix "platformSetName" kv.1)
              parameters)).
Proof.
  intros Hplain. destruct parameters as [|p parameters]; [done|].
  rewrite split_query by done. by apply platform_set_names_of_query.
Qed.

(** X19. Given links to [PlatformSetEdit.html], [_get_platform_sets]
    returns the values of the parameters whose name starts with
    [platformSetName], each with [%20] turned into a blank. *)
Theorem get_platform_sets_reads_each_query
    (queries : list (list (string * string))) :
  Forall Asam.plain queries ->
  Asam._get_platform_sets
    (map (fun q => Some ("PlatformSetEdit.html?" +:+ Asam.query q)) queries)
  = Ret (concat
           (map (fun q =>
                   map (fun kv => unquote_blanks kv.2)
                     (List.filter
                        (fun kv => String.prefix "platformSetName" kv.1)
                        q))
              queries)).
Proof.
  induction 1 as [|q queries Hq _ IH]; [done|].
  cbn [map Asam._get_platform_sets concat].
  by rewrite after_prefix_append, platform_sets_of_one_link, IH.
Qed.

(** X20. [_get_platformset_name] looks for the platform name anywhere in
    the link, and splits the whole link at [&]: the first parameter stays
    joined to [PlatformEdit.html?] and is never read as a set name. For a
    link whose query holds no stray [&] or [=], the answer is the value of
    the first parameter after the first one whose name starts with
    [platformSetName], if the link holds the platform name at all. *)
Theorem platformset_name_skips_first_parameter (first : string * string)
    (parameters : list (string * string)) (platform_name : string) :
  Asam.plain (first :: parameters) ->
  let item := "PlatformEdit.html?" +:+ Asam.query (first :: parameters) in
  Asam._get_platformset_name [Some item] platform_name
  = Ret (if contains platform_name item
         then head (map snd (List.filter
                               (fun kv =>
                                  String.prefix "platformSetName" kv.1)
                               parameters))
         else None).
Proof.
  intros Hplain item. cbn [Asam._get_platformset_name].
  destruct (contains platform_name item); [|done].
  subst item. rewrite prefix_append. cbn [andb].
  unfold Asam.query. cbn [map]. rewrite join_prepend.
  rewrite split_on_join; [|done|].
  - cbn [Asam.first_set_name].
    replace (String.prefix "platformSetName"
               ("PlatformEdit.html?" +:+ first.1 +:+ "=" +:+ first.2))
      with false by done.
    inversion Hplain as [|? ? _ Hrest]; subst.
    rewrite first_set_name_of_query by done.
    by destruct (head _).
  - inversion Hplain as [|? ? (Hk & _ & Hv & _) Hrest]; subst.
    constructor; [|by apply written_has_no_ampersand].
    by rewrite !has_char_append, Hk, Hv.
Qed.

Lemma leading_hrefs_stop (values : list (option string)) (k : string)
    (v : option string) (rest : list (string * option string)) :
  k <> "href" ->
  Asam.leading_hrefs (map (fun x => ("href", x)) values ++ (k, v) :: rest)
  = values.
Proof.
  intros Hk. induction values as [|x values IH]; simpl.
  - apply String.eqb_neq in Hk. by rewrite Hk.
  - by rewrite IH.
Qed.

(** X21. The parser collects the [href] values of an [a] tag up to the
    first attribute that is not an [href]: an [href] written after another
    attribute is not collected, and a tag other than [a] gives nothing. *)
Theorem href_after_other_attribute_is_dropped (tag : string)
    (values : list (option string)) (k : string) (v : option string)
    (rest : list (string * option string)) :
  k <> "href" ->
  Asam.handle_starttag tag
    (map (fun x => ("href", x)) values ++ (k, v) :: rest)
  = if String.eqb tag "a" then values else [].
Proof.
  intros Hk. unfold Asam.handle_starttag.
  destruct (String.eqb tag "a"); [|done]. by apply leading_hrefs_stop.
Qed.

Abbreviation no_meta :=
  (Forall (fun line => String.prefix "<META" line = false)).

Lemma feed_loop_plain (mid : list string) :
  no_meta mid ->
  forall (fuel : nat) (pre rest fed : list string),
    Asam.feed_loop (length mid + fuel) (length pre) (pre ++ mid ++ rest)%list
      fed
    = Asam.feed_loop fuel (length pre + length mid)
        (pre ++ mid ++ rest)%list (fed ++ mid)%list.
Proof.
  induction 1 as [|line mid Hline _ IH]; intros fuel pre rest fed.
  - simpl. by rewrite Nat.add_0_r, app_nil_r.
  - cbn [length Nat.add Asam.feed_loop]. rewrite <- app_comm_cons.
    rewrite list_lookup_middle by done. rewrite Hline.
    replace (pre ++ line :: mid ++ rest)%list
      with ((pre ++ [line]) ++ mid ++ rest)%list
      by by rewrite <- app_assoc.
    replace (S (length pre)) with (length (pre ++ [line])%list)
      by (rewrite length_app; simpl; lia).
    rewrite IH. f_equal.
    + rewrite length_app. simpl. lia.
    + by rewrite <- app_assoc.
Qed.

Lemma feed_loop_end (fuel : nat) (l fed : list string) :
  Asam.feed_loop fuel (length l) l fed = (l, fed).
Proof.
  destruct fuel; [done|]. simpl.
  by rewrite lookup_ge_None_2 by lia.
Qed.

Lemma remove_first_middle (pre post : list string) (m : string) :
  no_meta pre -> String.prefix "<META" m = true ->
  remove_first m (pre ++ m :: post)%list = (pre ++ post)%list.
Proof.
  intros Hpre Hm. induction Hpre as [|line pre Hline _ IH]; simpl.
  - by rewrite String.eqb_refl.
  - destruct (String.eqb line m) eqn:Heq.
    + apply String.eqb_eq in Heq. congruence.
    + by rewrite IH.
Qed.

Lemma fed_lines_plain (lines : list string) :
  no_meta lines -> Asam.fed_lines lines = lines.
Proof.
  intros Hlines. unfold Asam.fed_lines.
  pose proof (feed_loop_plain lines Hlines 0 [] [] []) as Hloop.
  rewrite Nat.add_0_r, app_nil_r in Hloop. simpl in Hloop.
  by rewrite Hloop.
Qed.

Lemma feed_loop_step (fuel i : nat) (l fed : list string) :
  Asam.feed_loop (S fuel) i l fed
  = match l !! i with
    | None => (l, fed)
    | Some line =>
        if String.prefix "<META" line
        then Asam.feed_loop fuel (S i) (remove_first line l) fed
        else Asam.feed_loop fuel (S i) l (fed ++ [line])%list
    end.
Proof. reflexivity. Qed.

Lemma fed_lines_after_meta (pre post : list string) (m x : string) :
  no_meta pre -> no_meta post -> String.prefix "<META" m = true ->
  Asam.fed_lines (pre ++ m :: x :: post)%list = (pre ++ post)%list.
Proof.
  intros Hpre Hpost Hm. unfold Asam.fed_lines.
  rewrite length_app. cbn [length].
  pose proof (feed_loop_plain pre Hpre (S (S (length post))) []
                (m :: x :: post) []) as Hloop.
  cbn [length app Nat.add] in Hloop. rewrite Hloop.
  rewrite feed_loop_step, list_lookup_middle by done. rewrite Hm.
  rewrite remove_first_middle by done.
  pose proof (feed_loop_plain post Hpost 1 (pre ++ [x])%list [] pre)
    as Hrest.
  replace (S (length post)) with (length post + 1) by lia.
  replace (S (length pre)) with (length (pre ++ [x])%list)
    by (rewrite length_app; simpl; lia).
  replace (pre ++ x :: post)%list with ((pre ++ [x]) ++ post ++ [])%list
    by (by rewrite app_nil_r, <- app_assoc).
  rewrite Hrest.
  replace (length (pre ++ [x])%list + length post)
    with (length ((pre ++ [x]) ++ post ++ [])%list)
    by (rewrite !length_app; simpl; lia).
  by rewrite feed_loop_end.
Qed.

(** X22. [_parse_html_content] removes a line that starts with [<META]
    from the list it is looping over, so the loop steps over the line that
    follows: that line is not given to the parser, whatever it holds. The
    data collected are those of the text without the two lines. *)
Theorem line_after_meta_is_not_parsed
    (start_tags : list string -> list (string * list (string * option string)))
    (pre post : list string) (m x : string) :
  no_meta pre -> no_meta post -> String.prefix "<META" m = true ->
  Asam.fed_lines (pre ++ m :: x :: post)%list = (pre ++ post)%list
  /\ Asam._parse_html_content start_tags (pre ++ m :: x :: post)%list
     = Asam._parse_html_content start_tags (pre ++ post)%list.
Proof.
  intros Hpre Hpost Hm. split; [by apply fed_lines_after_meta|].
  unfold Asam._parse_html_content.
  rewrite fed_lines_after_meta by done.
  rewrite fed_lines_plain; [done|]. by apply Forall_app.
Qed.

Lemma get_platforms_on_sample :
  Asam._get_platforms
    [Some "PlatformEdit.html?platformName=vm1&platformSetName=set1";
     Some "PlatformEdit.html?manual=false&platformName=vm2"]
  = Ret ["vm1"; "vm2"].
Proof.
  apply (get_platforms_reads_each_query
           [[("platformName", "vm1"); ("platformSetName", "set1")];
            [("manual", "false"); ("platformName", "vm2")]]).
  repeat constructor.
Defined.

Lemma get_platform_sets_on_sample :
  Asam._get_platform_sets
    [Some "PlatformSetEdit.html?platformSetName=Linux%20hosts"]
  = Ret ["Linux hosts"].
Proof.
  apply (get_platform_sets_reads_each_query
           [[("platformSetName", "Linux%20hosts")]]).
  repeat constructor.
Defined.

Lemma platformset_name_first_is_not_read :
  Asam._get_platformset_name
    [Some "PlatformEdit.html?platformSetName=set1&platformName=vm1"] "vm1"
  = Ret None.
Proof.
  apply (platformset_name_skips_first_parameter ("platformSetName", "set1")
           [("platformName", "vm1")] "vm1").
  repeat constructor.
Defined.

Lemma href_after_class_is_dropped :
  Asam.handle_starttag "a"
    [("href", Some "first.html"); ("class", Some "menu");
     ("href", Some "second.html")]
  = [Some "first.html"].
Proof.
  apply (href_after_other_attribute_is_dropped "a" [Some "first.html"]
           "class" (Some "menu") [("href", Some "second.html")]).
  discriminate.
Defined.

Lemma link_after_meta_is_lost :
  Asam.fed_lines
    ["<html>"; "<META charset=utf-8>"; "<a href=PlatformEdit.html>";
     "</html>"]
  = ["<html>"; "</html>"]
  /\ Asam._parse_html_content
       (map (fun line => ("a", [("href", Some line)])))
       ["<html>"; "<META charset=utf-8>"; "<a href=PlatformEdit.html>";
        "</html>"]
     = Asam._parse_html_content
         (map (fun line => ("a", [("href", Some line)])))
         ["<html>"; "</html>"].
Proof.
  apply (line_after_meta_is_not_parsed
           (map (fun line => ("a", [("href", Some line)])))
           ["<html>"] ["</html>"] "<META charset=utf-8>"
           "<a href=PlatformEdit.html>");
    [repeat constructor|repeat constructor|reflexivity].
Defined.

(** ** salt/modules/nginx.py, the functions that run nginx *)

Section NginxMore.
Context {W : Type} `{Builtins} `{Env W} `{EnvStderr W}.

(** X23. [version] runs the path it was given followed by [-v], the text
    [None -v] when nginx was not found; with no line of output it raises
    [IndexError], and otherwise it returns what follows the last [/] of the
    first line, the whole line when it holds no [/]. *)
Theorem version_is_text_after_last_slash (g g1 : Rt W)
    (nginx : ProbeOutcome) :
  Nginx.__detect_os g = (Ret nginx, g1) ->
  let cmd := str nginx +:+ " -v" in
  shell (NginxCommands.version g).2 = cmd :: shell g1
  /\ match splitlines (cmd_run cmd (host g1)).1 with
     | [] =>
         exists msg, (NginxCommands.version g).1 = Raise (IndexError msg)
     | first :: _ =>
         exists v,
           (NginxCommands.version g).1 = Ret v
           /\ has_char "/" v = false
           /\ (first = v \/ exists before, first = before +:+ String "/" v)
     end.
Proof.
  intros Hos cmd. unfold NginxCommands.version, bind. rewrite Hos.
  unfold Mdata.salt_cmd_run. fold cmd.
  destruct (cmd_run cmd (host g1)) as [out w']. simpl.
  destruct (splitlines out) as [|first rest]; [by eauto|].
  destruct (rsplit1_last "/" first) as (v & Hlast & Hv & Hshape).
  rewrite Hlast. eauto.
Qed.

(** X24. [signal] with one of its five names, nginx found: the command is
    the path alone for [start] and the path with [-s] and the name
    otherwise; what is returned is the error output when there is any, else
    the output when there is any, else the sentence that the command
    completed. The return code of the command plays no part. *)
Theorem signal_answers_from_output (name path : string) (g g1 : Rt W) :
  in_tuple name NginxCommands.valid_signals = true ->
  Nginx.__detect_os g = (Ret (Some path), g1) ->
  let cmd :=
    path +:+ (if String.eqb name "start" then "" else " -s " +:+ name) in
  let err := cmd_stderr cmd (host g1) in
  let out := stdout (cmd_run_all cmd (host g1)).1 in
  (NginxCommands.signal (Some name) g).1
  = Ret (Some (if truthy_str err then strip err
               else if truthy_str out then strip out
               else NginxCommands.completed cmd))
  /\ shell (NginxCommands.signal (Some name) g).2 = cmd :: shell g1.
Proof.
  intros Hname Hos cmd err out. unfold NginxCommands.signal.
  rewrite Hname. cbn [negb]. unfold bind. rewrite Hos. fold cmd.
  unfold NginxCommands.salt_cmd_run_all. fold err. subst out.
  destruct (cmd_run_all cmd (host g1)) as [res w']. simpl.
  by destruct (Z.eqb (retcode res) 0), (truthy_str err),
    (truthy_str (stdout res)).
Qed.

(** X25. [signal] with one of its five names, nginx not found: the path
    [None] cannot be joined to the arguments, [TypeError] is raised and no
    command is run. *)
Theorem signal_without_nginx (name : string) (g g1 : Rt W) :
  in_tuple name NginxCommands.valid_signals = true ->
  Nginx.__detect_os g = (Ret None, g1) ->
  exists msg,
    NginxCommands.signal (Some name) g = (Raise (TypeError msg), g1).
Proof.
  intros Hname Hos. unfold NginxCommands.signal. rewrite Hname. cbn [negb].
  unfold bind. rewrite Hos. by eexists.
Qed.

End NginxMore.

Lemma version_on_web_host :
  shell (@NginxCommands.version _ Sample.builtins Sample.nginx_env
           (fresh Sample.web)).2
  = ["/usr/sbin/nginx -v"]
  /\ exists v,
       (@NginxCommands.version _ Sample.builtins Sample.nginx_env
          (fresh Sample.web)).1
       = Ret v
       /\ has_char "/" v = false
       /\ ("nginx version: nginx/1.18.0" = v
           \/ exists before,
                "nginx version: nginx/1.18.0" = before +:+ String "/" v).
Proof.
  exact (@version_is_text_after_last_slash _ Sample.builtins
           Sample.nginx_env (fresh Sample.web)
           (@Nginx.__detect_os _ Sample.nginx_env (fresh Sample.web)).2
           (Some "/usr/sbin/nginx") eq_refl).
Defined.

Lemma signal_reload_on_web_host :
  (@NginxCommands.signal _ Sample.builtins Sample.nginx_env
     Sample.nginx_stderr (Some "reload") (fresh Sample.web)).1
  = Ret (Some "nginx: [emerg] bind() to 0.0.0.0:80 failed")
  /\ shell (@NginxCommands.signal _ Sample.builtins Sample.nginx_env
              Sample.nginx_stderr (Some "reload") (fresh Sample.web)).2
     = ["/usr/sbin/nginx -s reload"].
Proof.
  exact (@signal_answers_from_output _ Sample.builtins Sample.nginx_env
           Sample.nginx_stderr "reload" "/usr/sbin/nginx" (fresh Sample.web)
           (@Nginx.__detect_os _ Sample.nginx_env (fresh Sample.web)).2
           eq_refl eq_refl).
Defined.

Lemma signal_stop_on_bare_host :
  exists msg,
    @NginxCommands.signal _ Sample.builtins Sample.nginx_env
      Sample.nginx_stderr (Some "stop") (fresh Sample.bare)
    = (Raise (TypeError msg),
       (@Nginx.__detect_os _ Sample.nginx_env (fresh Sample.bare)).2).
Proof.
  exact (@signal_without_nginx _ Sample.builtins Sample.nginx_env
           Sample.nginx_stderr "stop" (fresh Sample.bare)
           (@Nginx.__detect_os _ Sample.nginx_env (fresh Sample.bare)).2
           eq_refl eq_refl).
Defined.
